(** * Foodgram backend: the serializers of [api/serializers.py]

    A shallow embedding of the request/response shaping code of the
    recipe-sharing backend, followed by the properties its description
    states about it.

    Python values are a small universe [pyval]; a dict is a [gmap] keyed by
    strings; an exception is a constructor of [exn] carried by [result];
    code that touches the database threads a [DB] through the [M] monad,
    so that rows written before an exception stay written. *)

From Stdlib Require Import ZArith String Ascii List Bool Lia Sorted.
From stdpp Require Import base option gmap strings list.

Local Set Warnings "-register-all".
Local Open Scope string_scope.
Local Open Scope list_scope.
Local Open Scope Z_scope.

(** ** Python values, exceptions, results *)

(** The exceptions the embedded code can raise. [BinasciiError] is
    [binascii.Error], a subclass of [ValueError]; [DoesNotExist] is raised
    by a foreign key whose row is gone, [IntegrityError] by a row stored
    without a mandatory reference; [DatabaseError] stands for what a query
    raises that the database refuses, a subclass that depends on the
    database; [ValidationError] is the REST framework's, the only one
    reported to the client per field. *)
Inductive exn : Type :=
| AttributeError
| KeyError
| TypeError
| ValueError
| BinasciiError
| AssertionError
| DoesNotExist
| IntegrityError
| DatabaseError
| ValidationError.

Definition is_value_error (e : exn) : bool :=
  match e with
  | ValueError | BinasciiError => true
  | _ => false
  end.

Definition is_validation_error (e : exn) : bool :=
  match e with
  | ValidationError => true
  | _ => false
  end.

Inductive result (A : Type) : Type :=
| Ok (a : A)
| Raise (e : exn).
Arguments Ok {A} a.
Arguments Raise {A} e.

Definition rbind {A B : Type} (m : result A) (k : A -> result B) : result B :=
  match m with
  | Ok a => k a
  | Raise e => Raise e
  end.

Notation "'let*' x ':=' m 'in' k" := (rbind m (fun x => k))
  (at level 10, x pattern, m at level 100, k at level 200).

(** [django.core.files.base.ContentFile]: raw bytes and a file name. *)
Record ContentFile : Type := mkContentFile {
  content : list Z;
  name : string
}.

(** [request.user]: the framework's anonymous user, which has none of the
    model's relations, or a row of the user table. *)
Inductive request_user : Type :=
| AnonymousUser
| AuthenticatedUser (user_pk : Z).

(** The part of a request the serializers read. [query_params] is a
    [QueryDict]: every key holds the list of its values. *)
Record Request : Type := mkRequest {
  query_params : gmap string (list string);
  user : request_user
}.

(** The values the serializers handle. The characters of a [PyStr] are the
    code points of the Python string, so the strings of this universe are
    the Python strings whose code points are all below 256. *)
Inductive pyval : Type :=
| PyNone
| PyBool (b : bool)
| PyInt (z : Z)
| PyStr (s : string)
| PyList (l : list pyval)
| PyDict (d : gmap string pyval)
| PyFile (f : ContentFile)
| PyModel (model : string) (pk : Z)
| PyRequest (r : Request).

(** Truth value of [if v:]. *)
Definition truthy (v : pyval) : bool :=
  match v with
  | PyNone => false
  | PyBool b => b
  | PyInt z => negb (z =? 0)
  | PyStr s => negb (String.eqb s "")
  | PyList l => match l with [] => false | _ => true end
  | PyDict d => negb (bool_decide (d = ∅))
  | PyFile f => match content f with [] => false | _ => true end
  | PyModel _ _ => true
  | PyRequest _ => true
  end.

Definition is_none (v : pyval) : bool :=
  match v with
  | PyNone => true
  | _ => false
  end.

(** [d.get(key, default)]. *)
Definition dict_get (d : gmap string pyval) (key : string) (default : pyval) : pyval :=
  match d !! key with
  | Some v => v
  | None => default
  end.

(** [d.pop(key)]: the value and the dict without the key, [KeyError] when
    the key is missing. *)
Definition dict_pop (d : gmap string pyval) (key : string)
  : result (pyval * gmap string pyval) :=
  match d !! key with
  | Some v => Ok (v, delete key d)
  | None => Raise KeyError
  end.

(** [d[key]]. *)
Definition dict_item (d : gmap string pyval) (key : string) : result pyval :=
  match d !! key with
  | Some v => Ok v
  | None => Raise KeyError
  end.

(** [QueryDict.get(key, default)]: the last value of the key; the default
    when the key is missing or holds no value. *)
Definition querydict_get (q : gmap string (list string)) (key : string)
    (default : pyval) : pyval :=
  match q !! key with
  | Some vs => match last vs with
               | Some v => PyStr v
               | None => default
               end
  | None => default
  end.

(** ** Strings *)

Module Str.

(** [s.startswith(p)]. *)
Definition startswith (p s : string) : bool := String.prefix p s.

(** [s.split(sep)] for a non-empty separator, scanning left to right:
    [skip] counts the characters of a separator just matched that are
    still to be passed over, [piece] is the part read since the last
    separator. *)
Fixpoint split_from (sep s : string) (skip : nat) (piece : string) : list string :=
  match s with
  | EmptyString => [piece]
  | String c rest =>
      match skip with
      | S k => split_from sep rest k piece
      | O =>
          if String.prefix sep s
          then piece :: split_from sep rest (Nat.pred (String.length sep)) ""
          else split_from sep rest O (piece +:+ String c "")
      end
  end.

Definition split (sep s : string) : list string := split_from sep s O "".

(** The blanks [int] passes over at both ends of its argument: the ASCII
    ones (tab to carriage return, and the space) and, of the code points
    from 128 to 255, the two that are Unicode white space (next line and
    no-break space). The separators 28 to 31 are no blanks for [int]. *)
Definition is_space (c : ascii) : bool :=
  let n := Z.of_N (N_of_ascii c) in
  (n =? 32) || ((9 <=? n) && (n <=? 13)) || (n =? 133) || (n =? 160).

Fixpoint lstrip (s : string) : string :=
  match s with
  | String c rest => if is_space c then lstrip rest else s
  | EmptyString => EmptyString
  end.

Fixpoint rev_onto (s acc : string) : string :=
  match s with
  | EmptyString => acc
  | String c rest => rev_onto rest (String c acc)
  end.

Definition rev (s : string) : string := rev_onto s "".

(** [s.strip()]. *)
Definition strip (s : string) : string := rev (lstrip (rev (lstrip s))).

Definition digit (c : ascii) : option Z :=
  let n := Z.of_N (N_of_ascii c) in
  if (48 <=? n) && (n <=? 57) then Some (n - 48) else None.

(** Decimal digits with single underscores between digits, as [int]
    reads them. [acc] is [None] until a digit was read; [after_digit]
    tells whether an underscore may come next. *)
Fixpoint digits (s : string) (acc : option Z) (after_digit : bool) : option Z :=
  match s with
  | EmptyString => if after_digit then acc else None
  | String c rest =>
      match digit c with
      | Some d => digits rest (Some (10 * default 0 acc + d)) true
      | None =>
          if Ascii.eqb c "_" && after_digit then digits rest acc false else None
      end
  end.

(** [sys.int_info.default_max_str_digits]. *)
Definition max_str_digits : Z := 4300.

(** The number of digits of [s]. *)
Fixpoint count_digits (s : string) : Z :=
  match s with
  | EmptyString => 0
  | String c rest =>
      match digit c with
      | Some _ => 1 + count_digits rest
      | None => count_digits rest
      end
  end.

(** [int(s)] in base ten; [None] stands for its [ValueError]. Below code
    point 256 the only decimal digits are [0] to [9], so no other digit
    has to be read. A literal of more than [max_str_digits] digits is
    refused. *)
Definition to_int (s : string) : option Z :=
  let t := strip s in
  if max_str_digits <? count_digits t then None
  else
    match t with
    | String "-" rest => Z.opp <$> digits rest None false
    | String "+" rest => digits rest None false
    | _ => digits t None false
    end.

End Str.

(** [int(v)]: [TypeError] on [None] and on containers, [ValueError] on a
    string that is not a decimal literal. *)
Definition py_int (v : pyval) : result Z :=
  match v with
  | PyInt z => Ok z
  | PyBool b => Ok (if b then 1 else 0)
  | PyStr s => match Str.to_int s with
               | Some z => Ok z
               | None => Raise ValueError
               end
  | _ => Raise TypeError
  end.

(** ** Base64 ([base64.b64decode], [base64.b64encode]) *)

Module Base64.

Definition BASE64_PAD : ascii := "="%char.

Definition alphabet : string :=
  "ABCDEFGHIJKLMNOPQRSTUVWXYZabcdefghijklmnopqrstuvwxyz0123456789+/".

(** Value of a character of the alphabet, [None] for any other character. *)
Definition table_a2b_base64 (c : ascii) : option Z :=
  let n := Z.of_N (N_of_ascii c) in
  if (65 <=? n) && (n <=? 90) then Some (n - 65)
  else if (97 <=? n) && (n <=? 122) then Some (n - 71)
  else if (48 <=? n) && (n <=? 57) then Some (n + 4)
  else if n =? 43 then Some 62
  else if n =? 47 then Some 63
  else None.

Definition table_b2a_base64 (v : Z) : ascii :=
  match String.get (Z.to_nat v) alphabet with
  | Some c => c
  | None => BASE64_PAD
  end.

Definition emit (b : Z) (r : result (list Z)) : result (list Z) :=
  let* bs := r in Ok (b :: bs).

(** The loop of [binascii.a2b_base64] in its default, lenient mode:
    characters outside the alphabet are passed over, a pad is honoured
    only once the quad holds two characters and the pads complete it,
    and whatever follows the closing pad is not read. [quad_pos] is the
    number of characters of the current quad, [leftchar] the bits not
    yet written out, [pads] the pads seen since the last character. *)
Fixpoint a2b_loop (s : string) (quad_pos leftchar pads : Z) : result (list Z) :=
  match s with
  | EmptyString =>
      if quad_pos =? 0 then Ok [] else Raise BinasciiError
  | String c rest =>
      if Ascii.eqb c BASE64_PAD then
        if (2 <=? quad_pos) && (4 <=? quad_pos + (pads + 1))
        then Ok []
        else a2b_loop rest quad_pos leftchar
               (if 2 <=? quad_pos then pads + 1 else pads)
      else
        match table_a2b_base64 c with
        | None => a2b_loop rest quad_pos leftchar pads
        | Some this_ch =>
            match quad_pos with
            | 0 => a2b_loop rest 1 this_ch 0
            | 1 =>
                emit (Z.land (Z.lor (Z.shiftl leftchar 2) (Z.shiftr this_ch 4)) 255)
                     (a2b_loop rest 2 (Z.land this_ch 15) 0)
            | 2 =>
                emit (Z.land (Z.lor (Z.shiftl leftchar 4) (Z.shiftr this_ch 2)) 255)
                     (a2b_loop rest 3 (Z.land this_ch 3) 0)
            | _ =>
                emit (Z.land (Z.lor (Z.shiftl leftchar 6) this_ch) 255)
                     (a2b_loop rest 0 0 0)
            end
        end
  end.

Definition a2b_base64 (s : string) : result (list Z) := a2b_loop s 0 0 0.

Fixpoint is_ascii (s : string) : bool :=
  match s with
  | EmptyString => true
  | String c rest => (Z.of_N (N_of_ascii c) <? 128) && is_ascii rest
  end.

(** [base64.b64decode(s)] on a [str]: the string is first encoded as
    ASCII ([ValueError] when it cannot be), then handed to
    [binascii.a2b_base64]. *)
Definition b64decode (s : string) : result (list Z) :=
  if is_ascii s then a2b_base64 s else Raise ValueError.

Definition ch (v : Z) : string := String (table_b2a_base64 v) "".

(** [base64.b64encode(bs)], as text: three bytes give four characters,
    a last group of one or two bytes is padded. *)
Fixpoint b64encode (bs : list Z) : string :=
  match bs with
  | [] => ""
  | [b1] =>
      ch (Z.shiftr b1 2) +:+ ch (Z.shiftl (Z.land b1 3) 4) +:+ "=="
  | [b1; b2] =>
      ch (Z.shiftr b1 2)
      +:+ ch (Z.lor (Z.shiftl (Z.land b1 3) 4) (Z.shiftr b2 4))
      +:+ ch (Z.shiftl (Z.land b2 15) 2) +:+ "="
  | b1 :: b2 :: b3 :: rest =>
      ch (Z.shiftr b1 2)
      +:+ ch (Z.lor (Z.shiftl (Z.land b1 3) 4) (Z.shiftr b2 4))
      +:+ ch (Z.lor (Z.shiftl (Z.land b2 15) 2) (Z.shiftr b3 6))
      +:+ ch (Z.land b3 63)
      +:+ b64encode rest
  end.

Definition in_alphabet (c : ascii) : bool :=
  match table_a2b_base64 c with
  | Some _ => true
  | None => false
  end.

(** The value of [c] has its [k] low bits clear. *)
Definition low_bits_clear (k : Z) (c : ascii) : bool :=
  match table_a2b_base64 c with
  | Some v => Z.land v (Z.ones k) =? 0
  | None => false
  end.

(** Payloads of the textbook shape: quads of alphabet characters, the
    last one possibly ending in one or two pads. With [strict] the bits
    of the last character that encode no data must be zero, which makes
    the payload the one an encoder produces. *)
Fixpoint quads (strict : bool) (s : string) : bool :=
  match s with
  | EmptyString => true
  | String c1 (String c2 (String c3 (String c4 rest))) =>
      in_alphabet c1 && in_alphabet c2 &&
      match rest with
      | EmptyString =>
          if Ascii.eqb c4 BASE64_PAD then
            if Ascii.eqb c3 BASE64_PAD
            then (if strict then low_bits_clear 4 c2 else true)
            else in_alphabet c3 && (if strict then low_bits_clear 2 c3 else true)
          else in_alphabet c3 && in_alphabet c4
      | _ => in_alphabet c3 && in_alphabet c4 && quads strict rest
      end
  | _ => false
  end.

Definition well_formed (s : string) : bool := quads false s.
Definition canonical (s : string) : bool := quads true s.

End Base64.

(** ** [Base64ImageField] *)

Module Base64ImageField.
Section Field.

(** [serializers.ImageField.to_internal_value], the framework's own
    handling of an uploaded file. *)
Variable super_to_internal_value : pyval -> result pyval.

(** [img_format.split('/')[-1]]. *)
Definition extension (img_format : string) : string :=
  default "" (last (Str.split "/" img_format)).

Definition to_internal_value (data : pyval) : result pyval :=
  match data with
  | PyStr s =>
      if Str.startswith "data:image" s then
        match Str.split ";base64," s with
        | [img_format; img_str] =>
            let ext := extension img_format in
            let* bytes := Base64.b64decode img_str in
            super_to_internal_value
              (PyFile (mkContentFile bytes ("img." +:+ ext)))
        | _ => Raise ValueError
        end
      else super_to_internal_value data
  | _ => super_to_internal_value data
  end.

End Field.

(** The payload of a data-URL image string, as the decoder cuts it. *)
Definition payload (s : string) : option string :=
  if Str.startswith "data:image" s then
    match Str.split ";base64," s with
    | [_; img_str] => Some img_str
    | _ => None
    end
  else None.

End Base64ImageField.


(** ** The tables

    The model declarations ([recipes/models.py], [users/models.py]) are not
    part of what is embedded; the rows below carry what the serializers
    read and write. Relations are typed columns holding primary keys; the
    scalar columns of a user and of a recipe are kept as the keyword
    arguments they were created from. *)

Record CustomUser : Type := mkCustomUser {
  user_id : Z;
  user_fields : gmap string pyval
}.

Record Tag : Type := mkTag {
  tag_id : Z;
  tag_name : string;
  color : string;
  slug : string
}.

Record Ingredient : Type := mkIngredient {
  ingredient_id : Z;
  ingredient_name : string;
  measurement_unit : string
}.

(** A recipe: its key, the key of its author ([None] only in a row that
    was not stored by [Recipe.objects.create]), the keys of its tags, a
    set, in the order they are read back, and its other columns. *)
Record Recipe : Type := mkRecipe {
  recipe_id : Z;
  author : option Z;
  tags : list Z;
  recipe_fields : gmap string pyval
}.

Record RecipeIngredient : Type := mkRecipeIngredient {
  line_id : Z;
  recipe : Z;
  ingredient : Z;
  amount : pyval
}.

(** One database write: the row as it was stored. *)
Inductive write : Type :=
| WUser (u : CustomUser)
| WRecipe (r : Recipe)
| WRecipeIngredient (l : RecipeIngredient).

(** Modelled from the spec: [users/models.py] is not among the sources, so
    the relation read by [user.following] is taken from the description of
    the user transformer, "test existence of a following-relation row to
    the target user": [following] maps the primary key of a user to the
    primary keys reachable through that user's [following] manager.

    Every table lists its rows in insertion order; [journal] lists every
    write in the order it happened. *)
Record DB : Type := mkDB {
  users : list CustomUser;
  following : gmap Z (list Z);
  all_tags : list Tag;
  ingredients : list Ingredient;
  recipes : list Recipe;
  recipe_ingredients : list RecipeIngredient;
  journal : list write
}.

(** Code that reads and writes the database: the result and the database
    it leaves behind, also when it raises. *)
Definition M (A : Type) : Type := DB -> result A * DB.

Definition ret {A : Type} (a : A) : M A := fun db => (Ok a, db).

Definition raise {A : Type} (e : exn) : M A := fun db => (Raise e, db).

Definition bind {A B : Type} (m : M A) (k : A -> M B) : M B :=
  fun db =>
    match m db with
    | (Ok a, db') => k a db'
    | (Raise e, db') => (Raise e, db')
    end.

Definition lift {A : Type} (r : result A) : M A := fun db => (r, db).

Notation "'do*' x ':=' m 'in' k" := (bind m (fun x => k))
  (at level 10, x pattern, m at level 100, k at level 200).

(** [for x in xs: body(x)]. *)
Fixpoint for_each {A : Type} (xs : list A) (body : A -> M unit) : M unit :=
  match xs with
  | [] => ret tt
  | x :: rest => do* _ := body x in for_each rest body
  end.

(** The next value of an auto-incremented primary key. *)
Definition next_id (ids : list Z) : Z := 1 + foldr Z.max 0 ids.

Definition find_user (db : DB) (k : Z) : option CustomUser :=
  find (fun u => user_id u =? k) (users db).

Definition find_ingredient (db : DB) (k : Z) : option Ingredient :=
  find (fun i => ingredient_id i =? k) (ingredients db).

Definition find_tag (db : DB) (k : Z) : option Tag :=
  find (fun t => tag_id t =? k) (all_tags db).

(** [instance.recipes.all()]: the recipes of a user, in table order. *)
Definition user_recipes (db : DB) (u : CustomUser) : list Recipe :=
  filter (fun r => author r = Some (user_id u)) (recipes db).

(** [instance.recipe_ingredients.all()]: the ingredient lines of a recipe,
    in table order. *)
Definition recipe_lines (db : DB) (r : Recipe) : list RecipeIngredient :=
  filter (fun l => recipe l = recipe_id r) (recipe_ingredients db).

(** The largest [LIMIT] a query can carry: a signed 64-bit integer. *)
Definition max_limit : Z := 2 ^ 63 - 1.

(** [queryset[:k]], evaluated: Django 3.2 asserts that the bound is not
    negative when the slice is taken, and the database refuses the query
    when the bound does not fit its [LIMIT]. The slice [[:0]] is empty
    without a query. *)
Definition queryset_upto {A : Type} (qs : list A) (k : Z) : result (list A) :=
  if k <? 0 then Raise AssertionError
  else if max_limit <? k then Raise DatabaseError
  else Ok (take (Z.to_nat k) qs).

(** Every line points to a stored ingredient and every recipe with an
    author to a stored user: what the database engine enforces for the
    foreign keys. *)
Definition referential_integrity (db : DB) : bool :=
  forallb (fun l => bool_decide (is_Some (find_ingredient db (ingredient l))))
          (recipe_ingredients db)
  && forallb (fun r => match author r with
                       | Some k => bool_decide (is_Some (find_user db k))
                       | None => true
                       end) (recipes db).

(** No line belongs to a recipe that is not stored yet. *)
Definition lines_of_stored_recipes (db : DB) : bool :=
  forallb (fun l => bool_decide (recipe l ∈ recipe_id <$> recipes db))
          (recipe_ingredients db).

(** ** Generic pieces of [serializers.ModelSerializer] *)

(** The fields of [Meta.fields] that are read from a column, leaving out
    the write-only ones. Each field is shown by the value its column
    holds. What the field classes and the model declarations add to that
    is outside the embedding: the URL an image field makes of its file,
    and the default of a column that was never set, for which [None]
    stands here. The properties below rely on the keys and on [id] only. *)
Definition readable_fields (fields write_only : list string)
    (id : Z) (columns : gmap string pyval) : gmap string pyval :=
  foldr (fun f acc =>
           if existsb (String.eqb f) write_only then acc
           else if String.eqb f "id" then <[f := PyInt id]> acc
           else <[f := dict_get columns f PyNone]> acc)
        ∅ fields.

(** A keyword argument holding a related instance of [model] or nothing:
    assigning anything else to a foreign key is a [ValueError]. *)
Definition related_kwarg (model : string) (kwargs : gmap string pyval)
    (key : string) : result (option Z) :=
  match kwargs !! key with
  | None | Some PyNone => Ok None
  | Some (PyModel m k) => if String.eqb m model then Ok (Some k) else Raise ValueError
  | Some _ => Raise ValueError
  end.

(** The key a many-to-many [field.set] reads from one of its items: the
    primary key of an instance of [model], and for anything else what the
    key column makes of it with [int]; [None] is kept as it is. *)
Definition related_key (model : string) (v : pyval) : result (option Z) :=
  match v with
  | PyModel m k => if String.eqb m model then Ok (Some k) else Raise TypeError
  | PyNone => Ok None
  | _ => let* k := py_int v in Ok (Some k)
  end.

(** The keys of all the items, read from left to right. *)
Fixpoint related_keys (model : string) (vs : list pyval) : result (list (option Z)) :=
  match vs with
  | [] => Ok []
  | v :: rest =>
      let* k := related_key model v in
      let* ks := related_keys model rest in
      Ok (k :: ks)
  end.

(** A row of the relation needs a key on both sides. *)
Fixpoint all_keys (ks : list (option Z)) : result (list Z) :=
  match ks with
  | [] => Ok []
  | Some k :: rest => let* keys := all_keys rest in Ok (k :: keys)
  | None :: _ => Raise IntegrityError
  end.

(** A key put into a list of keys in ascending order without repetition. *)
Fixpoint insert_key (k : Z) (ks : list Z) : list Z :=
  match ks with
  | [] => [k]
  | x :: rest =>
      if k <? x then k :: ks
      else if k =? x then ks
      else x :: insert_key k rest
  end.

(** The set of the keys of a list, as the relation stores it: every key
    once, read back in the order of the primary keys. *)
Definition key_set (ks : list Z) : list Z := foldr insert_key [] ks.

(** ** [RecipeMinifiedSerializer] *)

Module RecipeMinifiedSerializer.

Definition Meta_fields : list string := ["id"; "name"; "image"; "cooking_time"].

Definition to_representation (r : Recipe) : pyval :=
  PyDict (readable_fields Meta_fields [] (recipe_id r) (recipe_fields r)).

(** [RecipeMinifiedSerializer(queryset, many=True).data]. *)
Definition many (rs : list Recipe) : pyval := PyList (to_representation <$> rs).

End RecipeMinifiedSerializer.

(** ** [CustomUserSerializer] *)

Module CustomUserSerializer.

Definition Meta_fields : list string :=
  ["id"; "email"; "username"; "first_name"; "last_name"].

(** [request.query_params]: [None] has no such attribute. *)
Definition getattr_query_params (request : pyval) : result (gmap string (list string)) :=
  match request with
  | PyRequest r => Ok (query_params r)
  | _ => Raise AttributeError
  end.

(** [request.user]. *)
Definition getattr_user (request : pyval) : result request_user :=
  match request with
  | PyRequest r => Ok (user r)
  | _ => Raise AttributeError
  end.

(** [user.following]: the anonymous user has no such relation. *)
Definition getattr_following (u : request_user) (db : DB) : result (list Z) :=
  match u with
  | AuthenticatedUser k => Ok (default [] (following db !! k))
  | AnonymousUser => Raise AttributeError
  end.

Definition is_subscribed_user (context : gmap string pyval) (obj : CustomUser)
    (db : DB) : result bool :=
  let request := dict_get context "request" PyNone in
  let* params := getattr_query_params request in
  let is_subscribed := querydict_get params "is_subscribed" (PyBool false) in
  if truthy is_subscribed then
    let* user := getattr_user request in
    let* following := getattr_following user db in
    let subscribed := existsb (Z.eqb (user_id obj)) following in
    Ok subscribed
  else Ok false.

(** The fields in the order of [Meta.fields]; [recipes_count] is read from
    an annotation and left out when the row has none. *)
Definition to_representation (context : gmap string pyval) (obj : CustomUser)
    (db : DB) : result (gmap string pyval) :=
  let base := readable_fields Meta_fields [] (user_id obj) (user_fields obj) in
  let* is_subscribed := is_subscribed_user context obj db in
  let ret := <["is_subscribed" := PyBool is_subscribed]> base in
  let ret := <["recipes" := RecipeMinifiedSerializer.many (user_recipes db obj)]> ret in
  match user_fields obj !! "recipes_count" with
  | Some n => Ok (<["recipes_count" := n]> ret)
  | None => Ok ret
  end.

End CustomUserSerializer.

Definition always_true : bool := true.

(** ** [SubscriptionSerializer] *)

Module SubscriptionSerializer.

Definition Meta_fields : list string :=
  ["id"; "email"; "username"; "first_name"; "last_name"].

(** [super().to_representation(instance)]: the columns, [is_subscribed]
    when the row carries it (the declared default makes the field drop out
    otherwise), and the primary keys of the recipes. *)
Definition super_to_representation (instance : CustomUser) (db : DB)
    : gmap string pyval :=
  let base := readable_fields Meta_fields [] (user_id instance) (user_fields instance) in
  let base :=
    match user_fields instance !! "is_subscribed" with
    | Some v => <["is_subscribed" := v]> base
    | None => base
    end in
  <["recipes" := PyList ((fun r => PyInt (recipe_id r)) <$> user_recipes db instance)]> base.

Definition to_representation (context : gmap string pyval) (instance : CustomUser)
    (db : DB) : result (gmap string pyval) :=
  let representation := super_to_representation instance db in
  let* limit := py_int (dict_get context "recipes_limit" (PyInt 0)) in
  let recipes_limit := PyInt limit in
  let* recipes_queryset :=
    if negb (is_none recipes_limit)
    then queryset_upto (user_recipes db instance) limit
    else Ok (user_recipes db instance) in
  Ok (<["recipes" := RecipeMinifiedSerializer.many recipes_queryset]> representation).

End SubscriptionSerializer.

(** ** [CustomUserSignUpSerializer] *)

Module CustomUserSignUpSerializer.

Definition Meta_fields : list string :=
  ["id"; "email"; "username"; "first_name"; "last_name"; "password"].

(** [extra_kwargs = {'password': {'write_only': True}}]. *)
Definition write_only : list string := ["password"].

(** [super().create(validated_data)]: the user model has no relation among
    the serializer's fields, so the row is created from the keyword
    arguments as they are. *)
Definition super_create (validated_data : gmap string pyval) : M CustomUser :=
  fun db =>
    let instance := mkCustomUser (next_id (user_id <$> users db)) validated_data in
    (Ok instance,
     mkDB (users db ++ [instance]) (following db) (all_tags db) (ingredients db)
          (recipes db) (recipe_ingredients db) (journal db ++ [WUser instance])).

(** [instance.save()] of a stored user: the row with its primary key is
    replaced. *)
Definition save (instance : CustomUser) : M unit :=
  fun db =>
    (Ok tt,
     mkDB ((fun u => if user_id u =? user_id instance then instance else u) <$> users db)
          (following db) (all_tags db) (ingredients db)
          (recipes db) (recipe_ingredients db) (journal db ++ [WUser instance])).

Section Hasher.

(** [django.contrib.auth.hashers.make_password] on a string, and the
    unusable password it hands out for [None]. *)
Variable make_password : string -> string.
Variable unusable_password : string.

(** [instance.set_password(raw_password)]. *)
Definition set_password (instance : CustomUser) (raw_password : pyval)
    : result CustomUser :=
  match raw_password with
  | PyStr p =>
      Ok (mkCustomUser (user_id instance)
            (<["password" := PyStr (make_password p)]> (user_fields instance)))
  | PyNone =>
      Ok (mkCustomUser (user_id instance)
            (<["password" := PyStr unusable_password]> (user_fields instance)))
  | _ => Raise TypeError
  end.

Definition create (validated_data : gmap string pyval) : M CustomUser :=
  do* popped := lift (dict_pop validated_data "password") in
  let password := popped.1 in
  let validated_data := popped.2 in
  do* instance := super_create validated_data in
  do* instance := lift (set_password instance password) in
  do* _ := save instance in
  ret instance.

End Hasher.

Definition to_representation (instance : CustomUser) : gmap string pyval :=
  readable_fields Meta_fields write_only (user_id instance) (user_fields instance).

End CustomUserSignUpSerializer.

(** ** [TagSerializer] *)

Module TagSerializer.

Definition to_representation (t : Tag) : pyval :=
  PyDict (<["id" := PyInt (tag_id t)]>
         (<["name" := PyStr (tag_name t)]>
         (<["color" := PyStr (color t)]>
         (<["slug" := PyStr (slug t)]> ∅)))).

End TagSerializer.

(** ** [RecipeIngredientSerializer] *)

Module RecipeIngredientSerializer.

(** [id], [name] and [measurement_unit] come from the related ingredient,
    [amount] from the line itself. *)
Definition to_representation (db : DB) (l : RecipeIngredient) : result pyval :=
  match find_ingredient db (ingredient l) with
  | Some i =>
      Ok (PyDict (<["id" := PyInt (ingredient_id i)]>
                 (<["name" := PyStr (ingredient_name i)]>
                 (<["measurement_unit" := PyStr (measurement_unit i)]>
                 (<["amount" := amount l]> ∅)))))
  | None => Raise DoesNotExist
  end.

(** [RecipeIngredientSerializer(lines, many=True).data]. *)
Fixpoint many (db : DB) (ls : list RecipeIngredient) : result (list pyval) :=
  match ls with
  | [] => Ok []
  | l :: rest =>
      let* d := to_representation db l in
      let* ds := many db rest in
      Ok (d :: ds)
  end.

End RecipeIngredientSerializer.

(** ** [RecipeSerializer] *)

Module RecipeSerializer.

Definition get_ingredients (instance : Recipe) (db : DB) : result pyval :=
  let* ds := RecipeIngredientSerializer.many db (recipe_lines db instance) in
  Ok (PyList ds).

(** The nested author: [None] for a recipe without one, the user
    representation otherwise. *)
Definition author_field (context : gmap string pyval) (instance : Recipe) (db : DB)
    : result pyval :=
  match author instance with
  | None => Ok PyNone
  | Some k =>
      match find_user db k with
      | Some u =>
          let* d := CustomUserSerializer.to_representation context u db in
          Ok (PyDict d)
      | None => Raise DoesNotExist
      end
  end.

(** The declared fields in their order ([tags], [ingredients], [image],
    [author]), then the remaining columns; [exclude = ('pub_date',)]. *)
Definition to_representation (context : gmap string pyval) (instance : Recipe)
    (db : DB) : result (gmap string pyval) :=
  let tags := PyList (TagSerializer.to_representation <$> omap (find_tag db) (tags instance)) in
  let* ingredients := get_ingredients instance db in
  let image := dict_get (recipe_fields instance) "image" PyNone in
  let* author := author_field context instance db in
  Ok (<["id" := PyInt (recipe_id instance)]>
     (<["tags" := tags]>
     (<["ingredients" := ingredients]>
     (<["image" := image]>
     (<["author" := author]>
     (delete "pub_date" (recipe_fields instance))))))).

(** [RecipeSerializer(instance).data]: no context is handed over, so the
    serializer and the ones nested in it see an empty one. *)
Definition data (instance : Recipe) (db : DB) : result (gmap string pyval) :=
  to_representation ∅ instance db.

End RecipeSerializer.

(** ** [RecipeIngredientCreateSerializer] *)

Module RecipeIngredientCreateSerializer.
Section Fields.

(** Validation of [amount], the field the framework derives from the
    model column; [None] stands for a validation error. *)
Variable amount_field : pyval -> option pyval.

(** [PrimaryKeyRelatedField(queryset=Ingredient.objects.all())]: the
    ingredient with the given primary key; a missing row, a boolean or a
    value that is no key is a validation error. *)
Definition id_field (db : DB) (data : pyval) : result pyval :=
  match data with
  | PyInt k =>
      match find_ingredient db k with
      | Some i => Ok (PyModel "Ingredient" (ingredient_id i))
      | None => Raise ValidationError
      end
  | PyStr s =>
      match Str.to_int s with
      | Some k =>
          match find_ingredient db k with
          | Some i => Ok (PyModel "Ingredient" (ingredient_id i))
          | None => Raise ValidationError
          end
      | None => Raise ValidationError
      end
  | _ => Raise ValidationError
  end.

(** One entry [{id, amount}] becomes [{ingredient, amount}]
    ([source='ingredient']); both fields are required. *)
Definition to_internal_value (db : DB) (data : pyval) : result pyval :=
  match data with
  | PyDict d =>
      match d !! "id", d !! "amount" with
      | Some i, Some a =>
          match id_field db i, amount_field a with
          | Ok obj, Some v =>
              Ok (PyDict (<["ingredient" := obj]> (<["amount" := v]> ∅)))
          | Ok _, None => Raise ValidationError
          | Raise _, _ => Raise ValidationError
          end
      | _, _ => Raise ValidationError
      end
  | _ => Raise ValidationError
  end.

(** [many=True]: every entry is validated, any failure fails the list. *)
Fixpoint many (db : DB) (entries : list pyval) : result (list pyval) :=
  match entries with
  | [] => Ok []
  | e :: rest =>
      match to_internal_value db e, many db rest with
      | Ok v, Ok vs => Ok (v :: vs)
      | _, _ => Raise ValidationError
      end
  end.

End Fields.
End RecipeIngredientCreateSerializer.

(** ** [RecipeCreateSerializer] *)

Module RecipeCreateSerializer.

(** [for x in v]: a list yields its items, a string its characters, a
    dict its keys. *)
Definition py_iter (v : pyval) : result (list pyval) :=
  match v with
  | PyList l => Ok l
  | PyStr s => Ok ((fun c => PyStr (String c "")) <$> list_ascii_of_string s)
  | PyDict d => Ok (PyStr <$> (map_to_list d).*1)
  | _ => Raise TypeError
  end.

(** [v[key]] for a string key: only a dict has such items. *)
Definition subscript (v : pyval) (key : string) : result pyval :=
  match v with
  | PyDict d => dict_item d key
  | _ => Raise TypeError
  end.

(** The guard of [ModelSerializer.create] against nested writes: the
    data of the nested [ingredients] serializer must be gone by now. *)
Definition nested_write (validated_data : gmap string pyval) : bool :=
  match validated_data !! "ingredients" with
  | Some (PyList _) | Some (PyDict _) => true
  | _ => false
  end.

(** Modelled from the spec: [recipes/models.py] is not among the sources;
    the data model of the description reads "a Recipe has exactly one
    author", so the author column is mandatory.

    [Recipe.objects.create] on the keyword arguments: [author] is the
    foreign key, the other keyword arguments are the columns. Without an
    author the insertion fails with [IntegrityError] and no row is
    stored. *)
Definition objects_create (kwargs : gmap string pyval) : M Recipe :=
  do* who := lift (related_kwarg "CustomUser" kwargs "author") in
  match who with
  | None => raise IntegrityError
  | Some k =>
      fun db =>
        let instance :=
          mkRecipe (next_id (recipe_id <$> recipes db)) (Some k) []
                   (delete "author" kwargs) in
        (Ok instance,
         mkDB (users db) (following db) (all_tags db) (ingredients db)
              (recipes db ++ [instance]) (recipe_ingredients db)
              (journal db ++ [WRecipe instance]))
  end.

(** [instance.tags.set(value)]: the items are tag instances or primary
    keys; the keys of all of them are read first, then the relation is
    stored, as a set. An item without key cannot be stored. *)
Definition set_tags (instance : Recipe) (value : pyval) : M Recipe :=
  do* vs := lift (py_iter value) in
  do* ks := lift (related_keys "Tag" vs) in
  do* keys := lift (all_keys ks) in
  fun db =>
    let instance' :=
      mkRecipe (recipe_id instance) (author instance) (key_set keys)
               (recipe_fields instance) in
    (Ok instance',
     mkDB (users db) (following db) (all_tags db) (ingredients db)
          ((fun r => if recipe_id r =? recipe_id instance then instance' else r)
             <$> recipes db)
          (recipe_ingredients db) (journal db ++ [WRecipe instance'])).

(** [super().create(validated_data)]: the many-to-many [tags] are taken
    out, the row is created from the rest, then the tags are bound. *)
Definition super_create (validated_data : gmap string pyval) : M Recipe :=
  if nested_write validated_data then raise AssertionError
  else
    let many_to_many := validated_data !! "tags" in
    let validated_data := delete "tags" validated_data in
    do* instance := objects_create validated_data in
    match many_to_many with
    | Some value => set_tags instance value
    | None => ret instance
    end.

(** [RecipeIngredient(recipe=..., ingredient=..., amount=...).save()]. *)
Definition save_line (instance : Recipe) (ingredient_value amount_value : pyval)
    : M unit :=
  match ingredient_value with
  | PyModel m k =>
      if String.eqb m "Ingredient" then
        fun db =>
          let l :=
            mkRecipeIngredient (next_id (line_id <$> recipe_ingredients db))
              (recipe_id instance) k amount_value in
          (Ok tt,
           mkDB (users db) (following db) (all_tags db) (ingredients db)
                (recipes db) (recipe_ingredients db ++ [l])
                (journal db ++ [WRecipeIngredient l]))
      else raise ValueError
  | PyNone => raise IntegrityError
  | _ => raise ValueError
  end.

(** The body of the loop over the ingredient entries. *)
Definition save_entry (instance : Recipe) (ingredient_data : pyval) : M unit :=
  do* ingredient_value := lift (subscript ingredient_data "ingredient") in
  do* amount_value := lift (subscript ingredient_data "amount") in
  save_line instance ingredient_value amount_value.

Definition create (context validated_data : gmap string pyval) : M Recipe :=
  do* author :=
    lift (CustomUserSerializer.getattr_user (dict_get context "request" PyNone)) in
  do* popped := lift (dict_pop validated_data "ingredients") in
  let ingredients := popped.1 in
  let validated_data := popped.2 in
  do* instance := super_create validated_data in
  do* entries := lift (py_iter ingredients) in
  do* _ := for_each entries (save_entry instance) in
  ret instance.

Definition to_representation (instance : Recipe) (db : DB)
    : result (gmap string pyval) :=
  RecipeSerializer.data instance db.

Section Validation.

(** Validation of [amount] and of the fields the framework derives from
    the recipe model ([name], [cooking_time], [text], [tags], [image],
    [pub_date]); [None] stands for a validation error. *)
Variable amount_field : pyval -> option pyval.
Variable model_fields : DB -> gmap string pyval -> option (gmap string pyval).

(** The nested [ingredients] field: required, a list, every entry valid. *)
Definition ingredients_field (db : DB) (data : gmap string pyval) : result pyval :=
  match data !! "ingredients" with
  | Some (PyList entries) =>
      let* vs := RecipeIngredientCreateSerializer.many amount_field db entries in
      Ok (PyList vs)
  | _ => Raise ValidationError
  end.

(** Every field is validated; the errors are collected and any of them
    rejects the payload. *)
Definition to_internal_value (db : DB) (data : pyval) : result (gmap string pyval) :=
  match data with
  | PyDict d =>
      match model_fields db d, ingredients_field db d with
      | Some validated, Ok entries => Ok (<["ingredients" := entries]> validated)
      | _, _ => Raise ValidationError
      end
  | _ => Raise ValidationError
  end.

End Validation.
End RecipeCreateSerializer.

(** ** The create endpoint *)

Module RecipeEndpoint.
Section Endpoint.

Variable amount_field : pyval -> option pyval.
Variable model_fields : DB -> gmap string pyval -> option (gmap string pyval).

(** Modelled from the spec: the view that receives the payload is not
    among the sources; the system overview gives its flow as "inbound
    JSON/form payload -> entity transformer validates and extracts typed
    fields -> composite transformer persists the aggregate", and the error
    handling rejects the whole write request on a validation error. The
    payload is validated against the database as it is, and only a valid
    one reaches [create]. *)
Definition post (context : gmap string pyval) (payload : pyval) : M Recipe :=
  fun db =>
    match RecipeCreateSerializer.to_internal_value amount_field model_fields db payload with
    | Ok validated_data => RecipeCreateSerializer.create context validated_data db
    | Raise e => (Raise e, db)
    end.

End Endpoint.
End RecipeEndpoint.

(** * Vocabulary of the properties *)

(** ** A small database and a few requests, for the concrete cases *)

Module Fixture.

Definition alice : CustomUser :=
  mkCustomUser 1 (<["username" := PyStr "alice"]> (<["email" := PyStr "a@x.org"]> ∅)).

Definition bob : CustomUser :=
  mkCustomUser 2 (<["username" := PyStr "bob"]> (<["email" := PyStr "b@x.org"]> ∅)).

Definition salt : Ingredient := mkIngredient 1 "salt" "g".
Definition flour : Ingredient := mkIngredient 2 "flour" "g".

(** A recipe of bob. *)
Definition dish (k : Z) (title : string) : Recipe :=
  mkRecipe k (Some 2) [] (<["name" := PyStr title]> ∅).

(** Alice follows bob, who has five recipes. *)
Definition db : DB :=
  mkDB [alice; bob] (<[1 := [2]]> ∅) [] [salt; flour]
       [dish 1 "soup"; dish 2 "bread"; dish 3 "stew"; dish 4 "pie"; dish 5 "jam"]
       [] [].

(** A request of alice with the given query string. *)
Definition request_of_alice (params : gmap string (list string)) : pyval :=
  PyRequest (mkRequest params (AuthenticatedUser 1)).

Definition context_of_alice (params : gmap string (list string)) : gmap string pyval :=
  <["request" := request_of_alice params]> ∅.

End Fixture.

Module CreateFixture.

(** A validated ingredient entry. *)
Definition entry (k amount_value : Z) : pyval :=
  PyDict (<["ingredient" := PyModel "Ingredient" k]>
         (<["amount" := PyInt amount_value]> ∅)).

Definition entries : list pyval := [entry 2 200; entry 1 5].

(** What the serializer's fields make of a payload: a recipe with two
    ingredient lines; no field of the serializer yields an author. *)
Definition without_author : gmap string pyval :=
  <["name" := PyStr "bread"]> (<["ingredients" := PyList entries]> ∅).

(** The same data with an author put in by the caller of [save]. *)
Definition validated_data : gmap string pyval :=
  <["author" := PyModel "CustomUser" 1]> without_author.

(** The same data again, the author being bob, not the user of the
    request. *)
Definition of_bob : gmap string pyval :=
  <["author" := PyModel "CustomUser" 2]> without_author.

(** The data with tags: an instance, a primary key, the instance again. *)
Definition tagged : gmap string pyval :=
  <["tags" := PyList [PyModel "Tag" 3; PyInt 1; PyModel "Tag" 3]]> validated_data.

Definition context : gmap string pyval := Fixture.context_of_alice ∅.

End CreateFixture.

Module SignUpFixture.

(** A stand-in for the hasher: it prefixes the name of an algorithm. *)
Definition make_password (p : string) : string := "pbkdf2_sha256$" +:+ p.

Definition validated_data : gmap string pyval :=
  <["email" := PyStr "c@x.org"]>
    (<["username" := PyStr "carol"]> (<["password" := PyStr "p@ss"]> ∅)).

End SignUpFixture.

Module RejectionFixture.

(** Field validation that accepts what it is given. *)
Definition amount_field (v : pyval) : option pyval := Some v.

Definition model_fields (db : DB) (data : gmap string pyval)
    : option (gmap string pyval) :=
  Some (delete "ingredients" data).

Definition entry (k amount_value : Z) : gmap string pyval :=
  <["id" := PyInt k]> (<["amount" := PyInt amount_value]> ∅).

(** Salt is stored, ingredient 99 is not. *)
Definition payload : gmap string pyval :=
  <["name" := PyStr "soup"]>
    (<["ingredients" := PyList [PyDict (entry 1 5); PyDict (entry 99 1)]]> ∅).

Definition valid_payload : gmap string pyval :=
  <["name" := PyStr "soup"]>
    (<["ingredients" := PyList [PyDict (entry 1 5); PyDict (entry 2 1)]]> ∅).

End RejectionFixture.

(** ** Relations the statements use *)

(** What the tables look like after a run that stored a recipe and some
    ingredient lines and touched nothing else. *)
Definition stored (db db' : DB) (rs : list Recipe) (ls : list RecipeIngredient) : Prop :=
  users db' = users db /\
  following db' = following db /\
  all_tags db' = all_tags db /\
  ingredients db' = ingredients db /\
  recipes db' = recipes db ++ rs /\
  recipe_ingredients db' = recipe_ingredients db ++ ls.

(** An entry of the validated list and the line stored for it. *)
Definition line_of (instance : Recipe) (entry : pyval) (l : RecipeIngredient) : Prop :=
  RecipeCreateSerializer.subscript entry "ingredient"
    = Ok (PyModel "Ingredient" (ingredient l)) /\
  RecipeCreateSerializer.subscript entry "amount" = Ok (amount l) /\
  recipe l = recipe_id instance.


(** A write that stores [p] as a user's password. *)
Definition stores_password (p : string) (w : write) : Prop :=
  match w with
  | WUser u => user_fields u !! "password" = Some (PyStr p)
  | _ => False
  end.

(** [sep] occurs somewhere in [s]. *)
Fixpoint occurs (sep s : string) : bool :=
  String.prefix sep s ||
  match s with
  | String _ rest => occurs sep rest
  | EmptyString => false
  end.

(** ** Finite ranges for the checks on base64 *)

(** The sixty-four values of a character of the alphabet. *)
Definition sextets : list Z := Z.of_nat <$> seq 0 64.

(** The bytes the decoder writes for a quad of values. *)
Definition byte1 (v1 v2 : Z) : Z :=
  Z.land (Z.lor (Z.shiftl v1 2) (Z.shiftr v2 4)) 255.
Definition byte2 (v2 v3 : Z) : Z :=
  Z.land (Z.lor (Z.shiftl (Z.land v2 15) 4) (Z.shiftr v3 2)) 255.
Definition byte3 (v3 v4 : Z) : Z :=
  Z.land (Z.lor (Z.shiftl (Z.land v3 3) 6) v4) 255.

(** Every character. *)
Definition all_ascii : list ascii := ascii_of_nat <$> seq 0 256.

(** What holds of a character of the alphabet: its value is a sextet, the
    encoder's table maps the value back to it, it is not the pad, and it
    is an ASCII character. *)
Definition alphabet_facts (c : ascii) : bool :=
  match Base64.table_a2b_base64 c with
  | Some v =>
      (0 <=? v) && (v <? 64)
      && Ascii.eqb (Base64.table_b2a_base64 v) c
      && negb (Ascii.eqb c Base64.BASE64_PAD)
      && (Z.of_N (N_of_ascii c) <? 128)
  | None => true
  end.

(** ** Strings and bytes, for the further properties *)

(** [sep.join(pieces)]. *)
Fixpoint join (sep : string) (pieces : list string) : string :=
  match pieces with
  | [] => ""
  | [p] => p
  | p :: rest => p +:+ sep +:+ join sep rest
  end.

(** Every character of [s] passes [test]. *)
Fixpoint every_character (test : ascii -> bool) (s : string) : bool :=
  match s with
  | EmptyString => true
  | String c rest => test c && every_character test rest
  end.

(** [c] does not occur in [s]. *)
Definition free_of (c : ascii) (s : string) : bool :=
  every_character (fun d => negb (Ascii.eqb d c)) s.

(** A value a byte can hold. *)
Definition is_byte (b : Z) : Prop := 0 <= b < 256.

(** All the bytes. *)
Definition octets : list Z := Z.of_nat <$> seq 0 256.

(** The characters the decoder reads: the alphabet and the pad. *)
Definition significant (c : ascii) : bool :=
  Ascii.eqb c Base64.BASE64_PAD || Base64.in_alphabet c.

(** [s] without the characters the decoder passes over. *)
Fixpoint only_significant (s : string) : string :=
  match s with
  | EmptyString => EmptyString
  | String c rest =>
      if significant c then String c (only_significant rest) else only_significant rest
  end.

(** How many bytes more than three quarters of the characters still to
    read the loop can write, given the characters of the quad it holds. *)
Definition quad_credit (quad_pos : Z) : Z :=
  match quad_pos with
  | 0 => 0
  | 1 => 3
  | 2 => 2
  | _ => 1
  end.

(** ** Well-keyed tables *)

(** Primary keys are unique and every ingredient line belongs to a stored
    recipe. *)
Definition well_keyed (db : DB) : Prop :=
  NoDup (user_id <$> users db) /\
  NoDup (recipe_id <$> recipes db) /\
  NoDup (line_id <$> recipe_ingredients db) /\
  lines_of_stored_recipes db = true.

(** An entry of the validated list that [create] can store. *)
Definition storable (entry : pyval) : Prop :=
  exists k a,
    RecipeCreateSerializer.subscript entry "ingredient" = Ok (PyModel "Ingredient" k) /\
    RecipeCreateSerializer.subscript entry "amount" = Ok a.

(** What validation makes of an entry of the payload. *)
Definition validated_as (amount_field : pyval -> option pyval) (db : DB)
    (entry v : pyval) : Prop :=
  exists d i k a a',
    entry = PyDict d /\
    d !! "id" = Some i /\
    RecipeIngredientCreateSerializer.id_field db i = Ok (PyModel "Ingredient" k) /\
    k ∈ (ingredient_id <$> ingredients db) /\
    d !! "amount" = Some a /\
    amount_field a = Some a' /\
    v = PyDict (<["ingredient" := PyModel "Ingredient" k]> (<["amount" := a']> ∅)).

(** ** Further requests for the concrete cases *)

Module ViewerFixture.

(** The query string [?is_subscribed=1]. *)
Definition asking : gmap string (list string) := <["is_subscribed" := ["1"]]> ∅.

(** Alice asking. *)
Definition context : gmap string pyval := Fixture.context_of_alice asking.

(** The same query string sent without logging in. *)
Definition anonymous_request : Request := mkRequest asking AnonymousUser.

Definition anonymous_context : gmap string pyval :=
  <["request" := PyRequest anonymous_request]> ∅.

End ViewerFixture.

Module LimitFixture.

(** Contexts of the subscription view with various limits. *)
Definition seven : gmap string pyval := <["recipes_limit" := PyStr "7"]> ∅.
Definition none : gmap string pyval := <["recipes_limit" := PyNone]> ∅.
Definition word : gmap string pyval := <["recipes_limit" := PyStr "all"]> ∅.
Definition negative : gmap string pyval := <["recipes_limit" := PyStr "-1"]> ∅.

End LimitFixture.

Module SignUpFailureFixture.

Definition without_password : gmap string pyval := <["username" := PyStr "dave"]> ∅.

Definition with_number : gmap string pyval :=
  <["username" := PyStr "dave"]> (<["password" := PyInt 1234]> ∅).

End SignUpFailureFixture.

Module PartialFixture.

(** Validated data whose second entry lost its ingredient. *)
Definition broken_entry : pyval := PyDict (<["amount" := PyInt 5]> ∅).

Definition validated_data : gmap string pyval :=
  <["author" := PyModel "CustomUser" 1]>
    (<["name" := PyStr "bread"]>
       (<["ingredients" := PyList [CreateFixture.entry 2 200; broken_entry]]> ∅)).

(** Validated data without the ingredient list. *)
Definition without_ingredients : gmap string pyval := <["name" := PyStr "bread"]> ∅.

End PartialFixture.

(** * Properties *)


(** ** Small checks of the embedding *)

Example split_data_url :
  Str.split ";base64," "data:image/png;base64,QUJD" = ["data:image/png"; "QUJD"].
Proof. reflexivity. Qed.

Example split_keeps_empty_pieces :
  Str.split "/" "a/b//c" = ["a"; "b"; ""; "c"].
Proof. reflexivity. Qed.

Example int_of_padded_literal : Str.to_int " -1_000 " = Some (-1000).
Proof. reflexivity. Qed.

Example int_of_empty_string : Str.to_int "" = None.
Proof. reflexivity. Qed.

Example decode_full_quad : Base64.b64decode "QUJD" = Ok [65; 66; 67].
Proof. reflexivity. Qed.

Example decode_padded_quad : Base64.b64decode "QUI=" = Ok [65; 66].
Proof. reflexivity. Qed.

Example decode_skips_newline : Base64.b64decode ("QU" +:+ String "010" "JD") = Ok [65; 66; 67].
Proof. reflexivity. Qed.

Example decode_missing_padding : Base64.b64decode "QUJ" = Raise BinasciiError.
Proof. reflexivity. Qed.

Example encode_two_bytes : Base64.b64encode [65; 66] = "QUI=".
Proof. reflexivity. Qed.

(** ** The subscription flag of the user transformer *)

Lemma dict_get_lookup (d : gmap string pyval) (key : string) (v default : pyval) :
  d !! key = Some v -> dict_get d key default = v.
Proof. intros H. unfold dict_get. now rewrite H. Qed.

Lemma dict_get_missing (d : gmap string pyval) (key : string) (default : pyval) :
  d !! key = None -> dict_get d key default = default.
Proof. intros H. unfold dict_get. now rewrite H. Qed.

Lemma truthy_str (s : string) : s <> "" -> truthy (PyStr s) = true.
Proof.
  intros H. simpl. destruct (String.eqb_spec s ""); [contradiction | reflexivity].
Qed.

Lemma existsb_eqb_elem (k : Z) (ks : list Z) :
  existsb (Z.eqb k) ks = bool_decide (k ∈ ks).
Proof.
  induction ks as [|x ks IH]; cbn [existsb].
  - symmetry. apply bool_decide_eq_false_2. apply not_elem_of_nil.
  - rewrite IH. destruct (Z.eqb_spec k x) as [->|Hne]; cbn [orb].
    + symmetry. apply bool_decide_eq_true_2. apply elem_of_cons; left; reflexivity.
    + apply bool_decide_ext. rewrite elem_of_cons. tauto.
Qed.

(** Without the parameter the guard is closed, whoever asks. *)
Lemma is_subscribed_user_guard_closed
    (context : gmap string pyval) (r : Request) (obj : CustomUser) (db : DB) :
  context !! "request" = Some (PyRequest r) ->
  query_params r !! "is_subscribed" = None ->
  CustomUserSerializer.is_subscribed_user context obj db = Ok false.
Proof.
  intros Hreq Hq. unfold CustomUserSerializer.is_subscribed_user.
  rewrite (dict_get_lookup _ _ _ _ Hreq). simpl.
  unfold querydict_get. rewrite Hq. reflexivity.
Qed.

(** With a non-empty value the guard is open and the lookup runs. *)
Lemma is_subscribed_user_guard_open
    (context : gmap string pyval) (r : Request) (obj : CustomUser) (db : DB)
    (vs : list string) (v : string) :
  context !! "request" = Some (PyRequest r) ->
  query_params r !! "is_subscribed" = Some vs ->
  last vs = Some v ->
  v <> "" ->
  CustomUserSerializer.is_subscribed_user context obj db =
    let* following := CustomUserSerializer.getattr_following (user r) db in
    Ok (bool_decide (user_id obj ∈ following)).
Proof.
  intros Hreq Hq Hlast Hv. unfold CustomUserSerializer.is_subscribed_user.
  rewrite (dict_get_lookup _ _ _ _ Hreq). simpl.
  unfold querydict_get. rewrite Hq, Hlast.
  rewrite (truthy_str v Hv).
  destruct (CustomUserSerializer.getattr_following (user r) db); simpl; [|reflexivity].
  now rewrite existsb_eqb_elem.
Qed.

(** C5. A user representation requested without an [is_subscribed] query
    parameter has its [is_subscribed] flag computed as false, whatever the
    subscriptions stored in the database: the method returns [False] and
    the representation carries that value. *)
Theorem is_subscribed_false_without_parameter
    (context : gmap string pyval) (r : Request) (obj : CustomUser) (db : DB) :
  context !! "request" = Some (PyRequest r) ->
  query_params r !! "is_subscribed" = None ->
  CustomUserSerializer.is_subscribed_user context obj db = Ok false /\
  exists ret,
    CustomUserSerializer.to_representation context obj db = Ok ret /\
    ret !! "is_subscribed" = Some (PyBool false).
Proof.
  intros Hreq Hq.
  pose proof (is_subscribed_user_guard_closed context r obj db Hreq Hq) as Hflag.
  split; [exact Hflag|].
  unfold CustomUserSerializer.to_representation. rewrite Hflag. simpl.
  destruct (user_fields obj !! "recipes_count"); eexists; (split; [reflexivity|]).
  - rewrite lookup_insert_ne by discriminate.
    rewrite lookup_insert_ne by discriminate.
    apply lookup_insert_eq.
  - rewrite lookup_insert_ne by discriminate.
    apply lookup_insert_eq.
Qed.

(** Alice follows bob and asks for bob without the parameter. *)
Lemma is_subscribed_false_without_parameter_witness :
  2 ∈ default [] (following Fixture.db !! 1) /\
  CustomUserSerializer.is_subscribed_user
    (Fixture.context_of_alice ∅) Fixture.bob Fixture.db = Ok false.
Proof.
  split.
  - vm_compute. apply elem_of_cons; left; reflexivity.
  - apply (is_subscribed_false_without_parameter
             (Fixture.context_of_alice ∅) (mkRequest ∅ (AuthenticatedUser 1))
             Fixture.bob Fixture.db); reflexivity.
Defined.

(** C9. When the request carries [is_subscribed] with a non-empty value,
    whatever it spells, the lookup through the viewer's [following]
    relation runs and its outcome is the result: for a viewer who is a
    stored user, whether the target is among the users the viewer follows.
    The guard looks at the emptiness of the string only. *)
Theorem is_subscribed_lookup_on_nonempty_parameter
    (context : gmap string pyval) (r : Request) (obj : CustomUser) (db : DB)
    (vs : list string) (v : string) :
  context !! "request" = Some (PyRequest r) ->
  query_params r !! "is_subscribed" = Some vs ->
  last vs = Some v ->
  v <> "" ->
  CustomUserSerializer.is_subscribed_user context obj db =
    (let* following := CustomUserSerializer.getattr_following (user r) db in
     Ok (bool_decide (user_id obj ∈ following))) /\
  forall viewer, user r = AuthenticatedUser viewer ->
    CustomUserSerializer.is_subscribed_user context obj db =
      Ok (bool_decide (user_id obj ∈ default [] (following db !! viewer))).
Proof.
  intros Hreq Hq Hlast Hv.
  pose proof (is_subscribed_user_guard_open context r obj db vs v Hreq Hq Hlast Hv) as H.
  split; [exact H|].
  intros viewer Hviewer. rewrite H, Hviewer. reflexivity.
Qed.

(** Alice asks for bob, whom she follows, with [?is_subscribed=false], and
    for herself with [?is_subscribed=0]. *)
Lemma is_subscribed_lookup_on_nonempty_parameter_witness :
  CustomUserSerializer.is_subscribed_user
    (Fixture.context_of_alice (<["is_subscribed" := ["false"]]> ∅))
    Fixture.bob Fixture.db = Ok true /\
  CustomUserSerializer.is_subscribed_user
    (Fixture.context_of_alice (<["is_subscribed" := ["0"]]> ∅))
    Fixture.alice Fixture.db = Ok false.
Proof.
  split.
  - exact (proj2 (is_subscribed_lookup_on_nonempty_parameter
             (Fixture.context_of_alice (<["is_subscribed" := ["false"]]> ∅))
             (mkRequest (<["is_subscribed" := ["false"]]> ∅) (AuthenticatedUser 1))
             Fixture.bob Fixture.db ["false"] "false"
             eq_refl eq_refl eq_refl ltac:(discriminate)) 1 eq_refl).
  - exact (proj2 (is_subscribed_lookup_on_nonempty_parameter
             (Fixture.context_of_alice (<["is_subscribed" := ["0"]]> ∅))
             (mkRequest (<["is_subscribed" := ["0"]]> ∅) (AuthenticatedUser 1))
             Fixture.alice Fixture.db ["0"] "0"
             eq_refl eq_refl eq_refl ltac:(discriminate)) 1 eq_refl).
Defined.

(** C9, as the description states it, at one input. A request that carries
    [?is_subscribed=1] and comes from nobody logged in: the guard is open,
    the lookup runs on the anonymous user, which has no [following], and
    no Boolean is returned. *)
Lemma is_subscribed_lookup_raises_for_anonymous :
  query_params ViewerFixture.anonymous_request !! "is_subscribed" = Some ["1"] /\
  user ViewerFixture.anonymous_request = AnonymousUser /\
  CustomUserSerializer.is_subscribed_user
    ViewerFixture.anonymous_context Fixture.bob Fixture.db = Raise AttributeError.
Proof. split; [reflexivity|]. split; reflexivity. Qed.

(** ** Reading a recipe back *)

Lemma referential_integrity_lines (db : DB) :
  referential_integrity db = true ->
  Forall (fun l => is_Some (find_ingredient db (ingredient l))) (recipe_ingredients db).
Proof.
  unfold referential_integrity. intros H.
  apply andb_true_iff in H as [H _].
  rewrite forallb_forall in H. apply Forall_forall. intros l Hl.
  apply list_elem_of_In in Hl. specialize (H l Hl).
  now apply bool_decide_eq_true_1 in H.
Qed.

Lemma referential_integrity_author (db : DB) (r : Recipe) (k : Z) :
  referential_integrity db = true ->
  r ∈ recipes db ->
  author r = Some k ->
  is_Some (find_user db k).
Proof.
  unfold referential_integrity. intros H Hr Hk.
  apply andb_true_iff in H as [_ H].
  rewrite forallb_forall in H. apply list_elem_of_In in Hr.
  specialize (H r Hr). rewrite Hk in H.
  now apply bool_decide_eq_true_1 in H.
Qed.

(** Lines whose ingredients are stored are all rendered, one entry each. *)
Lemma many_lines_rendered (db : DB) (ls : list RecipeIngredient) :
  Forall (fun l => is_Some (find_ingredient db (ingredient l))) ls ->
  exists ds,
    RecipeIngredientSerializer.many db ls = Ok ds /\
    Forall2 (fun l d => RecipeIngredientSerializer.to_representation db l = Ok d) ls ds.
Proof.
  induction 1 as [|l ls [i Hi] _ [ds [IH1 IH2]]]; simpl.
  - exists []. split; [reflexivity | constructor].
  - unfold RecipeIngredientSerializer.to_representation at 1. rewrite Hi. simpl.
    rewrite IH1. simpl. eexists. split; [reflexivity|].
    constructor; [|exact IH2].
    unfold RecipeIngredientSerializer.to_representation. now rewrite Hi.
Qed.

Lemma get_ingredients_total (db : DB) (r : Recipe) :
  referential_integrity db = true ->
  exists ds, RecipeSerializer.get_ingredients r db = Ok (PyList ds).
Proof.
  intros H. unfold RecipeSerializer.get_ingredients.
  destruct (many_lines_rendered db (recipe_lines db r)) as [ds [Hds _]].
  - unfold recipe_lines. apply Forall_forall. intros l Hl.
    apply list_elem_of_filter in Hl as [_ Hl]. revert l Hl. apply Forall_forall.
    now apply referential_integrity_lines.
  - rewrite Hds. simpl. now exists ds.
Qed.

(** The user transformer cannot run without a request in its context. *)
Lemma user_representation_needs_request (obj : CustomUser) (db : DB) :
  CustomUserSerializer.to_representation ∅ obj db = Raise AttributeError.
Proof. reflexivity. Qed.

(** ** The recipes of a subscription *)

(** What the override puts under [recipes] once the limit is read. *)
Lemma subscription_recipes_upto
    (context : gmap string pyval) (instance : CustomUser) (db : DB) (n : Z) :
  py_int (dict_get context "recipes_limit" (PyInt 0)) = Ok n ->
  0 <= n <= max_limit ->
  SubscriptionSerializer.to_representation context instance db =
    Ok (<["recipes" :=
           RecipeMinifiedSerializer.many (take (Z.to_nat n) (user_recipes db instance))]>
          (SubscriptionSerializer.super_to_representation instance db)).
Proof.
  intros Hn [Hpos Hmax]. unfold SubscriptionSerializer.to_representation.
  rewrite Hn. simpl. unfold queryset_upto.
  destruct (Z.ltb_spec n 0); [lia|].
  destruct (Z.ltb_spec max_limit n); [lia | reflexivity].
Qed.

(** Without a limit in the context the slice is [[:0]]: no recipe at all. *)
Lemma subscription_recipes_unset
    (context : gmap string pyval) (instance : CustomUser) (db : DB) :
  context !! "recipes_limit" = None ->
  SubscriptionSerializer.to_representation context instance db =
    Ok (<["recipes" := PyList []]>
          (SubscriptionSerializer.super_to_representation instance db)).
Proof.
  intros H.
  rewrite (subscription_recipes_upto context instance db 0).
  - reflexivity.
  - now rewrite (dict_get_missing _ _ _ H).
  - now vm_compute.
Qed.

(** C1, at the failing input. Bob has five recipes; a subscription
    representation of bob built with no limit in the context, or with the
    limit 0, lists none of them, where the description promises all five. With
    the limit 2 it lists the first two. *)
Theorem subscription_without_limit_lists_no_recipes :
  length (user_recipes Fixture.db Fixture.bob) = 5%nat /\
  (exists ret,
     SubscriptionSerializer.to_representation ∅ Fixture.bob Fixture.db = Ok ret /\
     ret !! "recipes" = Some (PyList [])) /\
  (exists ret,
     SubscriptionSerializer.to_representation
       (<["recipes_limit" := PyInt 0]> ∅) Fixture.bob Fixture.db = Ok ret /\
     ret !! "recipes" = Some (PyList [])) /\
  (exists ret,
     SubscriptionSerializer.to_representation
       (<["recipes_limit" := PyStr "2"]> ∅) Fixture.bob Fixture.db = Ok ret /\
     ret !! "recipes" =
       Some (RecipeMinifiedSerializer.many [Fixture.dish 1 "soup"; Fixture.dish 2 "bread"])).
Proof.
  split; [reflexivity|].
  split; [|split].
  - eexists. split; [apply subscription_recipes_unset; reflexivity|].
    apply lookup_insert_eq.
  - eexists.
    split; [apply (subscription_recipes_upto _ _ _ 0); [reflexivity | now vm_compute]|].
    apply lookup_insert_eq.
  - eexists.
    split; [apply (subscription_recipes_upto _ _ _ 2); [reflexivity | now vm_compute]|].
    apply lookup_insert_eq.
Qed.

(** ** Creating a recipe *)

Lemma bind_Ok {A B : Type} (m : M A) (k : A -> M B) (db db' : DB) (b : B) :
  bind m k db = (Ok b, db') ->
  exists a db1, m db = (Ok a, db1) /\ k a db1 = (Ok b, db').
Proof.
  unfold bind. destruct (m db) as [[a|e] db1]; intros H.
  - now exists a, db1.
  - discriminate.
Qed.

Lemma lift_Ok {A : Type} (r : result A) (db db' : DB) (a : A) :
  lift r db = (Ok a, db') -> r = Ok a /\ db' = db.
Proof. unfold lift. intros H. injection H as -> ->. split; reflexivity. Qed.

Lemma ret_Ok {A : Type} (a b : A) (db db' : DB) :
  ret a db = (Ok b, db') -> b = a /\ db' = db.
Proof. unfold ret. intros H. injection H as -> ->. split; reflexivity. Qed.

Lemma next_id_above (ids : list Z) (x : Z) : x ∈ ids -> x < next_id ids.
Proof.
  unfold next_id. induction ids as [|y ids IH]; intros H.
  - now apply elem_of_nil in H.
  - apply elem_of_cons in H as [->|H]; simpl; [lia|]. specialize (IH H). lia.
Qed.

(** Replacing the rows that carry a fresh primary key touches only the
    row just appended. *)
Lemma replace_fresh_row {A : Type} (id : A -> Z) (rs : list A) (k : Z) (r r' : A) :
  k = next_id (id <$> rs) ->
  id r = k ->
  (fun x => if id x =? k then r' else x) <$> (rs ++ [r]) = rs ++ [r'].
Proof.
  intros Hk Hid. rewrite fmap_app. simpl. rewrite Hid, Z.eqb_refl. f_equal.
  rewrite <- (list_fmap_id rs) at 2. apply list_fmap_ext. intros i x Hx.
  destruct (Z.eqb_spec (id x) k) as [Heq|]; [|reflexivity].
  assert (id x < next_id (id <$> rs)) as Hlt.
  { apply next_id_above. apply list_elem_of_fmap_2. eapply list_elem_of_lookup_2. exact Hx. }
  lia.
Qed.

Lemma stored_refl (db : DB) : stored db db [] [].
Proof. unfold stored. now rewrite !app_nil_r. Qed.

Lemma objects_create_Ok (kwargs : gmap string pyval) (db db' : DB) (instance : Recipe) :
  RecipeCreateSerializer.objects_create kwargs db = (Ok instance, db') ->
  related_kwarg "CustomUser" kwargs "author" = Ok (author instance) /\
  recipe_id instance = next_id (recipe_id <$> recipes db) /\
  tags instance = [] /\
  recipe_fields instance = delete "author" kwargs /\
  stored db db' [instance] [].
Proof.
  unfold RecipeCreateSerializer.objects_create. intros H.
  apply bind_Ok in H as (who & db1 & Hwho & H).
  apply lift_Ok in Hwho as [Hwho ->].
  destruct who as [k|]; [|discriminate].
  injection H as <- <-. simpl. rewrite Hwho.
  unfold stored. simpl. now rewrite app_nil_r.
Qed.

(** A stored recipe has an author, the user the keyword arguments name. *)
Lemma related_kwarg_Some (model : string) (kwargs : gmap string pyval)
    (key : string) (k : Z) :
  related_kwarg model kwargs key = Ok (Some k) ->
  kwargs !! key = Some (PyModel model k).
Proof.
  unfold related_kwarg. destruct (kwargs !! key) as [v|]; [|discriminate].
  destruct v; try discriminate.
  destruct (String.eqb_spec model0 model) as [->|]; [|discriminate].
  intros H. now injection H as ->.
Qed.

Lemma objects_create_author (kwargs : gmap string pyval) (db db' : DB)
    (instance : Recipe) :
  RecipeCreateSerializer.objects_create kwargs db = (Ok instance, db') ->
  exists k, author instance = Some k /\ kwargs !! "author" = Some (PyModel "CustomUser" k).
Proof.
  unfold RecipeCreateSerializer.objects_create. intros H.
  apply bind_Ok in H as (who & db1 & Hwho & H).
  apply lift_Ok in Hwho as [Hwho ->].
  destruct who as [k|]; [|discriminate].
  injection H as <- <-. exists k. split; [reflexivity|].
  now apply related_kwarg_Some.
Qed.

Lemma super_create_Ok (validated_data : gmap string pyval) (db db' : DB) (instance : Recipe) :
  RecipeCreateSerializer.super_create validated_data db = (Ok instance, db') ->
  related_kwarg "CustomUser" validated_data "author" = Ok (author instance) /\
  recipe_id instance = next_id (recipe_id <$> recipes db) /\
  stored db db' [instance] [].
Proof.
  unfold RecipeCreateSerializer.super_create.
  destruct (RecipeCreateSerializer.nested_write validated_data); [discriminate|].
  intros H. apply bind_Ok in H as (r0 & db1 & Hcreate & H).
  apply objects_create_Ok in Hcreate as (Hauthor & Hid & _ & _ & Hst).
  assert (related_kwarg "CustomUser" validated_data "author" = Ok (author r0)) as Hauthor'.
  { rewrite <- Hauthor. unfold related_kwarg.
    now rewrite lookup_delete_ne by discriminate. }
  destruct (validated_data !! "tags") as [value|].
  - unfold RecipeCreateSerializer.set_tags in H.
    apply bind_Ok in H as (vs & db2 & Hvs & H). apply lift_Ok in Hvs as [_ ->].
    apply bind_Ok in H as (ks & db3 & Hks & H). apply lift_Ok in Hks as [_ ->].
    apply bind_Ok in H as (keys & db4 & Hkeys & H). apply lift_Ok in Hkeys as [_ ->].
    injection H as <- <-. simpl.
    destruct Hst as (Hu & Hf & Ht & Hi & Hr & Hl).
    split; [exact Hauthor'|]. split; [exact Hid|].
    unfold stored. simpl. rewrite Hr.
    rewrite (replace_fresh_row recipe_id) by (exact Hid || reflexivity).
    now rewrite Hu, Hf, Ht, Hi, Hl.
  - apply ret_Ok in H as [-> ->]. now split; [|split].
Qed.

Lemma save_line_Ok (instance : Recipe) (v a : pyval) (db db' : DB) :
  RecipeCreateSerializer.save_line instance v a db = (Ok tt, db') ->
  exists l,
    v = PyModel "Ingredient" (ingredient l) /\
    amount l = a /\
    recipe l = recipe_id instance /\
    stored db db' [] [l].
Proof.
  unfold RecipeCreateSerializer.save_line.
  destruct v; try discriminate.
  destruct (String.eqb_spec model "Ingredient") as [->|]; [|discriminate].
  intros H. injection H as <-.
  eexists (mkRecipeIngredient _ _ _ _). simpl.
  do 3 (split; [reflexivity|]).
  unfold stored. simpl. rewrite app_nil_r. repeat split.
Qed.

Lemma save_entry_Ok (instance : Recipe) (entry : pyval) (db db' : DB) :
  RecipeCreateSerializer.save_entry instance entry db = (Ok tt, db') ->
  exists l, line_of instance entry l /\ stored db db' [] [l].
Proof.
  unfold RecipeCreateSerializer.save_entry. intros H.
  apply bind_Ok in H as (v & db1 & Hv & H). apply lift_Ok in Hv as [Hv ->].
  apply bind_Ok in H as (a & db2 & Ha & H). apply lift_Ok in Ha as [Ha ->].
  apply save_line_Ok in H as (l & -> & <- & Hr & Hst).
  exists l. unfold line_of. now split; [split; [|split]|].
Qed.

Lemma stored_trans (db1 db2 db3 : DB) (rs rs' : list Recipe)
    (ls ls' : list RecipeIngredient) :
  stored db1 db2 rs ls -> stored db2 db3 rs' ls' -> stored db1 db3 (rs ++ rs') (ls ++ ls').
Proof.
  unfold stored. intros (Hu & Hf & Ht & Hi & Hr & Hl) (Hu' & Hf' & Ht' & Hi' & Hr' & Hl').
  rewrite Hu', Hf', Ht', Hi', Hr', Hl', Hu, Hf, Ht, Hi, Hr, Hl.
  now rewrite !app_assoc.
Qed.

(** The loop stores one line per entry, in the order of the entries. *)
Lemma save_entries_Ok (instance : Recipe) (entries : list pyval) (db db' : DB) :
  for_each entries (RecipeCreateSerializer.save_entry instance) db = (Ok tt, db') ->
  exists ls, Forall2 (line_of instance) entries ls /\ stored db db' [] ls.
Proof.
  revert db. induction entries as [|e entries IH]; intros db H; simpl in H.
  - apply ret_Ok in H as [_ ->]. exists []. split; [constructor | apply stored_refl].
  - apply bind_Ok in H as ([] & db1 & He & H).
    apply save_entry_Ok in He as (l & Hl & Hst).
    apply IH in H as (ls & Hls & Hst').
    exists (l :: ls). split; [now constructor|].
    exact (stored_trans _ _ _ [] [] [l] ls Hst Hst').
Qed.

(** A successful [create], taken apart. *)
Lemma create_Ok (context validated_data : gmap string pyval) (db db' : DB)
    (instance : Recipe) :
  RecipeCreateSerializer.create context validated_data db = (Ok instance, db') ->
  exists ingredients entries ls,
    validated_data !! "ingredients" = Some ingredients /\
    RecipeCreateSerializer.py_iter ingredients = Ok entries /\
    related_kwarg "CustomUser" validated_data "author" = Ok (author instance) /\
    recipe_id instance = next_id (recipe_id <$> recipes db) /\
    Forall2 (line_of instance) entries ls /\
    stored db db' [instance] ls.
Proof.
  unfold RecipeCreateSerializer.create. intros H.
  apply bind_Ok in H as (who & db1 & Hwho & H). apply lift_Ok in Hwho as [_ ->].
  apply bind_Ok in H as ([ingredients rest] & db1 & Hpop & H).
  apply lift_Ok in Hpop as [Hpop ->]. simpl in H.
  unfold dict_pop in Hpop.
  destruct (validated_data !! "ingredients") as [v|] eqn:Hv; [|discriminate].
  injection Hpop as -> <-.
  apply bind_Ok in H as (r & db1 & Hsuper & H).
  apply super_create_Ok in Hsuper as (Hauthor & Hid & Hst).
  apply bind_Ok in H as (entries & db2 & Hiter & H). apply lift_Ok in Hiter as [Hiter ->].
  apply bind_Ok in H as ([] & db3 & Hloop & H).
  apply ret_Ok in H as [-> ->].
  apply save_entries_Ok in Hloop as (ls & Hls & Hst').
  exists ingredients, entries, ls.
  split; [reflexivity|]. split; [exact Hiter|]. split.
  { rewrite <- Hauthor. unfold related_kwarg.
    now rewrite lookup_delete_ne by discriminate. }
  split; [exact Hid|]. split; [exact Hls|].
  exact (stored_trans _ _ _ [r] [] [] ls Hst Hst').
Qed.

(** The author of the created row is read from the validated data; the
    request of the context plays no part in it. *)
Lemma create_author_from_validated_data
    (context validated_data : gmap string pyval) (db db' : DB) (instance : Recipe) :
  RecipeCreateSerializer.create context validated_data db = (Ok instance, db') ->
  related_kwarg "CustomUser" validated_data "author" = Ok (author instance).
Proof.
  intros H. apply create_Ok in H as (? & ? & ? & _ & _ & Hauthor & _). exact Hauthor.
Qed.

(** A recipe [create] returns has an author: the user the validated data
    name. *)
Lemma create_author
    (context validated_data : gmap string pyval) (db db' : DB) (instance : Recipe) :
  RecipeCreateSerializer.create context validated_data db = (Ok instance, db') ->
  exists k,
    validated_data !! "author" = Some (PyModel "CustomUser" k) /\
    author instance = Some k.
Proof.
  intros H. pose proof (create_author_from_validated_data _ _ _ _ _ H) as Hauthor.
  unfold RecipeCreateSerializer.create in H.
  apply bind_Ok in H as (who & db1 & _ & H).
  apply bind_Ok in H as (popped & db2 & _ & H).
  apply bind_Ok in H as (r & db3 & Hsuper & H).
  apply bind_Ok in H as (es & db4 & _ & H).
  apply bind_Ok in H as ([] & db5 & _ & H). apply ret_Ok in H as [-> _].
  unfold RecipeCreateSerializer.super_create in Hsuper.
  destruct (RecipeCreateSerializer.nested_write _); [discriminate|].
  apply bind_Ok in Hsuper as (r0 & db6 & Hcreate & Hsuper).
  apply objects_create_author in Hcreate as (k & Hk & _).
  assert (author r = Some k) as Hr.
  { destruct (popped.2 !! "tags").
    - unfold RecipeCreateSerializer.set_tags in Hsuper.
      apply bind_Ok in Hsuper as (? & ? & _ & Hsuper).
      apply bind_Ok in Hsuper as (? & ? & _ & Hsuper).
      apply bind_Ok in Hsuper as (? & ? & _ & Hsuper).
      now injection Hsuper as <- _.
    - now apply ret_Ok in Hsuper as [-> _]. }
  exists k. split; [|exact Hr].
  rewrite Hr in Hauthor. now apply related_kwarg_Some.
Qed.

(** ** The ingredient lines of a created recipe *)

Lemma find_ingredient_id (db : DB) (k : Z) (i : Ingredient) :
  find_ingredient db k = Some i -> ingredient_id i = k.
Proof.
  unfold find_ingredient. intros H. apply find_some in H as [_ H].
  now apply Z.eqb_eq.
Qed.


(** No earlier line belongs to a recipe that is only being created. *)
Lemma fresh_recipe_has_no_lines (db : DB) (k : Z) :
  lines_of_stored_recipes db = true ->
  k = next_id (recipe_id <$> recipes db) ->
  filter (fun l => recipe l = k) (recipe_ingredients db) = [].
Proof.
  unfold lines_of_stored_recipes. intros H ->.
  rewrite forallb_forall in H.
  induction (recipe_ingredients db) as [|l ls IH]; [reflexivity|].
  rewrite filter_cons_False.
  - apply IH. intros x Hx. apply H. now right.
  - intros Heq. specialize (H l (or_introl eq_refl)).
    apply bool_decide_eq_true_1 in H. apply next_id_above in H. lia.
Qed.

Lemma filter_all_lines (k : Z) (ls : list RecipeIngredient) :
  Forall (fun l => recipe l = k) ls ->
  filter (fun l => recipe l = k) ls = ls.
Proof.
  induction 1 as [|l ls Hl _ IH]; [reflexivity|].
  rewrite filter_cons_True by exact Hl. now rewrite IH.
Qed.

(** ** Signing up *)

Lemma signup_representation_hides_password (instance : CustomUser) :
  CustomUserSignUpSerializer.to_representation instance !! "password" = None.
Proof.
  unfold CustomUserSignUpSerializer.to_representation, readable_fields. simpl.
  now rewrite !lookup_insert_ne by discriminate.
Qed.

(** C4. Signing up with a password [p] in the validated data (the hasher
    returning something else than its input on [p]): the base create step
    runs on the data without the [password] key, so the row it stores
    carries no password; the second write stores the hash; no write of the
    run stores [p]; the user ends up in the table with the hash as
    credential; and the output has no [password] field. *)
Theorem signup_never_stores_plaintext
    (make_password : string -> string) (unusable_password : string)
    (validated_data : gmap string pyval) (p : string) (db : DB) :
  make_password p <> p ->
  validated_data !! "password" = Some (PyStr p) ->
  exists first instance db',
    CustomUserSignUpSerializer.create make_password unusable_password validated_data db
      = (Ok instance, db') /\
    user_fields first = delete "password" validated_data /\
    user_fields instance !! "password" = Some (PyStr (make_password p)) /\
    journal db' = journal db ++ [WUser first; WUser instance] /\
    Forall (fun w => ~ stores_password p w) [WUser first; WUser instance] /\
    users db' = users db ++ [instance] /\
    CustomUserSignUpSerializer.to_representation instance !! "password" = None.
Proof.
  intros Hhash Hp.
  exists (mkCustomUser (next_id (user_id <$> users db)) (delete "password" validated_data)).
  eexists. eexists.
  split.
  { unfold CustomUserSignUpSerializer.create, bind, lift, dict_pop. rewrite Hp. simpl.
    reflexivity. }
  simpl. split; [reflexivity|].
  split; [apply lookup_insert_eq|].
  split; [now rewrite <- app_assoc|].
  split.
  { repeat constructor; simpl.
    - now rewrite lookup_delete_eq.
    - rewrite lookup_insert_eq. intros H. injection H as H. contradiction. }
  split; [|apply signup_representation_hides_password].
  apply (replace_fresh_row user_id); reflexivity.
Qed.

(** Carol signs up with the password [p@ss]. *)
Lemma signup_never_stores_plaintext_witness :
  exists instance db',
    CustomUserSignUpSerializer.create SignUpFixture.make_password "!"
      SignUpFixture.validated_data Fixture.db = (Ok instance, db') /\
    user_fields instance !! "password" = Some (PyStr "pbkdf2_sha256$p@ss") /\
    Forall (fun w => ~ stores_password "p@ss" w)
           (drop (length (journal Fixture.db)) (journal db')) /\
    CustomUserSignUpSerializer.to_representation instance !! "password" = None.
Proof.
  destruct (signup_never_stores_plaintext SignUpFixture.make_password "!"
              SignUpFixture.validated_data "p@ss" Fixture.db
              ltac:(discriminate) eq_refl)
    as (first & instance & db' & Hrun & _ & Hhash & Hjournal & Hclean & _ & Hout).
  exists instance, db'.
  split; [exact Hrun|]. split; [exact Hhash|]. split; [|exact Hout].
  rewrite Hjournal. rewrite drop_app_length. exact Hclean.
Defined.

(** ** Rejecting an unknown ingredient *)

Lemma find_ingredient_unknown (db : DB) (k : Z) :
  k ∉ ingredient_id <$> ingredients db -> find_ingredient db k = None.
Proof.
  intros H. unfold find_ingredient.
  destruct (find _ _) as [i|] eqn:Hi; [|reflexivity].
  exfalso. apply H. apply find_some in Hi as [Hin Hk].
  apply Z.eqb_eq in Hk as <-. apply list_elem_of_fmap_2. now apply list_elem_of_In.
Qed.

Section Rejection.

Variable amount_field : pyval -> option pyval.
Variable model_fields : DB -> gmap string pyval -> option (gmap string pyval).

Lemma entry_with_unknown_id (db : DB) (entry : gmap string pyval) (k : Z) :
  entry !! "id" = Some (PyInt k) ->
  find_ingredient db k = None ->
  RecipeIngredientCreateSerializer.to_internal_value amount_field db (PyDict entry)
    = Raise ValidationError.
Proof.
  intros Hid Hk. unfold RecipeIngredientCreateSerializer.to_internal_value.
  rewrite Hid. destruct (entry !! "amount"); [|reflexivity].
  unfold RecipeIngredientCreateSerializer.id_field. rewrite Hk. reflexivity.
Qed.

(** Validation of a list only ever fails with a validation error. *)
Lemma many_raises_validation_error (db : DB) (entries : list pyval) (e : exn) :
  RecipeIngredientCreateSerializer.many amount_field db entries = Raise e ->
  e = ValidationError.
Proof.
  destruct entries as [|x xs]; simpl; [discriminate|].
  destruct (RecipeIngredientCreateSerializer.to_internal_value amount_field db x);
    [destruct (RecipeIngredientCreateSerializer.many amount_field db xs)|];
    intros H; now inversion H.
Qed.

Lemma many_with_invalid_entry (db : DB) (entries : list pyval) (entry : pyval) :
  entry ∈ entries ->
  RecipeIngredientCreateSerializer.to_internal_value amount_field db entry
    = Raise ValidationError ->
  RecipeIngredientCreateSerializer.many amount_field db entries = Raise ValidationError.
Proof.
  intros Hin Hbad. induction entries as [|x xs IH]; [now apply elem_of_nil in Hin|].
  apply elem_of_cons in Hin as [<-|Hin]; simpl.
  - now rewrite Hbad.
  - rewrite (IH Hin).
    now destruct (RecipeIngredientCreateSerializer.to_internal_value amount_field db x).
Qed.

End Rejection.

(** C7. A create request whose ingredient list has an entry with an id
    that is not in the ingredient table is rejected by validation with a
    validation error, and the request leaves the database as it was: no
    recipe row, no ingredient line, no write at all. *)
Theorem unknown_ingredient_rejects_request
    (amount_field : pyval -> option pyval)
    (model_fields : DB -> gmap string pyval -> option (gmap string pyval))
    (context payload : gmap string pyval) (db : DB)
    (entries : list pyval) (entry : gmap string pyval) (k : Z) :
  payload !! "ingredients" = Some (PyList entries) ->
  PyDict entry ∈ entries ->
  entry !! "id" = Some (PyInt k) ->
  k ∉ ingredient_id <$> ingredients db ->
  RecipeCreateSerializer.to_internal_value amount_field model_fields db (PyDict payload)
    = Raise ValidationError /\
  RecipeEndpoint.post amount_field model_fields context (PyDict payload) db
    = (Raise ValidationError, db).
Proof.
  intros Hentries Hin Hid Hk.
  assert (RecipeCreateSerializer.to_internal_value amount_field model_fields db
            (PyDict payload) = Raise ValidationError) as Hinvalid.
  { unfold RecipeCreateSerializer.to_internal_value,
      RecipeCreateSerializer.ingredients_field.
    rewrite Hentries.
    rewrite (many_with_invalid_entry amount_field db entries (PyDict entry) Hin).
    - simpl. now destruct (model_fields db payload).
    - apply (entry_with_unknown_id amount_field db entry k Hid).
      now apply find_ingredient_unknown. }
  split; [exact Hinvalid|].
  unfold RecipeEndpoint.post. now rewrite Hinvalid.
Qed.

Lemma unknown_ingredient_rejects_request_witness :
  RecipeEndpoint.post RejectionFixture.amount_field RejectionFixture.model_fields
    CreateFixture.context (PyDict RejectionFixture.payload) Fixture.db
  = (Raise ValidationError, Fixture.db).
Proof.
  refine (proj2 (unknown_ingredient_rejects_request
                   RejectionFixture.amount_field RejectionFixture.model_fields
                   CreateFixture.context RejectionFixture.payload Fixture.db
                   [PyDict (RejectionFixture.entry 1 5); PyDict (RejectionFixture.entry 99 1)]
                   (RejectionFixture.entry 99 1) 99 eq_refl _ eq_refl _)).
  - apply elem_of_cons. right. apply elem_of_cons. left. reflexivity.
  - vm_compute. intros H. repeat (apply elem_of_cons in H as [H|H]; [discriminate|]).
    now apply elem_of_nil in H.
Defined.

(** The same request with stored ingredients only passes validation: the
    two entries come out with their ingredients resolved. *)
Example known_ingredients_are_accepted :
  RecipeCreateSerializer.to_internal_value RejectionFixture.amount_field
    RejectionFixture.model_fields Fixture.db (PyDict RejectionFixture.valid_payload)
  = Ok (<["ingredients" := PyList [CreateFixture.entry 1 5; CreateFixture.entry 2 1]]>
          (<["name" := PyStr "soup"]> ∅)).
Proof. vm_compute. reflexivity. Qed.

(** ** Base64 round trips *)

Lemma sextet_listed (v : Z) : 0 <= v < 64 -> In v sextets.
Proof.
  intros H. unfold sextets. apply in_map_iff. exists (Z.to_nat v).
  split; [lia|]. apply in_seq. lia.
Qed.

Lemma for_all_sextets (f : Z -> bool) :
  forallb f sextets = true -> forall v, 0 <= v < 64 -> f v = true.
Proof.
  intros H v Hv. rewrite forallb_forall in H. apply H. now apply sextet_listed.
Qed.

Lemma first_sextet_back (v1 v2 : Z) :
  0 <= v1 < 64 -> 0 <= v2 < 64 -> Z.shiftr (byte1 v1 v2) 2 = v1.
Proof.
  intros H1 H2. apply Z.eqb_eq.
  revert v2 H2. apply for_all_sextets. revert v1 H1. apply for_all_sextets.
  vm_compute. reflexivity.
Qed.

Lemma second_sextet_back (v1 v2 v3 : Z) :
  0 <= v1 < 64 -> 0 <= v2 < 64 -> 0 <= v3 < 64 ->
  Z.lor (Z.shiftl (Z.land (byte1 v1 v2) 3) 4) (Z.shiftr (byte2 v2 v3) 4) = v2.
Proof.
  intros H1 H2 H3. apply Z.eqb_eq.
  revert v3 H3. apply for_all_sextets. revert v2 H2. apply for_all_sextets.
  revert v1 H1. apply for_all_sextets.
  vm_compute. reflexivity.
Qed.

Lemma third_sextet_back (v2 v3 v4 : Z) :
  0 <= v2 < 64 -> 0 <= v3 < 64 -> 0 <= v4 < 64 ->
  Z.lor (Z.shiftl (Z.land (byte2 v2 v3) 15) 2) (Z.shiftr (byte3 v3 v4) 6) = v3.
Proof.
  intros H2 H3 H4. apply Z.eqb_eq.
  revert v4 H4. apply for_all_sextets. revert v3 H3. apply for_all_sextets.
  revert v2 H2. apply for_all_sextets.
  vm_compute. reflexivity.
Qed.

Lemma fourth_sextet_back (v3 v4 : Z) :
  0 <= v3 < 64 -> 0 <= v4 < 64 -> Z.land (byte3 v3 v4) 63 = v4.
Proof.
  intros H3 H4. apply Z.eqb_eq.
  revert v4 H4. apply for_all_sextets. revert v3 H3. apply for_all_sextets.
  vm_compute. reflexivity.
Qed.

(** With one byte in the last group the second character carries two
    bits of data; it comes back when its four other bits are clear. *)
Lemma second_sextet_padded (v1 v2 : Z) :
  0 <= v1 < 64 -> 0 <= v2 < 64 ->
  (Z.land v2 (Z.ones 4) =? 0) = true ->
  Z.shiftl (Z.land (byte1 v1 v2) 3) 4 = v2.
Proof.
  intros H1 H2 Hclear. apply Z.eqb_eq. revert Hclear. apply implb_true_iff.
  revert v2 H2. apply for_all_sextets. revert v1 H1. apply for_all_sextets.
  vm_compute. reflexivity.
Qed.

(** With two bytes the third character carries four bits of data. *)
Lemma third_sextet_padded (v2 v3 : Z) :
  0 <= v2 < 64 -> 0 <= v3 < 64 ->
  (Z.land v3 (Z.ones 2) =? 0) = true ->
  Z.shiftl (Z.land (byte2 v2 v3) 15) 2 = v3.
Proof.
  intros H2 H3 Hclear. apply Z.eqb_eq. revert Hclear. apply implb_true_iff.
  revert v3 H3. apply for_all_sextets. revert v2 H2. apply for_all_sextets.
  vm_compute. reflexivity.
Qed.

Lemma for_all_ascii (f : ascii -> bool) :
  forallb f all_ascii = true -> forall c, f c = true.
Proof.
  intros H c. rewrite forallb_forall in H. apply H.
  unfold all_ascii. apply in_map_iff. exists (nat_of_ascii c).
  split; [apply ascii_nat_embedding|]. apply in_seq.
  pose proof (nat_ascii_bounded c). lia.
Qed.

Lemma alphabet_character (c : ascii) (v : Z) :
  Base64.table_a2b_base64 c = Some v ->
  0 <= v < 64 /\
  Base64.table_b2a_base64 v = c /\
  Ascii.eqb c Base64.BASE64_PAD = false /\
  (Z.of_N (N_of_ascii c) <? 128) = true.
Proof.
  intros Hv.
  assert (alphabet_facts c = true) as H
    by (clear Hv; revert c; apply for_all_ascii; vm_compute; reflexivity).
  unfold alphabet_facts in H. rewrite Hv in H.
  repeat (apply andb_true_iff in H as [H ?]).
  split; [lia|]. split; [now apply Ascii.eqb_eq|].
  split; [now apply negb_true_iff | assumption].
Qed.

Lemma in_alphabet_value (c : ascii) :
  Base64.in_alphabet c = true -> exists v, Base64.table_a2b_base64 c = Some v.
Proof.
  unfold Base64.in_alphabet. destruct (Base64.table_a2b_base64 c) as [v|];
    [now exists v | discriminate].
Qed.

(** A quad of alphabet characters makes the loop write three bytes and
    start over. *)
Lemma decode_quad (c1 c2 c3 c4 : ascii) (v1 v2 v3 v4 : Z) (rest : string) (leftchar : Z) :
  Base64.table_a2b_base64 c1 = Some v1 ->
  Base64.table_a2b_base64 c2 = Some v2 ->
  Base64.table_a2b_base64 c3 = Some v3 ->
  Base64.table_a2b_base64 c4 = Some v4 ->
  Base64.a2b_loop (String c1 (String c2 (String c3 (String c4 rest)))) 0 leftchar 0 =
    Base64.emit (byte1 v1 v2)
      (Base64.emit (byte2 v2 v3)
         (Base64.emit (byte3 v3 v4) (Base64.a2b_loop rest 0 0 0))).
Proof.
  intros H1 H2 H3 H4.
  destruct (alphabet_character c1 v1 H1) as (_ & _ & P1 & _).
  destruct (alphabet_character c2 v2 H2) as (_ & _ & P2 & _).
  destruct (alphabet_character c3 v3 H3) as (_ & _ & P3 & _).
  destruct (alphabet_character c4 v4 H4) as (_ & _ & P4 & _).
  cbn [Base64.a2b_loop]. rewrite P1, H1. cbn [Base64.a2b_loop]. rewrite P2, H2.
  cbn [Base64.a2b_loop]. rewrite P3, H3. cbn [Base64.a2b_loop]. rewrite P4, H4.
  reflexivity.
Qed.

(** The last quad of a payload with one byte left: two characters and two
    pads. *)
Lemma decode_one_byte (c1 c2 : ascii) (v1 v2 : Z) (leftchar : Z) :
  Base64.table_a2b_base64 c1 = Some v1 ->
  Base64.table_a2b_base64 c2 = Some v2 ->
  Base64.a2b_loop (String c1 (String c2 "==")) 0 leftchar 0 = Ok [byte1 v1 v2].
Proof.
  intros H1 H2.
  destruct (alphabet_character c1 v1 H1) as (_ & _ & P1 & _).
  destruct (alphabet_character c2 v2 H2) as (_ & _ & P2 & _).
  cbn [Base64.a2b_loop]. rewrite P1, H1. cbn [Base64.a2b_loop]. rewrite P2, H2.
  reflexivity.
Qed.

(** The last quad of a payload with two bytes left: three characters and
    one pad. *)
Lemma decode_two_bytes (c1 c2 c3 : ascii) (v1 v2 v3 : Z) (leftchar : Z) :
  Base64.table_a2b_base64 c1 = Some v1 ->
  Base64.table_a2b_base64 c2 = Some v2 ->
  Base64.table_a2b_base64 c3 = Some v3 ->
  Base64.a2b_loop (String c1 (String c2 (String c3 "="))) 0 leftchar 0
    = Ok [byte1 v1 v2; byte2 v2 v3].
Proof.
  intros H1 H2 H3.
  destruct (alphabet_character c1 v1 H1) as (_ & _ & P1 & _).
  destruct (alphabet_character c2 v2 H2) as (_ & _ & P2 & _).
  destruct (alphabet_character c3 v3 H3) as (_ & _ & P3 & _).
  cbn [Base64.a2b_loop]. rewrite P1, H1. cbn [Base64.a2b_loop]. rewrite P2, H2.
  cbn [Base64.a2b_loop]. rewrite P3, H3.
  reflexivity.
Qed.

(** Induction along the quads of a payload. *)
Lemma quads_ind (strict : bool) (P : string -> Prop) :
  P "" ->
  (forall c1 c2 c3 c4 rest,
     Base64.quads strict (String c1 (String c2 (String c3 (String c4 rest)))) = true ->
     (rest <> "" -> P rest) ->
     P (String c1 (String c2 (String c3 (String c4 rest))))) ->
  forall s, Base64.quads strict s = true -> P s.
Proof.
  intros Hnil Hquad.
  assert (forall n s, (String.length s <= n)%nat ->
                      Base64.quads strict s = true -> P s) as H.
  { induction n as [|n IH]; intros s Hlen Hs.
    - destruct s; [exact Hnil | simpl in Hlen; lia].
    - destruct s as [|c1 [|c2 [|c3 [|c4 rest]]]]; try exact Hnil; try discriminate.
      apply Hquad; [exact Hs|]. intros Hrest. apply IH.
      + simpl in Hlen. lia.
      + destruct rest as [|c5 rest]; [contradiction|].
        cbn [Base64.quads] in Hs.
        apply andb_true_iff in Hs as [_ Hs]. now apply andb_true_iff in Hs as [_ Hs]. }
  intros s. now apply (H (String.length s)).
Qed.

(** At the start of a quad the loop decodes a canonical payload to the
    end, and encoding the bytes gives the payload back. *)
Lemma canonical_loop_round_trip (p : string) :
  Base64.quads true p = true ->
  forall leftchar, exists bytes,
    Base64.a2b_loop p 0 leftchar 0 = Ok bytes /\ Base64.b64encode bytes = p.
Proof.
  revert p.
  apply (quads_ind true (fun p => forall leftchar, exists bytes,
           Base64.a2b_loop p 0 leftchar 0 = Ok bytes /\ Base64.b64encode bytes = p)).
  - intros leftchar. exists []. split; reflexivity.
  - intros c1 c2 c3 c4 rest Hq IH leftchar.
    cbn [Base64.quads] in Hq.
    apply andb_true_iff in Hq as [Hq Hlast].
    apply andb_true_iff in Hq as [Hc1 Hc2].
    apply in_alphabet_value in Hc1 as [v1 H1].
    apply in_alphabet_value in Hc2 as [v2 H2].
    destruct (alphabet_character c1 v1 H1) as (R1 & B1 & _).
    destruct (alphabet_character c2 v2 H2) as (R2 & B2 & _).
    assert (Base64.in_alphabet c3 = true /\ Base64.in_alphabet c4 = true ->
            exists v3 v4,
              Base64.table_a2b_base64 c3 = Some v3 /\ Base64.table_a2b_base64 c4 = Some v4 /\
              Base64.b64encode [byte1 v1 v2; byte2 v2 v3; byte3 v3 v4]
                = String c1 (String c2 (String c3 (String c4 "")))) as Hfull.
    { intros [Hc3 Hc4].
      apply in_alphabet_value in Hc3 as [v3 H3].
      apply in_alphabet_value in Hc4 as [v4 H4].
      destruct (alphabet_character c3 v3 H3) as (R3 & B3 & _).
      destruct (alphabet_character c4 v4 H4) as (R4 & B4 & _).
      exists v3, v4. split; [exact H3|]. split; [exact H4|].
      cbn [Base64.b64encode].
      rewrite first_sextet_back, second_sextet_back, third_sextet_back,
        fourth_sextet_back by assumption.
      unfold Base64.ch. cbn [String.append]. now rewrite B1, B2, B3, B4. }
    destruct rest as [|c5 rest].
    + destruct (Ascii.eqb_spec c4 Base64.BASE64_PAD) as [->|Hc4].
      * destruct (Ascii.eqb_spec c3 Base64.BASE64_PAD) as [->|Hc3].
        -- unfold Base64.low_bits_clear in Hlast. rewrite H2 in Hlast.
           exists [byte1 v1 v2]. split; [now apply decode_one_byte|].
           cbn [Base64.b64encode].
           rewrite first_sextet_back, second_sextet_padded by assumption.
           unfold Base64.ch. cbn [String.append]. now rewrite B1, B2.
        -- apply andb_true_iff in Hlast as [Hc3' Hclear].
           apply in_alphabet_value in Hc3' as [v3 H3].
           destruct (alphabet_character c3 v3 H3) as (R3 & B3 & _).
           unfold Base64.low_bits_clear in Hclear. rewrite H3 in Hclear.
           exists [byte1 v1 v2; byte2 v2 v3]. split; [now apply decode_two_bytes|].
           cbn [Base64.b64encode].
           rewrite first_sextet_back, second_sextet_back, third_sextet_padded
             by assumption.
           unfold Base64.ch. cbn [String.append]. now rewrite B1, B2, B3.
      * apply andb_true_iff in Hlast.
        destruct (Hfull Hlast) as (v3 & v4 & H3 & H4 & Henc).
        exists [byte1 v1 v2; byte2 v2 v3; byte3 v3 v4]. split; [|exact Henc].
        now rewrite (decode_quad c1 c2 c3 c4 v1 v2 v3 v4 "" leftchar).
    + apply andb_true_iff in Hlast as [Hlast Hrest].
      apply andb_true_iff in Hlast.
      destruct (Hfull Hlast) as (v3 & v4 & H3 & H4 & Henc).
      destruct (IH ltac:(discriminate) 0) as (bytes & Hdec & Hback).
      exists (byte1 v1 v2 :: byte2 v2 v3 :: byte3 v3 v4 :: bytes). split.
      * rewrite (decode_quad c1 c2 c3 c4 v1 v2 v3 v4 _ leftchar) by assumption.
        now rewrite Hdec.
      * cbn [Base64.b64encode]. cbn [Base64.b64encode] in Henc.
        rewrite Hback. unfold Base64.ch in *. cbn [String.append] in *.
        now injection Henc as -> -> -> ->.
Qed.

Lemma pad_is_ascii : (Z.of_N (N_of_ascii Base64.BASE64_PAD) <? 128) = true.
Proof. reflexivity. Qed.

(** A payload made of quads holds ASCII characters only. *)
Lemma quads_is_ascii (strict : bool) (p : string) :
  Base64.quads strict p = true -> Base64.is_ascii p = true.
Proof.
  revert p. apply quads_ind; [reflexivity|].
  intros c1 c2 c3 c4 rest Hq IH.
  assert (forall c, Base64.in_alphabet c = true ->
                    (Z.of_N (N_of_ascii c) <? 128) = true) as Hcode.
  { intros c Hc. apply in_alphabet_value in Hc as [v Hv].
    now destruct (alphabet_character c v Hv) as (_ & _ & _ & ?). }
  cbn [Base64.quads] in Hq.
  apply andb_true_iff in Hq as [Hq Hlast].
  apply andb_true_iff in Hq as [Hc1 Hc2].
  cbn [Base64.is_ascii]. rewrite (Hcode c1 Hc1), (Hcode c2 Hc2). cbn [andb].
  destruct rest as [|c5 rest].
  - destruct (Ascii.eqb_spec c4 Base64.BASE64_PAD) as [->|_].
    + destruct (Ascii.eqb_spec c3 Base64.BASE64_PAD) as [->|_]; [reflexivity|].
      apply andb_true_iff in Hlast as [Hc3 _].
      now rewrite (Hcode c3 Hc3).
    + apply andb_true_iff in Hlast as [Hc3 Hc4].
      now rewrite (Hcode c3 Hc3), (Hcode c4 Hc4).
  - apply andb_true_iff in Hlast as [Hlast _].
    apply andb_true_iff in Hlast as [Hc3 Hc4].
    rewrite (Hcode c3 Hc3), (Hcode c4 Hc4). cbn [andb].
    now apply IH.
Qed.

(** A canonical payload is decoded, and encoding the bytes gives it back. *)
Lemma canonical_round_trip (p : string) :
  Base64.canonical p = true ->
  exists bytes, Base64.b64decode p = Ok bytes /\ Base64.b64encode bytes = p.
Proof.
  intros Hp. unfold Base64.b64decode.
  rewrite (quads_is_ascii true p Hp).
  exact (canonical_loop_round_trip p Hp 0).
Qed.

(** The decoder raises nothing but [binascii.Error] and [ValueError]. *)
Lemma a2b_loop_raises (s : string) (quad_pos leftchar pads : Z) (e : exn) :
  Base64.a2b_loop s quad_pos leftchar pads = Raise e -> e = BinasciiError.
Proof.
  revert quad_pos leftchar pads.
  induction s as [|c s IH]; intros quad_pos leftchar pads; cbn [Base64.a2b_loop].
  - destruct (quad_pos =? 0); intros H; now inversion H.
  - destruct (Ascii.eqb c Base64.BASE64_PAD).
    + destruct ((2 <=? quad_pos) && (4 <=? quad_pos + (pads + 1)));
        [discriminate | apply IH].
    + destruct (Base64.table_a2b_base64 c) as [v|]; [|apply IH].
      assert (forall b qp lc, Base64.emit b (Base64.a2b_loop s qp lc 0) = Raise e ->
                              e = BinasciiError) as Hemit.
      { intros b qp lc. unfold Base64.emit.
        destruct (Base64.a2b_loop s qp lc 0) eqn:Hs; simpl; [discriminate|].
        intros H. injection H as <-. exact (IH _ _ _ Hs). }
      destruct quad_pos as [|[[]|[]|]|]; try apply Hemit; apply IH.
Qed.

Lemma b64decode_raises (s : string) (e : exn) :
  Base64.b64decode s = Raise e -> is_value_error e = true /\ is_validation_error e = false.
Proof.
  unfold Base64.b64decode. destruct (Base64.is_ascii s).
  - intros H. apply a2b_loop_raises in H as ->. split; reflexivity.
  - intros H. injection H as <-. split; reflexivity.
Qed.

(** ** The image field *)

Lemma append_empty (s : string) : s +:+ "" = s.
Proof. induction s as [|c s IH]; [reflexivity|]. exact (f_equal (String c) IH). Qed.

Lemma append_snoc (piece rest : string) (c : ascii) :
  (piece +:+ String c "") +:+ rest = piece +:+ String c rest.
Proof. induction piece as [|d piece IH]; [reflexivity|]. exact (f_equal (String d) IH). Qed.

(** A string without the separator is not cut. *)
Lemma split_without_separator (sep s piece : string) :
  occurs sep s = false -> Str.split_from sep s O piece = [piece +:+ s].
Proof.
  revert piece. induction s as [|c s IH]; intros piece H.
  - cbn [Str.split_from]. now rewrite append_empty.
  - cbn [occurs] in H. apply orb_false_iff in H as [Hhere Hlater].
    cbn [Str.split_from]. rewrite Hhere. rewrite (IH _ Hlater).
    now rewrite append_snoc.
Qed.

Lemma payload_to_internal_value (super : pyval -> result pyval) (s p : string) :
  Base64ImageField.payload s = Some p ->
  exists name,
    Base64ImageField.to_internal_value super (PyStr s) =
      let* bytes := Base64.b64decode p in super (PyFile (mkContentFile bytes name)).
Proof.
  unfold Base64ImageField.payload, Base64ImageField.to_internal_value.
  destruct (Str.startswith "data:image" s); [|discriminate].
  destruct (Str.split ";base64," s) as [|img_format [|img_str [|]]]; try discriminate.
  intros H. injection H as <-. eexists. reflexivity.
Qed.

(** C3, as the description states it, at two inputs. A data-URL string without the delimiter
    and one whose payload lacks its padding both make the decoder raise a
    [ValueError] (the second a [binascii.Error], its subclass), which is
    no validation error of the field, even under a base field that would
    accept whatever it is handed. *)
Lemma image_decoder_raises_value_error :
  Base64ImageField.to_internal_value Ok (PyStr "data:image/png") = Raise ValueError /\
  Base64ImageField.to_internal_value Ok (PyStr "data:image/png;base64,QUJ")
    = Raise BinasciiError /\
  is_validation_error ValueError = false /\
  is_validation_error BinasciiError = false.
Proof. repeat split; reflexivity. Qed.

(** C3, as the code has it. For a string that starts with the data-URL
    image marker: without the [;base64,] delimiter the decoder raises
    [ValueError]; with a payload that [b64decode] rejects it raises that
    very exception, a [ValueError] and no validation error; in both cases
    nothing is returned, so the image is not dropped silently. Any input
    that is not a string goes to the base field untouched. *)
Theorem image_decoder_failures (super : pyval -> result pyval) :
  (forall s,
     Str.startswith "data:image" s = true ->
     occurs ";base64," s = false ->
     Base64ImageField.to_internal_value super (PyStr s) = Raise ValueError) /\
  (forall s p e,
     Base64ImageField.payload s = Some p ->
     Base64.b64decode p = Raise e ->
     Base64ImageField.to_internal_value super (PyStr s) = Raise e /\
     is_value_error e = true /\
     is_validation_error e = false) /\
  (forall data,
     (forall s, data <> PyStr s) ->
     Base64ImageField.to_internal_value super data = super data).
Proof.
  split; [|split].
  - intros s Hstart Hmissing. unfold Base64ImageField.to_internal_value.
    rewrite Hstart. unfold Str.split.
    now rewrite (split_without_separator _ _ _ Hmissing).
  - intros s p e Hp He.
    destruct (payload_to_internal_value super s p Hp) as [name ->].
    rewrite He. split; [reflexivity|]. exact (b64decode_raises p e He).
  - intros data Hdata. destruct data; try reflexivity. now destruct (Hdata s).
Qed.

(** A marker alone, a payload of three characters, and an upload that is
    no string. *)
Lemma image_decoder_failures_witness :
  Base64ImageField.to_internal_value Ok (PyStr "data:image/png") = Raise ValueError /\
  Base64ImageField.to_internal_value Ok (PyStr "data:image/png;base64,QUJ")
    = Raise BinasciiError /\
  Base64ImageField.to_internal_value Ok (PyFile (mkContentFile [137; 80] "a.png"))
    = Ok (PyFile (mkContentFile [137; 80] "a.png")).
Proof.
  destruct (image_decoder_failures Ok) as (Hmissing & Hrejected & Hother).
  split; [|split].
  - apply Hmissing; reflexivity.
  - exact (proj1 (Hrejected "data:image/png;base64,QUJ" "QUJ" BinasciiError
                    eq_refl eq_refl)).
  - apply Hother. discriminate.
Defined.

(** C8, as the description states it, at one input. The payload [QR==] has the textbook shape
    and is decoded to the byte 65, but its second character carries bits
    that encode nothing: encoding the byte gives [QQ==]. *)
Lemma lenient_payload_does_not_round_trip :
  Base64ImageField.payload "data:image/png;base64,QR==" = Some "QR==" /\
  Base64.well_formed "QR==" = true /\
  Base64.b64decode "QR==" = Ok [65] /\
  Base64.b64encode [65] = "QQ==" /\
  Base64.b64encode [65] <> "QR==".
Proof. repeat split; try reflexivity. discriminate. Qed.

(** C8, as the code has it. For a data-URL image string whose payload is
    canonical base64 (quads of alphabet characters, the last one possibly
    padded, the unused bits of its last character zero), the decoder
    returns bytes, encoding them gives the payload back, and these bytes
    are the content of the file handed to the base field. *)
Theorem canonical_payload_round_trips (s p : string) :
  Base64ImageField.payload s = Some p ->
  Base64.canonical p = true ->
  exists bytes,
    Base64.b64decode p = Ok bytes /\
    Base64.b64encode bytes = p /\
    forall super, exists name,
      Base64ImageField.to_internal_value super (PyStr s)
        = super (PyFile (mkContentFile bytes name)).
Proof.
  intros Hp Hcanonical.
  destruct (canonical_round_trip p Hcanonical) as (bytes & Hdecode & Hencode).
  exists bytes. split; [exact Hdecode|]. split; [exact Hencode|].
  intros super. destruct (payload_to_internal_value super s p Hp) as [name ->].
  exists name. now rewrite Hdecode.
Qed.

Lemma canonical_payload_round_trips_witness :
  exists bytes,
    Base64.b64decode "iVBORw0KGgo=" = Ok bytes /\
    Base64.b64encode bytes = "iVBORw0KGgo=".
Proof.
  destruct (canonical_payload_round_trips
              "data:image/png;base64,iVBORw0KGgo=" "iVBORw0KGgo=" eq_refl eq_refl)
    as (bytes & Hdecode & Hencode & _).
  exists bytes. split; assumption.
Defined.

(** A payload broken over two lines is decoded all the same, and comes
    back without the line break. *)
Example wrapped_payload_is_decoded :
  Base64.b64decode ("QUJD" +:+ String "010" "REVG") = Ok [65; 66; 67; 68; 69; 70] /\
  Base64.b64encode [65; 66; 67; 68; 69; 70] = "QUJDREVG".
Proof. split; reflexivity. Qed.

(** * Further properties *)

(** ** Cutting a string at a separator *)

Lemma prefix_append (p rest : string) : String.prefix p (p +:+ rest) = true.
Proof.
  induction p as [|c p IH]; [now destruct rest|].
  change (String.prefix (String c p) (String c (p +:+ rest)) = true).
  cbn [String.prefix]. destruct (ascii_dec c c) as [_|Hne]; [exact IH | now destruct Hne].
Qed.

(** The rest of a separator just matched is passed over. *)
Lemma split_from_skip (sep t rest piece : string) :
  Str.split_from sep (t +:+ rest) (String.length t) piece
    = Str.split_from sep rest O piece.
Proof.
  induction t as [|c t IH]; [reflexivity|].
  change (String c t +:+ rest) with (String c (t +:+ rest)).
  cbn [String.length Str.split_from]. exact IH.
Qed.

(** A separator does not start at a character that is not its first. *)
Lemma prefix_other_character (c0 d : ascii) (tail s : string) :
  Ascii.eqb d c0 = false -> String.prefix (String c0 tail) (String d s) = false.
Proof.
  intros H. cbn [String.prefix]. destruct (ascii_dec c0 d) as [->|_]; [|reflexivity].
  now rewrite Ascii.eqb_refl in H.
Qed.

(** Pieces free of the first character of the separator, joined and
    split again, come back as they were. *)
Lemma split_join (c0 : ascii) (tail : string) (p : string) (ps : list string)
    (piece : string) :
  Forall (fun q => free_of c0 q = true) (p :: ps) ->
  Str.split_from (String c0 tail) (join (String c0 tail) (p :: ps)) O piece
    = (piece +:+ p) :: ps.
Proof.
  revert p piece. induction ps as [|q ps IH]; intros p piece Hfree.
  - apply Forall_inv in Hfree. cbn [join]. revert piece.
    induction p as [|d p IHp]; intros piece.
    + cbn [Str.split_from]. now rewrite append_empty.
    + cbn [free_of every_character] in Hfree.
      apply andb_true_iff in Hfree as [Hd Hp]. apply negb_true_iff in Hd.
      cbn [Str.split_from]. rewrite (prefix_other_character c0 d tail p Hd).
      rewrite (IHp Hp). now rewrite append_snoc.
  - pose proof (Forall_inv Hfree) as Hp. apply Forall_inv_tail in Hfree.
    change (join (String c0 tail) (p :: q :: ps))
      with (p +:+ String c0 tail +:+ join (String c0 tail) (q :: ps)).
    revert piece. induction p as [|d p IHp]; intros piece.
    + change ("" +:+ String c0 tail +:+ join (String c0 tail) (q :: ps))
        with (String c0 (tail +:+ join (String c0 tail) (q :: ps))).
      cbn [Str.split_from].
      change (String c0 (tail +:+ join (String c0 tail) (q :: ps)))
        with (String c0 tail +:+ join (String c0 tail) (q :: ps)).
      rewrite prefix_append. cbn [String.length Nat.pred].
      rewrite split_from_skip. rewrite (IH q "" Hfree).
      now rewrite append_empty.
    + cbn [free_of every_character] in Hp.
      apply andb_true_iff in Hp as [Hd Hp]. apply negb_true_iff in Hd.
      change (String d p +:+ String c0 tail +:+ join (String c0 tail) (q :: ps))
        with (String d (p +:+ String c0 tail +:+ join (String c0 tail) (q :: ps))).
      cbn [Str.split_from].
      rewrite (prefix_other_character c0 d tail _ Hd).
      rewrite (IHp Hp). now rewrite append_snoc.
Qed.

Lemma split_joined_pieces (c0 : ascii) (tail : string) (pieces : list string) :
  pieces <> [] ->
  Forall (fun q => free_of c0 q = true) pieces ->
  Str.split (String c0 tail) (join (String c0 tail) pieces) = pieces.
Proof.
  intros Hne Hfree. destruct pieces as [|p ps]; [contradiction|].
  unfold Str.split. now rewrite split_join.
Qed.

(** ** From bytes to text and back *)

Lemma octet_listed (b : Z) : is_byte b -> In b octets.
Proof.
  intros H. unfold octets. apply in_map_iff. exists (Z.to_nat b).
  unfold is_byte in H. split; [lia|]. apply in_seq. lia.
Qed.

Lemma for_all_octets (f : Z -> bool) :
  forallb f octets = true -> forall b, is_byte b -> f b = true.
Proof.
  intros H b Hb. rewrite forallb_forall in H. apply H. now apply octet_listed.
Qed.

(** The decoder's table reads back what the encoder's table wrote. *)
Lemma letter_value (v : Z) :
  0 <= v < 64 -> Base64.table_a2b_base64 (Base64.table_b2a_base64 v) = Some v.
Proof.
  intros Hv.
  assert (match Base64.table_a2b_base64 (Base64.table_b2a_base64 v) with
          | Some w => w =? v
          | None => false
          end = true) as H
    by (revert v Hv; apply for_all_sextets; vm_compute; reflexivity).
  destruct (Base64.table_a2b_base64 (Base64.table_b2a_base64 v)) as [w|];
    [|discriminate].
  apply Z.eqb_eq in H. now subst.
Qed.

(** The four sextets the encoder cuts out of three bytes. *)
Lemma sextets_of_bytes (b1 b2 b3 : Z) :
  is_byte b1 -> is_byte b2 -> is_byte b3 ->
  0 <= Z.shiftr b1 2 < 64 /\
  0 <= Z.lor (Z.shiftl (Z.land b1 3) 4) (Z.shiftr b2 4) < 64 /\
  0 <= Z.lor (Z.shiftl (Z.land b2 15) 2) (Z.shiftr b3 6) < 64 /\
  0 <= Z.land b3 63 < 64 /\
  0 <= Z.shiftl (Z.land b1 3) 4 < 64 /\
  0 <= Z.shiftl (Z.land b2 15) 2 < 64.
Proof.
  intros H1 H2 H3.
  assert (forall x y, is_byte x -> is_byte y ->
            ((0 <=? Z.shiftr x 2) && (Z.shiftr x 2 <? 64)
             && (0 <=? Z.lor (Z.shiftl (Z.land x 3) 4) (Z.shiftr y 4))
             && (Z.lor (Z.shiftl (Z.land x 3) 4) (Z.shiftr y 4) <? 64)
             && (0 <=? Z.lor (Z.shiftl (Z.land x 15) 2) (Z.shiftr y 6))
             && (Z.lor (Z.shiftl (Z.land x 15) 2) (Z.shiftr y 6) <? 64)
             && (0 <=? Z.land x 63) && (Z.land x 63 <? 64)
             && (0 <=? Z.shiftl (Z.land x 3) 4) && (Z.shiftl (Z.land x 3) 4 <? 64)
             && (0 <=? Z.shiftl (Z.land x 15) 2) && (Z.shiftl (Z.land x 15) 2 <? 64))
            = true) as Hall.
  { intros x y Hx Hy. revert y Hy. apply for_all_octets.
    revert x Hx. apply for_all_octets. vm_compute. reflexivity. }
  pose proof (Hall b1 b2 H1 H2) as A. pose proof (Hall b2 b3 H2 H3) as B.
  pose proof (Hall b3 b3 H3 H3) as C.
  repeat (apply andb_true_iff in A as [A ?]).
  repeat (apply andb_true_iff in B as [B ?]).
  repeat (apply andb_true_iff in C as [C ?]).
  lia.
Qed.

(** The first byte comes back from its two sextets, padded or not. *)
Lemma first_byte_back (b1 b2 : Z) :
  is_byte b1 -> is_byte b2 ->
  byte1 (Z.shiftr b1 2) (Z.lor (Z.shiftl (Z.land b1 3) 4) (Z.shiftr b2 4)) = b1 /\
  byte1 (Z.shiftr b1 2) (Z.shiftl (Z.land b1 3) 4) = b1.
Proof.
  intros H1 H2.
  assert (((byte1 (Z.shiftr b1 2) (Z.lor (Z.shiftl (Z.land b1 3) 4) (Z.shiftr b2 4))
              =? b1)
           && (byte1 (Z.shiftr b1 2) (Z.shiftl (Z.land b1 3) 4) =? b1)) = true) as H.
  { revert b2 H2. apply for_all_octets. revert b1 H1. apply for_all_octets.
    vm_compute. reflexivity. }
  apply andb_true_iff in H as [A B]. split; now apply Z.eqb_eq.
Qed.

(** The second byte depends on the low bits of the second sextet only. *)
Lemma second_byte_back (b1 b2 b3 : Z) :
  is_byte b1 -> is_byte b2 -> is_byte b3 ->
  byte2 (Z.lor (Z.shiftl (Z.land b1 3) 4) (Z.shiftr b2 4))
        (Z.lor (Z.shiftl (Z.land b2 15) 2) (Z.shiftr b3 6)) = b2 /\
  byte2 (Z.lor (Z.shiftl (Z.land b1 3) 4) (Z.shiftr b2 4))
        (Z.shiftl (Z.land b2 15) 2) = b2.
Proof.
  intros H1 H2 H3.
  assert (Z.land (Z.lor (Z.shiftl (Z.land b1 3) 4) (Z.shiftr b2 4)) 15 = Z.shiftr b2 4)
    as Hlow.
  { apply Z.eqb_eq. revert b2 H2. apply for_all_octets. revert b1 H1.
    apply for_all_octets. vm_compute. reflexivity. }
  unfold byte2. rewrite Hlow. clear Hlow.
  assert (((Z.land (Z.lor (Z.shiftl (Z.shiftr b2 4) 4)
                          (Z.shiftr (Z.lor (Z.shiftl (Z.land b2 15) 2) (Z.shiftr b3 6)) 2))
                   255 =? b2)
           && (Z.land (Z.lor (Z.shiftl (Z.shiftr b2 4) 4)
                             (Z.shiftr (Z.shiftl (Z.land b2 15) 2) 2)) 255 =? b2))
          = true) as H.
  { revert b3 H3. apply for_all_octets. revert b2 H2. apply for_all_octets.
    vm_compute. reflexivity. }
  apply andb_true_iff in H as [A B]. split; now apply Z.eqb_eq.
Qed.

Lemma third_byte_back (b2 b3 : Z) :
  is_byte b2 -> is_byte b3 ->
  byte3 (Z.lor (Z.shiftl (Z.land b2 15) 2) (Z.shiftr b3 6)) (Z.land b3 63) = b3.
Proof.
  intros H2 H3. apply Z.eqb_eq.
  revert b3 H3. apply for_all_octets. revert b2 H2. apply for_all_octets.
  vm_compute. reflexivity.
Qed.

(** Induction on a list of bytes, three at a time. *)
Lemma triples_ind (P : list Z -> Prop) :
  P [] ->
  (forall b1, P [b1]) ->
  (forall b1 b2, P [b1; b2]) ->
  (forall b1 b2 b3 rest, P rest -> P (b1 :: b2 :: b3 :: rest)) ->
  forall bs, P bs.
Proof.
  intros H0 H1 H2 H3.
  assert (forall n bs, (length bs <= n)%nat -> P bs) as H.
  { induction n as [|n IH]; intros bs Hlen.
    - destruct bs; [exact H0 | simpl in Hlen; lia].
    - destruct bs as [|b1 [|b2 [|b3 rest]]]; auto.
      apply H3. apply IH. simpl in Hlen. lia. }
  intros bs. now apply (H (length bs)).
Qed.

(** The loop reads the encoding of a list of bytes back into the list. *)
Lemma encoded_bytes_decoded (bs : list Z) :
  Forall is_byte bs ->
  forall leftchar, Base64.a2b_loop (Base64.b64encode bs) 0 leftchar 0 = Ok bs.
Proof.
  induction bs as [|b1|b1 b2|b1 b2 b3 rest IH] using triples_ind; intros Hbs leftchar.
  - reflexivity.
  - apply Forall_inv in Hbs.
    destruct (sextets_of_bytes b1 b1 b1 Hbs Hbs Hbs) as (R1 & _ & _ & _ & R2 & _).
    cbn [Base64.b64encode]. unfold Base64.ch.
    change (Base64.a2b_loop
              (String (Base64.table_b2a_base64 (Z.shiftr b1 2))
                 (String (Base64.table_b2a_base64 (Z.shiftl (Z.land b1 3) 4)) "=="))
              0 leftchar 0 = Ok [b1]).
    rewrite (decode_one_byte _ _ _ _ leftchar (letter_value _ R1) (letter_value _ R2)).
    now rewrite (proj2 (first_byte_back b1 b1 Hbs Hbs)).
  - pose proof (Forall_inv Hbs) as H1. apply Forall_inv_tail in Hbs.
    apply Forall_inv in Hbs. rename Hbs into H2.
    destruct (sextets_of_bytes b1 b2 b2 H1 H2 H2) as (R1 & R2 & _ & _ & _ & _).
    destruct (sextets_of_bytes b2 b2 b2 H2 H2 H2) as (_ & _ & _ & _ & _ & R3).
    cbn [Base64.b64encode]. unfold Base64.ch.
    change (Base64.a2b_loop
              (String (Base64.table_b2a_base64 (Z.shiftr b1 2))
                 (String (Base64.table_b2a_base64
                            (Z.lor (Z.shiftl (Z.land b1 3) 4) (Z.shiftr b2 4)))
                    (String (Base64.table_b2a_base64 (Z.shiftl (Z.land b2 15) 2)) "=")))
              0 leftchar 0 = Ok [b1; b2]).
    rewrite (decode_two_bytes _ _ _ _ _ _ leftchar
               (letter_value _ R1) (letter_value _ R2) (letter_value _ R3)).
    rewrite (proj1 (first_byte_back b1 b2 H1 H2)).
    now rewrite (proj2 (second_byte_back b1 b2 b2 H1 H2 H2)).
  - pose proof (Forall_inv Hbs) as H1. apply Forall_inv_tail in Hbs.
    pose proof (Forall_inv Hbs) as H2. apply Forall_inv_tail in Hbs.
    pose proof (Forall_inv Hbs) as H3. apply Forall_inv_tail in Hbs.
    destruct (sextets_of_bytes b1 b2 b3 H1 H2 H3) as (R1 & R2 & R3 & R4 & _ & _).
    cbn [Base64.b64encode]. unfold Base64.ch.
    change (Base64.a2b_loop
              (String (Base64.table_b2a_base64 (Z.shiftr b1 2))
                 (String (Base64.table_b2a_base64
                            (Z.lor (Z.shiftl (Z.land b1 3) 4) (Z.shiftr b2 4)))
                    (String (Base64.table_b2a_base64
                               (Z.lor (Z.shiftl (Z.land b2 15) 2) (Z.shiftr b3 6)))
                       (String (Base64.table_b2a_base64 (Z.land b3 63))
                          (Base64.b64encode rest)))))
              0 leftchar 0 = Ok (b1 :: b2 :: b3 :: rest)).
    rewrite (decode_quad _ _ _ _ _ _ _ _ _ leftchar
               (letter_value _ R1) (letter_value _ R2)
               (letter_value _ R3) (letter_value _ R4)).
    rewrite (IH Hbs 0).
    rewrite (proj1 (first_byte_back b1 b2 H1 H2)).
    rewrite (proj1 (second_byte_back b1 b2 b3 H1 H2 H3)).
    now rewrite (third_byte_back b2 b3 H2 H3).
Qed.

(** A test that holds of the pad and of every letter of the alphabet holds
    of every character the encoder writes. *)
Lemma table_b2a_character (test : ascii -> bool) (v : Z) :
  every_character test Base64.alphabet = true ->
  test Base64.BASE64_PAD = true ->
  test (Base64.table_b2a_base64 v) = true.
Proof.
  intros Halphabet Hpad. unfold Base64.table_b2a_base64.
  generalize (Z.to_nat v). generalize dependent Base64.alphabet.
  intros s Hs n. revert n.
  induction s as [|c s IH]; intros n; [now destruct n|].
  cbn [every_character] in Hs. apply andb_true_iff in Hs as [Hc Hs].
  destruct n; cbn [String.get]; [exact Hc | now apply IH].
Qed.

Lemma encoded_characters (test : ascii -> bool) (bs : list Z) :
  every_character test Base64.alphabet = true ->
  test Base64.BASE64_PAD = true ->
  every_character test (Base64.b64encode bs) = true.
Proof.
  intros Halphabet Hpad.
  pose proof (fun v => table_b2a_character test v Halphabet Hpad) as Hletter.
  induction bs as [|b1|b1 b2|b1 b2 b3 rest IH] using triples_ind.
  - reflexivity.
  - cbn [Base64.b64encode]. unfold Base64.ch.
    change (every_character test
              (String (Base64.table_b2a_base64 (Z.shiftr b1 2))
                 (String (Base64.table_b2a_base64 (Z.shiftl (Z.land b1 3) 4))
                    (String Base64.BASE64_PAD (String Base64.BASE64_PAD "")))) = true).
    cbn [every_character]. now rewrite !Hletter, Hpad.
  - cbn [Base64.b64encode]. unfold Base64.ch.
    change (every_character test
              (String (Base64.table_b2a_base64 (Z.shiftr b1 2))
                 (String (Base64.table_b2a_base64
                            (Z.lor (Z.shiftl (Z.land b1 3) 4) (Z.shiftr b2 4)))
                    (String (Base64.table_b2a_base64 (Z.shiftl (Z.land b2 15) 2))
                       (String Base64.BASE64_PAD "")))) = true).
    cbn [every_character]. now rewrite !Hletter, Hpad.
  - cbn [Base64.b64encode]. unfold Base64.ch.
    change (every_character test
              (String (Base64.table_b2a_base64 (Z.shiftr b1 2))
                 (String (Base64.table_b2a_base64
                            (Z.lor (Z.shiftl (Z.land b1 3) 4) (Z.shiftr b2 4)))
                    (String (Base64.table_b2a_base64
                               (Z.lor (Z.shiftl (Z.land b2 15) 2) (Z.shiftr b3 6)))
                       (String (Base64.table_b2a_base64 (Z.land b3 63))
                          (Base64.b64encode rest))))) = true).
    cbn [every_character]. now rewrite !Hletter, IH.
Qed.

Lemma is_ascii_every_character (s : string) :
  Base64.is_ascii s = every_character (fun c => Z.of_N (N_of_ascii c) <? 128) s.
Proof. induction s as [|c s IH]; [reflexivity|]. simpl. now rewrite IH. Qed.

(** Bytes encoded and decoded come back as they were. *)
Lemma b64decode_b64encode (bs : list Z) :
  Forall is_byte bs -> Base64.b64decode (Base64.b64encode bs) = Ok bs.
Proof.
  intros Hbs. unfold Base64.b64decode.
  rewrite is_ascii_every_character, encoded_characters by reflexivity.
  exact (encoded_bytes_decoded bs Hbs 0).
Qed.

(** ** The image field on well-formed and ill-formed data URLs *)

(** X1. A data URL made of the marker, a subtype without [/] and [;],
    the delimiter and the base64 text of some bytes is decoded to exactly
    these bytes: the base field receives a file whose content is the
    bytes and whose name is [img.] followed by the subtype. *)
Theorem data_url_of_bytes_is_decoded
    (super : pyval -> result pyval) (subtype : string) (bs : list Z) :
  free_of "/" subtype = true ->
  free_of ";" subtype = true ->
  Forall is_byte bs ->
  Base64ImageField.to_internal_value super
    (PyStr ("data:image/" +:+ subtype +:+ ";base64," +:+ Base64.b64encode bs))
  = super (PyFile (mkContentFile bs ("img." +:+ subtype))).
Proof.
  intros Hslash Hsemi Hbs.
  assert (free_of ";" (Base64.b64encode bs) = true) as Hpayload
    by (apply encoded_characters; reflexivity).
  assert (free_of ";" ("data:image/" +:+ subtype) = true) as Hformat by exact Hsemi.
  assert (Str.split ";base64,"
            ("data:image/" +:+ subtype +:+ ";base64," +:+ Base64.b64encode bs)
          = ["data:image/" +:+ subtype; Base64.b64encode bs]) as Hsplit.
  { rewrite <- (split_joined_pieces ";" "base64,"
                  ["data:image/" +:+ subtype; Base64.b64encode bs])
      by (try discriminate; repeat constructor; assumption).
    reflexivity. }
  assert (Str.split "/" ("data:image/" +:+ subtype) = ["data:image"; subtype]) as Hext.
  { rewrite <- (split_joined_pieces "/" "" ["data:image"; subtype])
      by (try discriminate; repeat constructor; assumption).
    reflexivity. }
  unfold Base64ImageField.to_internal_value.
  replace (Str.startswith "data:image"
             ("data:image/" +:+ subtype +:+ ";base64," +:+ Base64.b64encode bs))
    with true by (symmetry; apply (prefix_append "data:image")).
  rewrite Hsplit. unfold Base64ImageField.extension. rewrite Hext.
  rewrite (b64decode_b64encode bs Hbs). reflexivity.
Qed.

(** The first bytes of a PNG file, sent as [image/png]. *)
Lemma data_url_of_bytes_is_decoded_witness :
  Base64ImageField.to_internal_value Ok (PyStr "data:image/png;base64,iVBORw==")
  = Ok (PyFile (mkContentFile [137; 80; 78; 71] "img.png")).
Proof.
  refine (data_url_of_bytes_is_decoded Ok "png" [137; 80; 78; 71] eq_refl eq_refl _).
  repeat constructor; unfold is_byte; lia.
Defined.

(** X2. A string that starts with the marker and consists of pieces
    without [;] joined by the delimiter is unpacked only when there are
    exactly two pieces; with one piece (no delimiter) or with three or
    more (the delimiter repeated) the decoder raises [ValueError] and the
    base field is never called. *)
Theorem data_url_needs_one_delimiter
    (super : pyval -> result pyval) (pieces : list string) :
  pieces <> [] ->
  Forall (fun q => free_of ";" q = true) pieces ->
  Str.startswith "data:image" (join ";base64," pieces) = true ->
  Base64ImageField.payload (join ";base64," pieces)
    = match pieces with
      | [_; img_str] => Some img_str
      | _ => None
      end /\
  (length pieces <> 2%nat ->
   Base64ImageField.to_internal_value super (PyStr (join ";base64," pieces))
     = Raise ValueError).
Proof.
  intros Hne Hfree Hstart.
  pose proof (split_joined_pieces ";" "base64," pieces Hne Hfree) as Hsplit.
  split.
  - unfold Base64ImageField.payload. rewrite Hstart, Hsplit.
    now destruct pieces as [|p [|q [|r rest]]].
  - intros Hlen. unfold Base64ImageField.to_internal_value.
    rewrite Hstart, Hsplit.
    destruct pieces as [|p [|q [|r rest]]]; try reflexivity. now destruct Hlen.
Qed.

(** Two payloads after one marker. *)
Lemma data_url_needs_one_delimiter_witness :
  Base64ImageField.to_internal_value Ok
    (PyStr "data:image/png;base64,QUJD;base64,REVG") = Raise ValueError.
Proof.
  refine (proj2 (data_url_needs_one_delimiter Ok ["data:image/png"; "QUJD"; "REVG"]
                   _ _ eq_refl) _).
  - discriminate.
  - repeat constructor.
  - discriminate.
Defined.

(** ** What the decoder reads and how much it writes *)

Lemma insignificant_character (c : ascii) :
  significant c = false ->
  Ascii.eqb c Base64.BASE64_PAD = false /\ Base64.table_a2b_base64 c = None.
Proof.
  unfold significant, Base64.in_alphabet. intros H.
  apply orb_false_iff in H as [Hpad Hletter]. split; [exact Hpad|].
  now destruct (Base64.table_a2b_base64 c).
Qed.

Lemma a2b_loop_only_significant (s : string) (quad_pos leftchar pads : Z) :
  Base64.a2b_loop s quad_pos leftchar pads
    = Base64.a2b_loop (only_significant s) quad_pos leftchar pads.
Proof.
  revert quad_pos leftchar pads.
  induction s as [|c s IH]; intros quad_pos leftchar pads; [reflexivity|].
  cbn [only_significant]. destruct (significant c) eqn:Hc.
  - cbn [Base64.a2b_loop].
    destruct (Ascii.eqb c Base64.BASE64_PAD).
    + now rewrite IH.
    + destruct (Base64.table_a2b_base64 c) as [v|]; [|apply IH].
      destruct quad_pos as [|[[]|[]|]|]; now rewrite IH.
  - apply insignificant_character in Hc as [Hpad Hletter].
    cbn [Base64.a2b_loop]. rewrite Hpad, Hletter. apply IH.
Qed.

Lemma only_significant_is_ascii (s : string) :
  Base64.is_ascii (only_significant s) = true.
Proof.
  induction s as [|c s IH]; [reflexivity|].
  cbn [only_significant]. destruct (significant c) eqn:Hc; [|exact IH].
  cbn [Base64.is_ascii]. rewrite IH, andb_true_r.
  unfold significant in Hc. apply orb_true_iff in Hc as [Hpad|Hletter].
  - apply Ascii.eqb_eq in Hpad as ->. reflexivity.
  - apply in_alphabet_value in Hletter as [v Hv].
    now destruct (alphabet_character c v Hv) as (_ & _ & _ & ?).
Qed.

(** X3. On ASCII text the decoder's result depends only on the letters
    of the alphabet and the pads: line breaks, blanks and any other
    character can be added or removed without changing the bytes or the
    error. *)
Theorem b64decode_reads_significant_characters_only (s : string) :
  Base64.is_ascii s = true ->
  Base64.b64decode s = Base64.b64decode (only_significant s).
Proof.
  intros Hs. unfold Base64.b64decode, Base64.a2b_base64.
  rewrite Hs, only_significant_is_ascii. apply a2b_loop_only_significant.
Qed.

(** A payload wrapped over two lines, with a stray blank and a star. *)
Lemma b64decode_reads_significant_characters_only_witness :
  Base64.b64decode ("QU JD" +:+ String "010" "RE*VG") = Base64.b64decode "QUJDREVG".
Proof.
  exact (b64decode_reads_significant_characters_only
           ("QU JD" +:+ String "010" "RE*VG") eq_refl).
Defined.

Lemma land_255_is_byte (x : Z) : is_byte (Z.land x 255).
Proof.
  unfold is_byte. change 255 with (Z.ones 8). rewrite Z.land_ones by lia.
  apply Z.mod_pos_bound. lia.
Qed.

Lemma a2b_loop_output (s : string) (quad_pos leftchar pads : Z) (bs : list Z) :
  Base64.a2b_loop s quad_pos leftchar pads = Ok bs ->
  Forall is_byte bs /\
  4 * Z.of_nat (length bs) <= 3 * Z.of_nat (String.length s) + quad_credit quad_pos.
Proof.
  revert quad_pos leftchar pads bs.
  induction s as [|c s IH]; intros quad_pos leftchar pads bs; cbn [Base64.a2b_loop].
  - destruct (quad_pos =? 0); [|discriminate].
    intros H. injection H as <-. split; [constructor|]. simpl.
    destruct quad_pos as [|[[]|[]|]|]; simpl; lia.
  - assert (forall qp, 0 <= quad_credit qp) as Hcredit
      by (intros [|[[]|[]|]|]; simpl; lia).
    cbn [String.length]. rewrite Nat2Z.inj_succ.
    destruct (Ascii.eqb c Base64.BASE64_PAD).
    + destruct ((2 <=? quad_pos) && (4 <=? quad_pos + (pads + 1))).
      * intros H. injection H as <-. split; [constructor|]. simpl.
        specialize (Hcredit quad_pos). lia.
      * intros H. apply IH in H as [Hbytes Hlen]. split; [exact Hbytes | lia].
    + destruct (Base64.table_a2b_base64 c) as [v|].
      * assert (forall b qp lc,
                  is_byte b ->
                  quad_credit qp + 1 <= quad_credit quad_pos ->
                  Base64.emit b (Base64.a2b_loop s qp lc 0) = Ok bs ->
                  Forall is_byte bs /\
                  4 * Z.of_nat (length bs)
                    <= 3 * Z.succ (Z.of_nat (String.length s)) + quad_credit quad_pos)
          as Hemit.
        { intros b qp lc Hb Hqp. unfold Base64.emit.
          destruct (Base64.a2b_loop s qp lc 0) as [out|] eqn:Hs; simpl; [|discriminate].
          intros H. injection H as <-. apply IH in Hs as [Hbytes Hlen].
          split; [now constructor|]. cbn [length]. lia. }
        destruct quad_pos as [|[[]|[]|]|];
          try (apply Hemit; [apply land_255_is_byte | simpl; lia]).
        intros H. apply IH in H as [Hbytes Hlen]. split; [exact Hbytes|].
        simpl in *. lia.
      * intros H. apply IH in H as [Hbytes Hlen]. split; [exact Hbytes | lia].
Qed.

(** X4. Whatever text the decoder accepts, what it returns are bytes, and
    at most three for every four characters of the text. *)
Theorem b64decode_output_is_bounded (s : string) (bs : list Z) :
  Base64.b64decode s = Ok bs ->
  Forall is_byte bs /\
  4 * Z.of_nat (length bs) <= 3 * Z.of_nat (String.length s).
Proof.
  unfold Base64.b64decode, Base64.a2b_base64.
  destruct (Base64.is_ascii s); [|discriminate].
  intros H. apply a2b_loop_output in H as [Hbytes Hlen]. simpl in Hlen.
  split; [exact Hbytes | lia].
Qed.

(** Two bytes out of four characters. *)
Lemma b64decode_output_is_bounded_witness :
  Base64.b64decode "QUI=" = Ok [65; 66] /\
  Forall is_byte [65; 66] /\
  4 * Z.of_nat (length [65; 66]) <= 3 * Z.of_nat (String.length "QUI=").
Proof.
  split; [reflexivity|].
  exact (b64decode_output_is_bounded "QUI=" [65; 66] eq_refl).
Defined.

(** ** The fields a model serializer shows *)

Lemma readable_fields_lookup (fields write_only : list string) (id : Z)
    (columns : gmap string pyval) (key : string) :
  readable_fields fields write_only id columns !! key =
    if existsb (String.eqb key) fields && negb (existsb (String.eqb key) write_only)
    then Some (if String.eqb key "id" then PyInt id else dict_get columns key PyNone)
    else None.
Proof.
  induction fields as [|f fields IH]; [apply lookup_empty|].
  cbn [readable_fields foldr existsb].
  fold (readable_fields fields write_only id columns).
  destruct (String.eqb_spec key f) as [->|Hne]; cbn [orb].
  - destruct (existsb (String.eqb f) write_only) eqn:Hw; cbn [negb andb].
    + rewrite IH. now rewrite andb_false_r.
    + destruct (String.eqb f "id"); now rewrite lookup_insert_eq.
  - destruct (existsb (String.eqb f) write_only).
    + exact IH.
    + destruct (String.eqb f "id"); rewrite lookup_insert_ne by congruence; exact IH.
Qed.


(** ** The subscription flag, further *)

(** X5. The flag is true only when everything is in place: a request in
    the context, a non-empty last value of [is_subscribed] in its query
    string, a viewer who is a stored user, and the target among the users
    that viewer follows. *)
Theorem is_subscribed_true_only_when_followed
    (context : gmap string pyval) (obj : CustomUser) (db : DB) :
  CustomUserSerializer.is_subscribed_user context obj db = Ok true ->
  exists r vs v viewer,
    context !! "request" = Some (PyRequest r) /\
    query_params r !! "is_subscribed" = Some vs /\
    last vs = Some v /\
    v <> "" /\
    user r = AuthenticatedUser viewer /\
    user_id obj ∈ default [] (following db !! viewer).
Proof.
  unfold CustomUserSerializer.is_subscribed_user, dict_get.
  destruct (context !! "request") as [[| | | | | | | |r]|] eqn:Hreq;
    try discriminate.
  cbn [CustomUserSerializer.getattr_query_params CustomUserSerializer.getattr_user rbind].
  unfold querydict_get.
  destruct (query_params r !! "is_subscribed") as [vs|] eqn:Hq; [|discriminate].
  destruct (last vs) as [v|] eqn:Hlast; [|discriminate].
  cbn [truthy]. destruct (String.eqb_spec v "") as [->|Hv]; [discriminate|].
  cbn [negb]. destruct (user r) as [|viewer] eqn:Huser; [discriminate|].
  cbn [CustomUserSerializer.getattr_following rbind].
  rewrite existsb_eqb_elem. intros H. injection H as H.
  apply bool_decide_eq_true_1 in H.
  now exists r, vs, v, viewer.
Qed.

Lemma is_subscribed_true_only_when_followed_witness :
  exists r viewer,
    ViewerFixture.context !! "request" = Some (PyRequest r) /\
    user r = AuthenticatedUser viewer /\
    user_id Fixture.bob ∈ default [] (following Fixture.db !! viewer).
Proof.
  destruct (is_subscribed_true_only_when_followed
              ViewerFixture.context Fixture.bob Fixture.db
              ltac:(vm_compute; reflexivity))
    as (r & vs & v & viewer & Hreq & _ & _ & _ & Huser & Hfollows).
  now exists r, viewer.
Defined.

(** X6. For the framework's anonymous user the flag is never true: with a
    non-empty [is_subscribed] value the lookup of [following] raises
    [AttributeError], otherwise the result is false. *)
Theorem is_subscribed_for_anonymous_viewer
    (context : gmap string pyval) (r : Request) (obj : CustomUser) (db : DB) :
  context !! "request" = Some (PyRequest r) ->
  user r = AnonymousUser ->
  CustomUserSerializer.is_subscribed_user context obj db =
    (if truthy (querydict_get (query_params r) "is_subscribed" (PyBool false))
     then Raise AttributeError else Ok false) /\
  (forall vs v,
     query_params r !! "is_subscribed" = Some vs -> last vs = Some v -> v <> "" ->
     CustomUserSerializer.is_subscribed_user context obj db = Raise AttributeError) /\
  CustomUserSerializer.is_subscribed_user context obj db <> Ok true.
Proof.
  intros Hreq Huser.
  assert (CustomUserSerializer.is_subscribed_user context obj db =
            (if truthy (querydict_get (query_params r) "is_subscribed" (PyBool false))
             then Raise AttributeError else Ok false)) as H.
  { unfold CustomUserSerializer.is_subscribed_user.
    rewrite (dict_get_lookup _ _ _ _ Hreq).
    cbn [CustomUserSerializer.getattr_query_params CustomUserSerializer.getattr_user rbind].
    rewrite Huser. now destruct (truthy _). }
  split; [exact H|]. split.
  - intros vs v Hq Hlast Hv. rewrite H. unfold querydict_get. rewrite Hq, Hlast.
    now rewrite (truthy_str v Hv).
  - rewrite H. now destruct (truthy _).
Qed.

Lemma is_subscribed_for_anonymous_viewer_witness :
  CustomUserSerializer.is_subscribed_user
    ViewerFixture.anonymous_context Fixture.bob Fixture.db = Raise AttributeError.
Proof.
  exact (proj1 (proj2 (is_subscribed_for_anonymous_viewer
           ViewerFixture.anonymous_context ViewerFixture.anonymous_request
           Fixture.bob Fixture.db eq_refl eq_refl))
         ["1"] "1" eq_refl eq_refl ltac:(discriminate)).
Defined.

(** For a viewer who is a stored user the flag is always computed. *)
Lemma is_subscribed_user_total
    (context : gmap string pyval) (r : Request) (viewer : Z) (obj : CustomUser) (db : DB) :
  context !! "request" = Some (PyRequest r) ->
  user r = AuthenticatedUser viewer ->
  exists b, CustomUserSerializer.is_subscribed_user context obj db = Ok b.
Proof.
  intros Hreq Huser. unfold CustomUserSerializer.is_subscribed_user.
  rewrite (dict_get_lookup _ _ _ _ Hreq).
  cbn [CustomUserSerializer.getattr_query_params CustomUserSerializer.getattr_user rbind].
  rewrite Huser. destruct (truthy _); eexists; reflexivity.
Qed.

Lemma user_representation_rendered
    (context : gmap string pyval) (obj : CustomUser) (db : DB) (b : bool) :
  CustomUserSerializer.is_subscribed_user context obj db = Ok b ->
  exists ret,
    CustomUserSerializer.to_representation context obj db = Ok ret /\
    ret !! "is_subscribed" = Some (PyBool b) /\
    ret !! "recipes" = Some (RecipeMinifiedSerializer.many (user_recipes db obj)) /\
    ret !! "id" = Some (PyInt (user_id obj)) /\
    ret !! "password" = None.
Proof.
  intros Hflag. unfold CustomUserSerializer.to_representation. rewrite Hflag.
  cbn [rbind].
  destruct (user_fields obj !! "recipes_count"); eexists; (split; [reflexivity|]);
    rewrite ?(lookup_insert_ne _ "recipes_count") by discriminate;
    (split; [now rewrite lookup_insert_ne, lookup_insert_eq by discriminate|]);
    (split; [now rewrite lookup_insert_eq|]);
    rewrite !lookup_insert_ne by discriminate;
    now rewrite !readable_fields_lookup.
Qed.

(** X7. For a request of a stored user the user transformer always
    returns a representation: it carries the computed flag, the primary
    key, all recipes of the user in minified form and table order (no
    limit applies here), and never the stored password. *)
Theorem user_representation_for_viewer
    (context : gmap string pyval) (r : Request) (viewer : Z) (obj : CustomUser) (db : DB) :
  context !! "request" = Some (PyRequest r) ->
  user r = AuthenticatedUser viewer ->
  exists ret b,
    CustomUserSerializer.to_representation context obj db = Ok ret /\
    CustomUserSerializer.is_subscribed_user context obj db = Ok b /\
    ret !! "is_subscribed" = Some (PyBool b) /\
    ret !! "recipes" = Some (RecipeMinifiedSerializer.many (user_recipes db obj)) /\
    ret !! "id" = Some (PyInt (user_id obj)) /\
    ret !! "password" = None.
Proof.
  intros Hreq Huser.
  destruct (is_subscribed_user_total context r viewer obj db Hreq Huser) as [b Hb].
  destruct (user_representation_rendered context obj db b Hb) as (ret & H).
  exists ret, b. tauto.
Qed.

(** Alice looks at bob, who has five recipes. *)
Lemma user_representation_for_viewer_witness :
  exists ret,
    CustomUserSerializer.to_representation ViewerFixture.context Fixture.bob Fixture.db
      = Ok ret /\
    ret !! "is_subscribed" = Some (PyBool true) /\
    ret !! "password" = None.
Proof.
  destruct (user_representation_for_viewer
              ViewerFixture.context (mkRequest ViewerFixture.asking (AuthenticatedUser 1)) 1
              Fixture.bob Fixture.db eq_refl eq_refl)
    as (ret & b & Hret & Hb & Hflag & _ & _ & Hpassword).
  exists ret. split; [exact Hret|]. split; [|exact Hpassword].
  rewrite Hflag. vm_compute in Hb. now injection Hb as <-.
Defined.

(** ** The subscription transformer, further *)

(** X8. With a limit that reads as a number [n] from 0 to the largest
    bound a query can carry (an integer, or a decimal string), the
    subscription representation lists the first [n] recipes of the
    followee in table order, all of them when there are fewer, in minified
    form; every other field is the one the base representation gave. *)
Theorem subscription_limit_takes_prefix
    (context : gmap string pyval) (instance : CustomUser) (db : DB) (n : Z) :
  py_int (dict_get context "recipes_limit" (PyInt 0)) = Ok n ->
  0 <= n <= max_limit ->
  exists ret shown,
    SubscriptionSerializer.to_representation context instance db = Ok ret /\
    ret !! "recipes" = Some (PyList shown) /\
    shown = RecipeMinifiedSerializer.to_representation
              <$> take (Z.to_nat n) (user_recipes db instance) /\
    length shown = Nat.min (Z.to_nat n) (length (user_recipes db instance)) /\
    forall key, key <> "recipes" ->
      ret !! key = SubscriptionSerializer.super_to_representation instance db !! key.
Proof.
  intros Hn Hrange. eexists. eexists.
  split; [exact (subscription_recipes_upto context instance db n Hn Hrange)|].
  split; [apply lookup_insert_eq|]. split; [reflexivity|]. split.
  - now rewrite length_fmap, length_take.
  - intros key Hkey. now rewrite lookup_insert_ne by congruence.
Qed.

Lemma subscription_limit_takes_prefix_witness :
  exists ret shown,
    SubscriptionSerializer.to_representation LimitFixture.seven Fixture.bob Fixture.db
      = Ok ret /\
    ret !! "recipes" = Some (PyList shown) /\
    length shown = 5%nat.
Proof.
  destruct (subscription_limit_takes_prefix LimitFixture.seven Fixture.bob Fixture.db 7
              ltac:(vm_compute; reflexivity) ltac:(now vm_compute))
    as (ret & shown & Hret & Hrecipes & _ & Hlen & _).
  exists ret, shown. split; [exact Hret|]. split; [exact Hrecipes|].
  rewrite Hlen. reflexivity.
Defined.

(** X9. A limit that cannot be used fails the whole representation: when
    [int] raises on the context value that exception is the result (a
    [TypeError] for [None], a [ValueError] for an ASCII string of at most
    [Str.max_str_digits] digits that is no decimal number), and a negative
    number makes the slice raise [AssertionError]. *)
Theorem subscription_limit_errors
    (context : gmap string pyval) (instance : CustomUser) (db : DB) :
  (forall e,
     py_int (dict_get context "recipes_limit" (PyInt 0)) = Raise e ->
     SubscriptionSerializer.to_representation context instance db = Raise e) /\
  (context !! "recipes_limit" = Some PyNone ->
   SubscriptionSerializer.to_representation context instance db = Raise TypeError) /\
  (forall s,
     context !! "recipes_limit" = Some (PyStr s) ->
     Base64.is_ascii s = true ->
     Str.count_digits s <= Str.max_str_digits ->
     Str.to_int s = None ->
     SubscriptionSerializer.to_representation context instance db = Raise ValueError) /\
  (forall n,
     py_int (dict_get context "recipes_limit" (PyInt 0)) = Ok n -> n < 0 ->
     SubscriptionSerializer.to_representation context instance db = Raise AssertionError).
Proof.
  assert (forall e,
     py_int (dict_get context "recipes_limit" (PyInt 0)) = Raise e ->
     SubscriptionSerializer.to_representation context instance db = Raise e) as Hraise.
  { intros e He. unfold SubscriptionSerializer.to_representation. now rewrite He. }
  split; [exact Hraise|]. split; [|split].
  - intros H. apply Hraise. now rewrite (dict_get_lookup _ _ _ _ H).
  - intros s H _ _ Hs. apply Hraise. rewrite (dict_get_lookup _ _ _ _ H).
    cbn [py_int]. now rewrite Hs.
  - intros n Hn Hneg. unfold SubscriptionSerializer.to_representation.
    rewrite Hn. cbn [rbind is_none negb]. unfold queryset_upto.
    destruct (Z.ltb_spec n 0); [reflexivity | lia].
Qed.

(** A missing query parameter handed over as [None], a word, and [-1]. *)
Lemma subscription_limit_errors_witness :
  SubscriptionSerializer.to_representation LimitFixture.none Fixture.bob Fixture.db
    = Raise TypeError /\
  SubscriptionSerializer.to_representation LimitFixture.word Fixture.bob Fixture.db
    = Raise ValueError /\
  SubscriptionSerializer.to_representation LimitFixture.negative Fixture.bob Fixture.db
    = Raise AssertionError.
Proof.
  split; [|split].
  - exact (proj1 (proj2 (subscription_limit_errors
             LimitFixture.none Fixture.bob Fixture.db)) ltac:(reflexivity)).
  - exact (proj1 (proj2 (proj2 (subscription_limit_errors
             LimitFixture.word Fixture.bob Fixture.db)))
             "all" ltac:(reflexivity) ltac:(reflexivity) ltac:(now vm_compute)
             ltac:(reflexivity)).
  - exact (proj2 (proj2 (proj2 (subscription_limit_errors
             LimitFixture.negative Fixture.bob Fixture.db)))
             (-1) ltac:(vm_compute; reflexivity) ltac:(lia)).
Defined.

(** ** Signing up, further *)

Lemma next_id_fresh (ids : list Z) : next_id ids ∉ ids.
Proof. intros H. apply next_id_above in H. lia. Qed.

Lemma NoDup_snoc_fresh (ids : list Z) : NoDup ids -> NoDup (ids ++ [next_id ids]).
Proof.
  intros H. apply NoDup_app. split; [exact H|]. split.
  - intros x Hx Hin. apply list_elem_of_singleton in Hin as ->.
    now apply next_id_fresh in Hx.
  - apply NoDup_singleton.
Qed.

(** X10. Sign-up fails in two ways. Without [password] in the validated
    data it raises [KeyError] before anything is written. With a password
    that is neither a string nor [None] the hasher raises [TypeError],
    but only after the base create has stored the user: the row stays in
    the table, without a password. *)
Theorem signup_failures
    (make_password : string -> string) (unusable_password : string)
    (validated_data : gmap string pyval) (db : DB) :
  (validated_data !! "password" = None ->
   CustomUserSignUpSerializer.create make_password unusable_password validated_data db
     = (Raise KeyError, db)) /\
  (forall password,
     validated_data !! "password" = Some password ->
     (forall p, password <> PyStr p) -> password <> PyNone ->
     exists first db',
       CustomUserSignUpSerializer.create make_password unusable_password validated_data db
         = (Raise TypeError, db') /\
       users db' = users db ++ [first] /\
       user_fields first !! "password" = None).
Proof.
  split.
  - intros H. unfold CustomUserSignUpSerializer.create, bind, lift, dict_pop.
    now rewrite H.
  - intros password H Hstr Hnone.
    eexists (mkCustomUser _ _). eexists.
    split.
    { unfold CustomUserSignUpSerializer.create, bind, lift, dict_pop. rewrite H.
      cbn [fst snd CustomUserSignUpSerializer.super_create].
      destruct password; try reflexivity; [now destruct Hnone | now destruct (Hstr s)]. }
    split; [reflexivity|]. apply lookup_delete_eq.
Qed.

Lemma signup_failures_witness :
  CustomUserSignUpSerializer.create SignUpFixture.make_password "!"
    SignUpFailureFixture.without_password Fixture.db = (Raise KeyError, Fixture.db) /\
  exists first db',
    CustomUserSignUpSerializer.create SignUpFixture.make_password "!"
      SignUpFailureFixture.with_number Fixture.db = (Raise TypeError, db') /\
    users db' = users Fixture.db ++ [first].
Proof.
  split.
  - exact (proj1 (signup_failures SignUpFixture.make_password "!"
                    SignUpFailureFixture.without_password Fixture.db)
                 ltac:(reflexivity)).
  - destruct (proj2 (signup_failures SignUpFixture.make_password "!"
                       SignUpFailureFixture.with_number Fixture.db)
                    (PyInt 1234) ltac:(reflexivity)
                    ltac:(discriminate) ltac:(discriminate))
      as (first & db' & Hrun & Husers & _).
    now exists first, db'.
Defined.

(** X11. A successful sign-up adds exactly one user, under a primary key
    no stored user has, so unique keys stay unique; the stored row holds
    every validated column other than [password] as it was given; and
    the recipes, ingredient lines, ingredients, tags and subscriptions
    are left as they were. *)
Theorem signup_adds_one_user
    (make_password : string -> string) (unusable_password : string)
    (validated_data : gmap string pyval) (db db' : DB) (instance : CustomUser) :
  CustomUserSignUpSerializer.create make_password unusable_password validated_data db
    = (Ok instance, db') ->
  users db' = users db ++ [instance] /\
  ~ (user_id instance ∈ (user_id <$> users db)) /\
  (NoDup (user_id <$> users db) -> NoDup (user_id <$> users db')) /\
  (forall key, key <> "password" -> user_fields instance !! key = validated_data !! key) /\
  recipes db' = recipes db /\
  recipe_ingredients db' = recipe_ingredients db /\
  ingredients db' = ingredients db /\
  all_tags db' = all_tags db /\
  following db' = following db.
Proof.
  unfold CustomUserSignUpSerializer.create, bind, lift, dict_pop.
  destruct (validated_data !! "password") as [password|]; [|discriminate].
  cbn [fst snd CustomUserSignUpSerializer.super_create].
  destruct (CustomUserSignUpSerializer.set_password _ _ _ password) as [u|] eqn:Hset;
    [|discriminate].
  cbn [CustomUserSignUpSerializer.save ret]. intros H. injection H as <- <-.
  assert (user_id u = next_id (user_id <$> users db) /\
          forall key, key <> "password" ->
            user_fields u !! key = validated_data !! key) as [Hid Hfields].
  { unfold CustomUserSignUpSerializer.set_password in Hset.
    destruct password; try discriminate; injection Hset as <-; cbn [user_id user_fields];
      (split; [reflexivity|]); intros key Hkey;
      now rewrite lookup_insert_ne, lookup_delete_ne by congruence. }
  cbn [users recipes recipe_ingredients ingredients all_tags following].
  assert ((fun x => if user_id x =? user_id u then u else x)
            <$> (users db ++ [mkCustomUser (next_id (user_id <$> users db))
                                (delete "password" validated_data)])
          = users db ++ [u]) as Hsaved
    by (apply (replace_fresh_row user_id); [exact Hid | now rewrite Hid]).
  rewrite Hsaved.
  split; [reflexivity|]. split; [rewrite Hid; apply next_id_fresh|].
  split; [|now repeat split].
  intros Hnodup. rewrite fmap_app. cbn [fmap list_fmap]. rewrite Hid.
  now apply NoDup_snoc_fresh.
Qed.

Lemma signup_adds_one_user_witness :
  exists instance db',
    CustomUserSignUpSerializer.create SignUpFixture.make_password "!"
      SignUpFixture.validated_data Fixture.db = (Ok instance, db') /\
    users db' = users Fixture.db ++ [instance] /\
    user_fields instance !! "email" = Some (PyStr "c@x.org").
Proof.
  destruct (CustomUserSignUpSerializer.create SignUpFixture.make_password "!"
              SignUpFixture.validated_data Fixture.db) as [[instance|e] db'] eqn:Hrun;
    [|vm_compute in Hrun; discriminate].
  destruct (signup_adds_one_user SignUpFixture.make_password "!"
              SignUpFixture.validated_data Fixture.db db' instance Hrun)
    as (Husers & _ & _ & Hfields & _).
  exists instance, db'. split; [reflexivity|]. split; [exact Husers|].
  rewrite Hfields by discriminate. reflexivity.
Defined.

(** ** Reading a recipe with a request at hand *)

(** X13. With the request of a stored user in the context, the read
    transformer renders every stored recipe of a database whose foreign
    keys are intact: the result has the primary key, one entry per
    ingredient line of the recipe, the author as the user transformer
    shows it ([None] for a recipe without author), and no [pub_date]. *)
Theorem recipe_rendered_with_request
    (context : gmap string pyval) (r : Request) (viewer : Z)
    (instance : Recipe) (db : DB) :
  referential_integrity db = true ->
  instance ∈ recipes db ->
  context !! "request" = Some (PyRequest r) ->
  user r = AuthenticatedUser viewer ->
  exists ret ds,
    RecipeSerializer.to_representation context instance db = Ok ret /\
    ret !! "id" = Some (PyInt (recipe_id instance)) /\
    ret !! "pub_date" = None /\
    ret !! "ingredients" = Some (PyList ds) /\
    length ds = length (recipe_lines db instance) /\
    match author instance with
    | Some k =>
        exists u d,
          find_user db k = Some u /\
          CustomUserSerializer.to_representation context u db = Ok d /\
          ret !! "author" = Some (PyDict d)
    | None => ret !! "author" = Some PyNone
    end.
Proof.
  intros Hdb Hin Hreq Huser.
  assert (Forall (fun l => is_Some (find_ingredient db (ingredient l)))
            (recipe_lines db instance)) as Hlines.
  { unfold recipe_lines. apply Forall_forall. intros l Hl.
    apply list_elem_of_filter in Hl as [_ Hl]. revert l Hl. apply Forall_forall.
    now apply referential_integrity_lines. }
  destruct (many_lines_rendered db _ Hlines) as (ds & Hmany & Hds).
  assert (exists a,
            RecipeSerializer.author_field context instance db = Ok a /\
            match author instance with
            | Some k =>
                exists u d,
                  find_user db k = Some u /\
                  CustomUserSerializer.to_representation context u db = Ok d /\
                  a = PyDict d
            | None => a = PyNone
            end) as (a & Ha & Hauthor).
  { unfold RecipeSerializer.author_field.
    destruct (author instance) as [k|] eqn:Hk; [|now exists PyNone].
    destruct (referential_integrity_author db instance k Hdb Hin Hk) as [u Hu].
    rewrite Hu.
    destruct (is_subscribed_user_total context r viewer u db Hreq Huser) as [b Hb].
    destruct (user_representation_rendered context u db b Hb) as (d & Hd & _).
    rewrite Hd. exists (PyDict d). split; [reflexivity|]. now exists u, d. }
  eexists. exists ds. split.
  { unfold RecipeSerializer.to_representation, RecipeSerializer.get_ingredients.
    rewrite Hmany. cbn [rbind]. rewrite Ha. reflexivity. }
  split; [apply lookup_insert_eq|]. split.
  { rewrite !lookup_insert_ne by discriminate. apply lookup_delete_eq. }
  split; [now rewrite !lookup_insert_ne, lookup_insert_eq by discriminate|].
  split; [symmetry; exact (Forall2_length _ _ _ Hds)|].
  destruct (author instance) as [k|].
  - destruct Hauthor as (u & d & Hu & Hd & ->). exists u, d.
    split; [exact Hu|]. split; [exact Hd|].
    now rewrite !lookup_insert_ne, lookup_insert_eq by discriminate.
  - rewrite Hauthor. now rewrite !lookup_insert_ne, lookup_insert_eq by discriminate.
Qed.

(** Alice reads bob's soup. *)
Lemma recipe_rendered_with_request_witness :
  exists ret d,
    RecipeSerializer.to_representation ViewerFixture.context
      (Fixture.dish 1 "soup") Fixture.db = Ok ret /\
    ret !! "author" = Some (PyDict d) /\
    ret !! "pub_date" = None.
Proof.
  destruct (recipe_rendered_with_request ViewerFixture.context
              (mkRequest ViewerFixture.asking (AuthenticatedUser 1)) 1
              (Fixture.dish 1 "soup") Fixture.db
              ltac:(reflexivity)
              ltac:(apply elem_of_cons; left; reflexivity)
              ltac:(reflexivity) ltac:(reflexivity))
    as (ret & ds & Hret & _ & Hdate & _ & _ & u & d & _ & _ & Hauthor).
  now exists ret, d.
Defined.

(** ** What validation hands to create *)

Lemma find_ingredient_stored (db : DB) (k : Z) (i : Ingredient) :
  find_ingredient db k = Some i ->
  ingredient_id i = k /\ k ∈ ingredient_id <$> ingredients db.
Proof.
  intros H. pose proof (find_ingredient_id db k i H) as Hid. split; [exact Hid|].
  unfold find_ingredient in H. apply find_some in H as [Hin _].
  rewrite <- Hid. apply list_elem_of_fmap_2. now apply list_elem_of_In.
Qed.

Lemma stored_ingredient_found (db : DB) (k : Z) :
  k ∈ ingredient_id <$> ingredients db -> is_Some (find_ingredient db k).
Proof.
  intros H. destruct (find_ingredient db k) as [i|] eqn:Hi; [now exists i|].
  exfalso. apply list_elem_of_fmap in H as (i & -> & Hin).
  unfold find_ingredient in Hi. apply list_elem_of_In in Hin.
  apply (find_none _ _ Hi) in Hin. now rewrite Z.eqb_refl in Hin.
Qed.

Lemma id_field_Ok (db : DB) (i v : pyval) :
  RecipeIngredientCreateSerializer.id_field db i = Ok v ->
  exists k, v = PyModel "Ingredient" k /\ k ∈ ingredient_id <$> ingredients db.
Proof.
  unfold RecipeIngredientCreateSerializer.id_field.
  destruct i; try discriminate.
  - destruct (find_ingredient db z) as [x|] eqn:Hx; [|discriminate].
    intros H. injection H as <-. apply find_ingredient_stored in Hx as [Hid Hin].
    exists (ingredient_id x). split; [reflexivity | now rewrite Hid].
  - destruct (Str.to_int s) as [k|]; [|discriminate].
    destruct (find_ingredient db k) as [x|] eqn:Hx; [|discriminate].
    intros H. injection H as <-. apply find_ingredient_stored in Hx as [Hid Hin].
    exists (ingredient_id x). split; [reflexivity | now rewrite Hid].
Qed.

Lemma to_internal_value_Ok (amount_field : pyval -> option pyval) (db : DB)
    (entry v : pyval) :
  RecipeIngredientCreateSerializer.to_internal_value amount_field db entry = Ok v ->
  validated_as amount_field db entry v.
Proof.
  unfold RecipeIngredientCreateSerializer.to_internal_value.
  destruct entry as [| | | | |d| | |]; try discriminate.
  destruct (d !! "id") as [i|] eqn:Hi; [|discriminate].
  destruct (d !! "amount") as [a|] eqn:Ha; [|discriminate].
  destruct (RecipeIngredientCreateSerializer.id_field db i) as [obj|] eqn:Hobj;
    [|discriminate].
  destruct (amount_field a) as [a'|] eqn:Ha'; [|discriminate].
  intros H. injection H as <-.
  apply id_field_Ok in Hobj as Hk. destruct Hk as (k & -> & Hk).
  now exists d, i, k, a, a'.
Qed.

(** X14. When the validation of the ingredient list succeeds, it returns
    one validated entry per entry of the payload, in the same order; each
    is the payload entry with [id] resolved to an ingredient that is in
    the table and stored under the key [ingredient], and with the
    validated amount; so every validated entry is one [create] can store,
    and names a stored ingredient. *)
Theorem validated_entries_name_stored_ingredients
    (amount_field : pyval -> option pyval) (db : DB) (entries vs : list pyval) :
  RecipeIngredientCreateSerializer.many amount_field db entries = Ok vs ->
  Forall2 (validated_as amount_field db) entries vs /\
  length vs = length entries /\
  Forall storable vs /\
  Forall (fun v => forall k,
            RecipeCreateSerializer.subscript v "ingredient" = Ok (PyModel "Ingredient" k) ->
            is_Some (find_ingredient db k)) vs.
Proof.
  intros H.
  assert (Forall2 (validated_as amount_field db) entries vs) as Hall.
  { revert vs H. induction entries as [|e entries IH]; intros vs H; simpl in H.
    - injection H as <-. constructor.
    - destruct (RecipeIngredientCreateSerializer.to_internal_value amount_field db e)
        as [v|] eqn:Hv; [|discriminate].
      destruct (RecipeIngredientCreateSerializer.many amount_field db entries)
        as [vs'|]; [|discriminate].
      injection H as <-. constructor; [now apply to_internal_value_Ok | now apply IH]. }
  split; [exact Hall|]. split; [symmetry; exact (Forall2_length _ _ _ Hall)|].
  split.
  - clear H. induction Hall as [|e v es vs' (d & i & k & a & a' & _ & _ & _ & _ & _ & _ & ->) _ IH];
      constructor; [|exact IH].
    exists k, a'. split; reflexivity.
  - clear H. induction Hall as [|e v es vs' (d & i & k & a & a' & _ & _ & _ & Hk & _ & _ & ->) _ IH];
      constructor; [|exact IH].
    intros k' Hk'. vm_compute in Hk'. injection Hk' as <-.
    now apply stored_ingredient_found.
Qed.

Lemma validated_entries_name_stored_ingredients_witness :
  exists vs,
    RecipeIngredientCreateSerializer.many RejectionFixture.amount_field Fixture.db
      [PyDict (RejectionFixture.entry 1 5); PyDict (RejectionFixture.entry 2 1)] = Ok vs /\
    length vs = 2%nat /\
    Forall storable vs.
Proof.
  destruct (RecipeIngredientCreateSerializer.many RejectionFixture.amount_field Fixture.db
              [PyDict (RejectionFixture.entry 1 5); PyDict (RejectionFixture.entry 2 1)])
    as [vs|e] eqn:Hrun; [|vm_compute in Hrun; discriminate].
  destruct (validated_entries_name_stored_ingredients
              RejectionFixture.amount_field Fixture.db _ vs Hrun)
    as (_ & Hlen & Hstorable & _).
  now exists vs.
Defined.

(** ** Creating a recipe, further *)

Lemma bind_outcome {A B : Type} (m : M A) (k : A -> M B) (db db' : DB) (res : result B) :
  bind m k db = (res, db') ->
  (exists e, m db = (Raise e, db') /\ res = Raise e) \/
  (exists a db1, m db = (Ok a, db1) /\ k a db1 = (res, db')).
Proof.
  unfold bind. destruct (m db) as [[a|e] db1]; intros H.
  - right. now exists a, db1.
  - left. injection H as <- <-. now exists e.
Qed.

Lemma lift_outcome {A : Type} (r res : result A) (db db' : DB) :
  lift r db = (res, db') -> res = r /\ db' = db.
Proof. unfold lift. intros H. injection H as <- <-. split; reflexivity. Qed.

Lemma nested_write_after_pop (validated_data : gmap string pyval) :
  RecipeCreateSerializer.nested_write (delete "ingredients" validated_data) = false.
Proof. unfold RecipeCreateSerializer.nested_write. now rewrite lookup_delete_eq. Qed.

Lemma related_kwarg_delete (model : string) (kwargs : gmap string pyval)
    (key other : string) :
  other <> key ->
  related_kwarg model (delete other kwargs) key = related_kwarg model kwargs key.
Proof. intros H. unfold related_kwarg. now rewrite lookup_delete_ne. Qed.

(** X15. The request in the context has no influence on what [create]
    does: two contexts that both hold a request, of whatever users, lead
    to the same result and the same database. *)
Theorem create_ignores_request
    (context1 context2 validated_data : gmap string pyval) (r1 r2 : Request) (db : DB) :
  context1 !! "request" = Some (PyRequest r1) ->
  context2 !! "request" = Some (PyRequest r2) ->
  RecipeCreateSerializer.create context1 validated_data db
    = RecipeCreateSerializer.create context2 validated_data db.
Proof.
  intros H1 H2. unfold RecipeCreateSerializer.create.
  rewrite (dict_get_lookup _ _ _ _ H1), (dict_get_lookup _ _ _ _ H2).
  reflexivity.
Qed.

(** Alice's request and an anonymous one create the same recipe. *)
Lemma create_ignores_request_witness :
  RecipeCreateSerializer.create CreateFixture.context CreateFixture.validated_data Fixture.db
    = RecipeCreateSerializer.create ViewerFixture.anonymous_context
        CreateFixture.validated_data Fixture.db.
Proof.
  exact (create_ignores_request CreateFixture.context ViewerFixture.anonymous_context
           CreateFixture.validated_data
           (mkRequest ∅ (AuthenticatedUser 1)) ViewerFixture.anonymous_request
           Fixture.db eq_refl eq_refl).
Defined.

(** X16. [create] fails before it writes anything when the context holds
    no request ([AttributeError], although the user read from it is never
    used), when the validated data have no [ingredients] ([KeyError]),
    and when their [author] is not a user ([ValueError]). *)
Theorem create_fails_before_writing
    (context validated_data : gmap string pyval) (db : DB) :
  (context !! "request" = None \/ context !! "request" = Some PyNone ->
   RecipeCreateSerializer.create context validated_data db = (Raise AttributeError, db)) /\
  (forall r,
     context !! "request" = Some (PyRequest r) ->
     validated_data !! "ingredients" = None ->
     RecipeCreateSerializer.create context validated_data db = (Raise KeyError, db)) /\
  (forall r e,
     context !! "request" = Some (PyRequest r) ->
     is_Some (validated_data !! "ingredients") ->
     related_kwarg "CustomUser" validated_data "author" = Raise e ->
     RecipeCreateSerializer.create context validated_data db = (Raise e, db)).
Proof.
  split; [|split].
  - intros H. unfold RecipeCreateSerializer.create, dict_get.
    now destruct H as [-> | ->].
  - intros r Hreq Hmissing. unfold RecipeCreateSerializer.create.
    rewrite (dict_get_lookup _ _ _ _ Hreq). unfold dict_pop. now rewrite Hmissing.
  - intros r e Hreq [v Hv] Hauthor. unfold RecipeCreateSerializer.create.
    rewrite (dict_get_lookup _ _ _ _ Hreq). unfold dict_pop. rewrite Hv.
    unfold bind at 1 2. cbn [lift CustomUserSerializer.getattr_user fst snd].
    unfold RecipeCreateSerializer.super_create. rewrite nested_write_after_pop.
    unfold RecipeCreateSerializer.objects_create.
    rewrite !related_kwarg_delete by discriminate. rewrite Hauthor.
    reflexivity.
Qed.

Lemma create_fails_before_writing_witness :
  RecipeCreateSerializer.create ∅ CreateFixture.validated_data Fixture.db
    = (Raise AttributeError, Fixture.db) /\
  RecipeCreateSerializer.create CreateFixture.context
    PartialFixture.without_ingredients Fixture.db = (Raise KeyError, Fixture.db).
Proof.
  split.
  - exact (proj1 (create_fails_before_writing ∅ CreateFixture.validated_data Fixture.db)
                 (or_introl eq_refl)).
  - exact (proj1 (proj2 (create_fails_before_writing CreateFixture.context
                           PartialFixture.without_ingredients Fixture.db))
                 (mkRequest ∅ (AuthenticatedUser 1)) eq_refl eq_refl).
Defined.

Lemma insert_key_elem (k x : Z) (ks : list Z) :
  x ∈ insert_key k ks <-> x = k \/ x ∈ ks.
Proof.
  induction ks as [|y ks IH]; cbn [insert_key].
  - rewrite list_elem_of_singleton, elem_of_nil. tauto.
  - destruct (Z.ltb_spec k y); [now rewrite elem_of_cons|].
    destruct (Z.eqb_spec k y) as [->|].
    + rewrite elem_of_cons. tauto.
    + rewrite !elem_of_cons, IH. tauto.
Qed.

Lemma key_set_elem (x : Z) (ks : list Z) : x ∈ key_set ks <-> x ∈ ks.
Proof.
  unfold key_set. induction ks as [|k ks IH]; cbn [foldr]; [reflexivity|].
  rewrite insert_key_elem, IH, elem_of_cons. tauto.
Qed.

Lemma insert_key_sorted (k : Z) (ks : list Z) :
  StronglySorted Z.lt ks -> StronglySorted Z.lt (insert_key k ks).
Proof.
  induction 1 as [|y ks Hks IH Hy]; cbn [insert_key].
  - repeat constructor.
  - destruct (Z.ltb_spec k y).
    + constructor; [now constructor|].
      constructor; [assumption|]. eapply Forall_impl; [exact Hy|]. cbn. lia.
    + destruct (Z.eqb_spec k y); [now constructor|].
      constructor; [exact IH|].
      apply Forall_forall. intros x Hx. apply insert_key_elem in Hx as [->|Hx]; [lia|].
      revert x Hx. now apply Forall_forall.
Qed.

Lemma key_set_NoDup (ks : list Z) : NoDup (key_set ks).
Proof.
  assert (StronglySorted Z.lt (key_set ks)) as H.
  { unfold key_set. induction ks as [|k ks IH]; cbn [foldr]; [constructor|].
    now apply insert_key_sorted. }
  induction H as [|y l _ IH Hy]; constructor; [|exact IH].
  intros Hin. rewrite Forall_forall in Hy. specialize (Hy y Hin). lia.
Qed.

Lemma related_keys_Ok (model : string) (vs : list pyval) (ks : list (option Z))
    (keys : list Z) :
  related_keys model vs = Ok ks ->
  all_keys ks = Ok keys ->
  Forall2 (fun v k => related_key model v = Ok (Some k)) vs keys.
Proof.
  revert ks keys. induction vs as [|v vs IH]; intros ks keys Hks Hkeys; cbn in Hks.
  - injection Hks as <-. cbn in Hkeys. injection Hkeys as <-. constructor.
  - destruct (related_key model v) as [k|] eqn:Hv; [|discriminate]. cbn in Hks.
    destruct (related_keys model vs) as [ks'|]; [|discriminate]. cbn in Hks.
    injection Hks as <-. cbn in Hkeys.
    destruct k as [k|]; [|discriminate].
    destruct (all_keys ks') as [keys'|] eqn:Hrest; [|discriminate]. cbn in Hkeys.
    injection Hkeys as <-. constructor; [exact Hv|]. now apply (IH ks').
Qed.

(** The tags and the columns of the row the base create returns. *)
Lemma super_create_row (validated_data : gmap string pyval) (db db' : DB)
    (instance : Recipe) :
  RecipeCreateSerializer.super_create validated_data db = (Ok instance, db') ->
  recipe_fields instance = delete "author" (delete "tags" validated_data) /\
  match validated_data !! "tags" with
  | Some value =>
      exists vs keys,
        RecipeCreateSerializer.py_iter value = Ok vs /\
        Forall2 (fun v k => related_key "Tag" v = Ok (Some k)) vs keys /\
        tags instance = key_set keys
  | None => tags instance = []
  end.
Proof.
  unfold RecipeCreateSerializer.super_create.
  destruct (RecipeCreateSerializer.nested_write validated_data); [discriminate|].
  intros H. apply bind_Ok in H as (r0 & db1 & Hcreate & H).
  apply objects_create_Ok in Hcreate as (_ & _ & Htags & Hfields & _).
  destruct (validated_data !! "tags") as [value|].
  - unfold RecipeCreateSerializer.set_tags in H.
    apply bind_Ok in H as (vs & db2 & Hvs & H). apply lift_Ok in Hvs as [Hvs ->].
    apply bind_Ok in H as (ks & db3 & Hks & H). apply lift_Ok in Hks as [Hks ->].
    apply bind_Ok in H as (keys & db4 & Hkeys & H). apply lift_Ok in Hkeys as [Hkeys ->].
    injection H as <- <-. cbn [recipe_fields tags]. split; [exact Hfields|].
    exists vs, keys. split; [exact Hvs|]. split; [|reflexivity].
    exact (related_keys_Ok "Tag" vs ks keys Hks Hkeys).
  - apply ret_Ok in H as [-> ->]. now split.
Qed.

(** X19. The recipe a successful [create] returns is built from the
    validated data alone: its author is the user under [author], which
    must be there; its tags are the set of the keys of the items under
    [tags], each a tag instance or a primary key, every key once (none
    when [tags] is missing); its columns are the remaining entries,
    without [ingredients]; the row is the last of the recipe table. *)
Theorem create_stores_validated_data
    (context validated_data : gmap string pyval) (db db' : DB) (instance : Recipe) :
  RecipeCreateSerializer.create context validated_data db = (Ok instance, db') ->
  (exists k,
     validated_data !! "author" = Some (PyModel "CustomUser" k) /\
     author instance = Some k) /\
  match validated_data !! "tags" with
  | Some value =>
      exists vs keys,
        RecipeCreateSerializer.py_iter value = Ok vs /\
        Forall2 (fun v k => related_key "Tag" v = Ok (Some k)) vs keys /\
        NoDup (tags instance) /\
        forall k, k ∈ tags instance <-> k ∈ keys
  | None => tags instance = []
  end /\
  (forall key,
     recipe_fields instance !! key =
       if existsb (String.eqb key) ["author"; "tags"; "ingredients"]
       then None else validated_data !! key) /\
  recipes db' = recipes db ++ [instance].
Proof.
  intros H. pose proof (create_Ok _ _ _ _ _ H) as
    (v & entries & ls & _ & _ & _ & _ & _ & Hst).
  pose proof (create_author _ _ _ _ _ H) as Hauthor.
  split; [exact Hauthor|].
  unfold RecipeCreateSerializer.create in H.
  apply bind_Ok in H as (who & db1 & Hwho & H). apply lift_Ok in Hwho as [_ ->].
  apply bind_Ok in H as ([ingredients rest] & db1 & Hpop & H).
  apply lift_Ok in Hpop as [Hpop ->]. cbn [fst snd] in H.
  unfold dict_pop in Hpop.
  destruct (validated_data !! "ingredients"); [|discriminate].
  injection Hpop as _ <-.
  apply bind_Ok in H as (r & db1 & Hsuper & H).
  apply bind_Ok in H as (es & db2 & _ & H).
  apply bind_Ok in H as ([] & db3 & _ & H). apply ret_Ok in H as [-> _].
  apply super_create_row in Hsuper as [Hfields Htags].
  rewrite lookup_delete_ne in Htags by discriminate.
  split; [|split].
  - destruct (validated_data !! "tags"); [|exact Htags].
    destruct Htags as (vs & keys & Hvs & Hkeys & ->).
    exists vs, keys. split; [exact Hvs|]. split; [exact Hkeys|].
    split; [apply key_set_NoDup|]. intros k. apply key_set_elem.
  - intros key. rewrite Hfields. cbn [existsb].
    destruct (String.eqb_spec key "author") as [->|Ha]; [apply lookup_delete_eq|].
    rewrite lookup_delete_ne by congruence.
    destruct (String.eqb_spec key "tags") as [->|Ht]; [apply lookup_delete_eq|].
    rewrite lookup_delete_ne by congruence.
    destruct (String.eqb_spec key "ingredients") as [->|Hi]; [apply lookup_delete_eq|].
    now rewrite lookup_delete_ne by congruence.
  - now destruct Hst as (_ & _ & _ & _ & Hrecipes & _).
Qed.

(** Alice's bread with the tags 3, 1 and 3 again. *)
Lemma create_stores_validated_data_witness :
  exists instance db',
    RecipeCreateSerializer.create CreateFixture.context CreateFixture.tagged
      Fixture.db = (Ok instance, db') /\
    author instance = Some 1 /\
    NoDup (tags instance) /\
    (forall k, k ∈ tags instance <-> k ∈ [3; 1; 3]) /\
    recipe_fields instance !! "name" = Some (PyStr "bread") /\
    recipe_fields instance !! "ingredients" = None.
Proof.
  destruct (RecipeCreateSerializer.create CreateFixture.context
              CreateFixture.tagged Fixture.db) as [[instance|e] db'] eqn:Hrun;
    [|vm_compute in Hrun; discriminate].
  destruct (create_stores_validated_data CreateFixture.context
              CreateFixture.tagged Fixture.db db' instance Hrun)
    as ((k & Hk & Hauthor) & Htags & Hfields & _).
  exists instance, db'. split; [reflexivity|].
  vm_compute in Hk. injection Hk as <-. split; [exact Hauthor|].
  cbn in Htags. destruct Htags as (vs & keys & Hvs & Hkeys & Hnodup & Hset).
  injection Hvs as <-.
  inversion Hkeys as [|? k1 ? keys1 H1 Hkeys1]; subst.
  inversion Hkeys1 as [|? k2 ? keys2 H2 Hkeys2]; subst.
  inversion Hkeys2 as [|? k3 ? keys3 H3 Hkeys3]; subst.
  inversion Hkeys3; subst.
  vm_compute in H1, H2, H3. injection H1 as <-. injection H2 as <-. injection H3 as <-.
  split; [exact Hnodup|]. split; [exact Hset|].
  now rewrite !Hfields.
Defined.

(** ** A create that fails half-way *)

Lemma save_entry_storable (instance : Recipe) (entry : pyval) (db : DB) :
  storable entry ->
  exists db', RecipeCreateSerializer.save_entry instance entry db = (Ok tt, db').
Proof.
  intros (k & a & Hk & Ha). unfold RecipeCreateSerializer.save_entry, bind, lift.
  rewrite Hk, Ha. cbn [RecipeCreateSerializer.save_line String.eqb Ascii.eqb Bool.eqb].
  eexists. reflexivity.
Qed.

(** The loop stores the entries before the one that fails and stops. *)
Lemma save_entries_interrupted (instance : Recipe) (good rest : list pyval)
    (bad : pyval) (e : exn) (db : DB) :
  Forall storable good ->
  (forall db0, RecipeCreateSerializer.save_entry instance bad db0 = (Raise e, db0)) ->
  exists db' ls,
    for_each (good ++ bad :: rest) (RecipeCreateSerializer.save_entry instance) db
      = (Raise e, db') /\
    Forall2 (line_of instance) good ls /\
    stored db db' [] ls.
Proof.
  intros Hgood Hbad. revert db.
  induction Hgood as [|x good Hx _ IH]; intros db.
  - exists db, []. cbn [app for_each]. unfold bind. rewrite Hbad.
    split; [reflexivity|]. split; [constructor | apply stored_refl].
  - destruct (save_entry_storable instance x db Hx) as [db1 Hrun].
    destruct (IH db1) as (db' & ls & Hloop & Hls & Hst).
    pose proof (save_entry_Ok instance x db db1 Hrun) as (l & Hl & Hst1).
    exists db', (l :: ls). split.
    + cbn [app for_each]. unfold bind at 1. rewrite Hrun. exact Hloop.
    + split; [now constructor|].
      exact (stored_trans _ _ _ [] [] [l] ls Hst1 Hst).
Qed.

(** X17. [create] is not all-or-nothing. Once the base create has stored
    the recipe, an ingredient entry whose save raises stops the loop with
    that exception, and what was written stays: the recipe row and one
    line for each of the entries before the failing one. *)
Theorem create_keeps_partial_aggregate
    (context validated_data : gmap string pyval) (r : Request) (db db1 : DB)
    (instance : Recipe) (good rest : list pyval) (bad : pyval) (e : exn) :
  context !! "request" = Some (PyRequest r) ->
  validated_data !! "ingredients" = Some (PyList (good ++ bad :: rest)) ->
  RecipeCreateSerializer.super_create (delete "ingredients" validated_data) db
    = (Ok instance, db1) ->
  Forall storable good ->
  (forall db0, RecipeCreateSerializer.save_entry instance bad db0 = (Raise e, db0)) ->
  exists db' ls,
    RecipeCreateSerializer.create context validated_data db = (Raise e, db') /\
    recipes db' = recipes db ++ [instance] /\
    recipe_ingredients db' = recipe_ingredients db ++ ls /\
    Forall2 (line_of instance) good ls.
Proof.
  intros Hreq Hentries Hsuper Hgood Hbad.
  destruct (save_entries_interrupted instance good rest bad e db1 Hgood Hbad)
    as (db' & ls & Hloop & Hls & Hst').
  pose proof (super_create_Ok _ _ _ _ Hsuper) as (_ & _ & Hst).
  exists db', ls. split.
  - unfold RecipeCreateSerializer.create.
    rewrite (dict_get_lookup _ _ _ _ Hreq). unfold dict_pop. rewrite Hentries.
    unfold bind at 1 2. cbn [lift CustomUserSerializer.getattr_user fst snd].
    unfold bind at 1. rewrite Hsuper.
    unfold bind at 1. cbn [lift RecipeCreateSerializer.py_iter].
    unfold bind at 1. now rewrite Hloop.
  - destruct (stored_trans _ _ _ [instance] [] [] ls Hst Hst')
      as (_ & _ & _ & _ & Hrecipes & Hlines).
    now split; [|split].
Qed.

(** Bread with flour and an entry that lost its ingredient. *)
Lemma create_keeps_partial_aggregate_witness :
  exists db' instance l,
    RecipeCreateSerializer.create CreateFixture.context PartialFixture.validated_data
      Fixture.db = (Raise KeyError, db') /\
    recipes db' = recipes Fixture.db ++ [instance] /\
    recipe_ingredients db' = recipe_ingredients Fixture.db ++ [l].
Proof.
  destruct (RecipeCreateSerializer.super_create
              (delete "ingredients" PartialFixture.validated_data) Fixture.db)
    as [[instance|e] db1] eqn:Hsuper; [|vm_compute in Hsuper; discriminate].
  assert (Forall storable [CreateFixture.entry 2 200]) as Hgood.
  { repeat constructor. exists 2, (PyInt 200). split; reflexivity. }
  destruct (create_keeps_partial_aggregate CreateFixture.context
              PartialFixture.validated_data (mkRequest ∅ (AuthenticatedUser 1))
              Fixture.db db1 instance [CreateFixture.entry 2 200] []
              PartialFixture.broken_entry KeyError
              ltac:(reflexivity) ltac:(reflexivity) Hsuper Hgood
              ltac:(intros db0; reflexivity))
    as (db' & ls & Hrun & Hrecipes & Hlines & Hls).
  inversion Hls as [|? l ? ls' _ Hnil]; subst. inversion Hnil; subst.
  now exists db', instance, l.
Defined.

(** ** What a create leaves behind, whatever its outcome *)

Lemma save_entry_outcome (instance : Recipe) (entry : pyval) (db db' : DB)
    (res : result unit) :
  RecipeCreateSerializer.save_entry instance entry db = (res, db') ->
  db' = db \/
  exists l,
    stored db db' [] [l] /\
    recipe l = recipe_id instance /\
    line_id l = next_id (line_id <$> recipe_ingredients db).
Proof.
  unfold RecipeCreateSerializer.save_entry. intros H.
  apply bind_outcome in H as [(e & H & _)|(v & db1 & Hv & H)];
    [apply lift_outcome in H as [_ ->]; now left|].
  apply lift_outcome in Hv as [_ ->].
  apply bind_outcome in H as [(e & H & _)|(a & db1 & Ha & H)];
    [apply lift_outcome in H as [_ ->]; now left|].
  apply lift_outcome in Ha as [_ ->].
  unfold RecipeCreateSerializer.save_line in H.
  destruct v; try (injection H as _ <-; now left).
  destruct (String.eqb model "Ingredient"); [|injection H as _ <-; now left].
  injection H as _ <-. right. eexists (mkRecipeIngredient _ _ _ _).
  split; [|split; reflexivity].
  unfold stored. cbn. rewrite app_nil_r. repeat split.
Qed.

Lemma save_entries_outcome (instance : Recipe) (entries : list pyval) (db db' : DB)
    (res : result unit) :
  for_each entries (RecipeCreateSerializer.save_entry instance) db = (res, db') ->
  exists ls,
    stored db db' [] ls /\
    Forall (fun l => recipe l = recipe_id instance) ls /\
    (NoDup (line_id <$> recipe_ingredients db) ->
     NoDup (line_id <$> recipe_ingredients db')).
Proof.
  revert db. induction entries as [|x entries IH]; intros db H; cbn [for_each] in H.
  - injection H as _ <-. exists []. split; [apply stored_refl|]. now split.
  - apply bind_outcome in H as [(e & H & _)|([] & db1 & Hx & H)].
    + apply save_entry_outcome in H as [->|(l & Hst & Hl & Hid)].
      * exists []. split; [apply stored_refl|]. now split.
      * exists [l]. split; [exact Hst|]. split; [now constructor|].
        intros Hnodup. destruct Hst as (_ & _ & _ & _ & _ & ->).
        rewrite fmap_app. cbn [fmap list_fmap]. rewrite Hid.
        now apply NoDup_snoc_fresh.
    + apply IH in H as (ls & Hst' & Hls & Hnodup').
      apply save_entry_outcome in Hx as [->|(l & Hst & Hl & Hid)].
      * now exists ls.
      * exists (l :: ls). split; [exact (stored_trans _ _ _ [] [] [l] ls Hst Hst')|].
        split; [now constructor|].
        intros Hnodup. apply Hnodup'. destruct Hst as (_ & _ & _ & _ & _ & ->).
        rewrite fmap_app. cbn [fmap list_fmap]. rewrite Hid.
        now apply NoDup_snoc_fresh.
Qed.

(** The base create stores nothing or exactly one recipe under a fresh
    key; a recipe it returns is that one. *)
Lemma super_create_outcome (validated_data : gmap string pyval) (db db' : DB)
    (res : result Recipe) :
  RecipeCreateSerializer.super_create validated_data db = (res, db') ->
  (exists e, res = Raise e) /\ stored db db' [] [] \/
  exists r,
    recipe_id r = next_id (recipe_id <$> recipes db) /\
    stored db db' [r] [] /\
    forall instance, res = Ok instance -> recipe_id instance = recipe_id r.
Proof.
  unfold RecipeCreateSerializer.super_create.
  destruct (RecipeCreateSerializer.nested_write validated_data).
  { intros H. injection H as <- <-. left. split; [now eexists | apply stored_refl]. }
  intros H. apply bind_outcome in H as [(e & H & ->)|(r0 & db1 & Hcreate & H)].
  - unfold RecipeCreateSerializer.objects_create in H.
    apply bind_outcome in H as [(e' & H & _)|(who & db1 & Hwho & H)].
    + apply lift_outcome in H as [_ ->]. left. split; [now eexists | apply stored_refl].
    + apply lift_outcome in Hwho as [_ ->].
      destruct who as [k|]; [discriminate|].
      injection H as _ <-. left. split; [now eexists | apply stored_refl].
  - apply objects_create_Ok in Hcreate as (_ & Hid & _ & _ & Hst).
    destruct (validated_data !! "tags") as [value|].
    + unfold RecipeCreateSerializer.set_tags in H.
      apply bind_outcome in H as [(e & H & ->)|(vs & db2 & Hvs & H)].
      { apply lift_outcome in H as [_ ->]. right. exists r0.
        split; [exact Hid|]. split; [exact Hst | discriminate]. }
      apply lift_outcome in Hvs as [_ ->].
      apply bind_outcome in H as [(e & H & ->)|(ks & db3 & Hks & H)].
      { apply lift_outcome in H as [_ ->]. right. exists r0.
        split; [exact Hid|]. split; [exact Hst | discriminate]. }
      apply lift_outcome in Hks as [_ ->].
      apply bind_outcome in H as [(e & H & ->)|(keys & db4 & Hkeys & H)].
      { apply lift_outcome in H as [_ ->]. right. exists r0.
        split; [exact Hid|]. split; [exact Hst | discriminate]. }
      apply lift_outcome in Hkeys as [_ ->].
      injection H as <- <-. right.
      exists (mkRecipe (recipe_id r0) (author r0) (key_set keys) (recipe_fields r0)).
      split; [exact Hid|]. split.
      * destruct Hst as (Hu & Hf & Ht & Hi & Hr & Hl). unfold stored. cbn.
        rewrite Hr. rewrite (replace_fresh_row recipe_id) by (exact Hid || reflexivity).
        now rewrite Hu, Hf, Ht, Hi, Hl.
      * intros instance Hinstance. now injection Hinstance as <-.
    + injection H as <- <-. right. exists r0.
      split; [exact Hid|]. split; [exact Hst|].
      intros instance Hinstance. now injection Hinstance as <-.
Qed.

Lemma create_outcome (context validated_data : gmap string pyval) (db db' : DB)
    (res : result Recipe) :
  RecipeCreateSerializer.create context validated_data db = (res, db') ->
  exists rs ls,
    stored db db' rs ls /\
    (rs = [] /\ ls = [] \/
     exists r, rs = [r] /\
               recipe_id r = next_id (recipe_id <$> recipes db) /\
               Forall (fun l => recipe l = recipe_id r) ls) /\
    (NoDup (line_id <$> recipe_ingredients db) ->
     NoDup (line_id <$> recipe_ingredients db')).
Proof.
  assert (forall db0 : DB, exists rs ls,
            stored db0 db0 rs ls /\
            (rs = [] /\ ls = [] \/
             exists r, rs = [r] /\
                       recipe_id r = next_id (recipe_id <$> recipes db0) /\
                       Forall (fun l => recipe l = recipe_id r) ls) /\
            (NoDup (line_id <$> recipe_ingredients db0) ->
             NoDup (line_id <$> recipe_ingredients db0))) as Hsame.
  { intros db0. exists [], []. split; [apply stored_refl|]. split; [now left | tauto]. }
  unfold RecipeCreateSerializer.create. intros H.
  apply bind_outcome in H as [(e & H & _)|(who & db1 & Hwho & H)];
    [apply lift_outcome in H as [_ ->]; apply Hsame|].
  apply lift_outcome in Hwho as [_ ->].
  apply bind_outcome in H as [(e & H & _)|([ingredients rest] & db1 & Hpop & H)];
    [apply lift_outcome in H as [_ ->]; apply Hsame|].
  apply lift_outcome in Hpop as [_ ->]. cbn [fst snd] in H.
  assert (forall r db1 db2 ls (out : result Recipe),
            recipe_id r = next_id (recipe_id <$> recipes db) ->
            stored db db1 [r] [] ->
            stored db1 db2 [] ls ->
            Forall (fun l => recipe l = recipe_id r) ls ->
            (NoDup (line_id <$> recipe_ingredients db1) ->
             NoDup (line_id <$> recipe_ingredients db2)) ->
            exists rs ls',
              stored db db2 rs ls' /\
              (rs = [] /\ ls' = [] \/
               exists r', rs = [r'] /\
                          recipe_id r' = next_id (recipe_id <$> recipes db) /\
                          Forall (fun l => recipe l = recipe_id r') ls') /\
              (NoDup (line_id <$> recipe_ingredients db) ->
               NoDup (line_id <$> recipe_ingredients db2))) as Hone.
  { intros r da db2 ls _ Hid Hst Hst' Hls Hnodup.
    exists [r], ls. split; [exact (stored_trans _ _ _ [r] [] [] ls Hst Hst')|].
    split; [right; now exists r|].
    intros Hdb. apply Hnodup. destruct Hst as (_ & _ & _ & _ & _ & ->).
    now rewrite app_nil_r. }
  apply bind_outcome in H as [(e & H & _)|(instance & db1 & Hsuper & H)].
  - apply super_create_outcome in H as [[_ Hst]|(r & Hid & Hst & _)].
    + exists [], []. split; [exact Hst|]. split; [now left|].
      destruct Hst as (_ & _ & _ & _ & _ & ->). now rewrite app_nil_r.
    + apply (Hone r _ _ [] (Raise e) Hid Hst (stored_refl _)); [constructor | tauto].
  - apply super_create_outcome in Hsuper as [[[e He] _]|(r & Hid & Hst & Hsame_id)].
    + discriminate.
    + specialize (Hsame_id instance eq_refl).
      apply bind_outcome in H as [(e & H & _)|(entries & db2 & Hiter & H)].
      * apply lift_outcome in H as [_ ->].
        apply (Hone r _ _ [] (Raise e) Hid Hst (stored_refl _)); [constructor | tauto].
      * apply lift_outcome in Hiter as [_ ->].
        apply bind_outcome in H as [(e & H & _)|([] & db3 & Hloop & H)].
        -- apply save_entries_outcome in H as (ls & Hst' & Hls & Hnodup).
           rewrite Hsame_id in Hls.
           exact (Hone r _ _ ls (Raise e) Hid Hst Hst' Hls Hnodup).
        -- injection H as _ <-.
           apply save_entries_outcome in Hloop as (ls & Hst' & Hls & Hnodup).
           rewrite Hsame_id in Hls.
           exact (Hone r _ _ ls res Hid Hst Hst' Hls Hnodup).
Qed.

(** X18. Whatever [create] returns, a result or any exception, it leaves
    well-keyed tables well-keyed (unique primary keys, every line under a
    stored recipe); it adds rows only, at most one recipe, and lines of
    that recipe only; and it never touches the users, the subscriptions,
    the tags or the ingredients. *)
Theorem create_keeps_tables_well_keyed
    (context validated_data : gmap string pyval) (db db' : DB) (res : result Recipe) :
  well_keyed db ->
  RecipeCreateSerializer.create context validated_data db = (res, db') ->
  well_keyed db' /\
  users db' = users db /\
  following db' = following db /\
  all_tags db' = all_tags db /\
  ingredients db' = ingredients db /\
  exists rs ls,
    recipes db' = recipes db ++ rs /\
    (length rs <= 1)%nat /\
    recipe_ingredients db' = recipe_ingredients db ++ ls /\
    Forall (fun l => recipe l ∈ (recipe_id <$> rs)) ls.
Proof.
  intros (Husers & Hrecipes & Hlines & Hattached) Hrun.
  apply create_outcome in Hrun as (rs & ls & Hst & Hshape & Hnodup).
  pose proof Hst as (Hu & Hf & Ht & Hi & Hr & Hl).
  assert (Forall (fun l => recipe l ∈ (recipe_id <$> rs)) ls) as Hmine.
  { destruct Hshape as [[-> ->]|(r & -> & _ & Hls)]; [constructor|].
    eapply Forall_impl; [exact Hls|]. intros l ->. cbn. apply elem_of_cons. now left. }
  split; [|split; [exact Hu|split; [exact Hf|split; [exact Ht|split; [exact Hi|]]]]].
  - unfold well_keyed. rewrite Hu. split; [exact Husers|]. split; [|split].
    + rewrite Hr, fmap_app.
      destruct Hshape as [[-> ->]|(r & -> & Hid & _)]; [now rewrite app_nil_r|].
      cbn [fmap list_fmap]. rewrite Hid. now apply NoDup_snoc_fresh.
    + now apply Hnodup.
    + unfold lines_of_stored_recipes in *. rewrite Hl, Hr, forallb_app.
      apply andb_true_iff. split.
      * rewrite forallb_forall in Hattached. apply forallb_forall. intros l Hin.
        specialize (Hattached l Hin). apply bool_decide_eq_true_1 in Hattached.
        apply bool_decide_eq_true_2. rewrite fmap_app. apply elem_of_app. now left.
      * apply forallb_forall. intros l Hin. apply bool_decide_eq_true_2.
        rewrite fmap_app. apply elem_of_app. right.
        apply list_elem_of_In in Hin. revert l Hin. now apply Forall_forall.
  - exists rs, ls. split; [exact Hr|]. split; [|now split].
    destruct Hshape as [[-> _]|(r & -> & _)]; simpl; lia.
Qed.

(** The create that fails on its second entry. *)
Lemma create_keeps_tables_well_keyed_witness :
  exists db',
    snd (RecipeCreateSerializer.create CreateFixture.context
           PartialFixture.validated_data Fixture.db) = db' /\
    well_keyed db' /\
    users db' = users Fixture.db.
Proof.
  destruct (RecipeCreateSerializer.create CreateFixture.context
              PartialFixture.validated_data Fixture.db) as [res db'] eqn:Hrun.
  assert (well_keyed Fixture.db) as Hdb.
  { unfold well_keyed. split; [|split; [|split]]; try reflexivity.
    - apply (bool_decide_unpack _). vm_compute. exact I.
    - apply (bool_decide_unpack _). vm_compute. exact I.
    - constructor. }
  destruct (create_keeps_tables_well_keyed CreateFixture.context
              PartialFixture.validated_data Fixture.db db' res Hdb Hrun)
    as (Hkeyed & Husers & _).
  now exists db'.
Defined.

(** ** The recipe a create stores, and what is answered for it *)

(** C2, at the failing inputs. Alice, authenticated, has a recipe created.
    From the data the serializer's own fields yield, which name no author,
    nothing is created: the user read from the request is dropped, the row
    is refused for want of an author, and the database is left as it was.
    From data into which the caller of [save] has put bob, the stored
    recipe is bob's, not that of the user of the request. *)
Theorem create_drops_request_user :
  CustomUserSerializer.getattr_user (dict_get CreateFixture.context "request" PyNone)
    = Ok (AuthenticatedUser 1) /\
  RecipeCreateSerializer.create CreateFixture.context CreateFixture.without_author
    Fixture.db = (Raise IntegrityError, Fixture.db) /\
  exists instance db',
    RecipeCreateSerializer.create CreateFixture.context CreateFixture.of_bob
      Fixture.db = (Ok instance, db') /\
    author instance = Some 2 /\
    recipes db' = recipes Fixture.db ++ [instance].
Proof.
  split; [reflexivity|]. split; [vm_compute; reflexivity|].
  eexists. eexists. split; [vm_compute; reflexivity|]. split; reflexivity.
Qed.

(** What a successful create leaves in the tables, given validated data
    whose entries name stored ingredients: the new recipe under a fresh
    key, one line per entry in the order of the entries, which are the
    recipe's only lines, and their rendering by the read transformer. *)
Lemma create_lines_rendered
    (context validated_data : gmap string pyval) (db db' : DB) (instance : Recipe)
    (entries : list pyval) :
  lines_of_stored_recipes db = true ->
  validated_data !! "ingredients" = Some (PyList entries) ->
  Forall (fun e => forall k,
            RecipeCreateSerializer.subscript e "ingredient" = Ok (PyModel "Ingredient" k) ->
            is_Some (find_ingredient db k)) entries ->
  RecipeCreateSerializer.create context validated_data db = (Ok instance, db') ->
  exists ls ds,
    stored db db' [instance] ls /\
    recipe_id instance = next_id (recipe_id <$> recipes db) /\
    Forall2 (line_of instance) entries ls /\
    recipe_lines db' instance = ls /\
    RecipeSerializer.get_ingredients instance db' = Ok (PyList ds) /\
    Forall2 (fun l d => RecipeIngredientSerializer.to_representation db' l = Ok d) ls ds.
Proof.
  intros Hfresh Hentries Hstored Hcreate.
  apply create_Ok in Hcreate
    as (v & entries' & ls & Hv & Hiter & _ & Hid & Hls & Hst).
  rewrite Hentries in Hv. injection Hv as <-. simpl in Hiter. injection Hiter as <-.
  pose proof Hst as (_ & _ & _ & Hingredients & _ & Hlines).
  assert (recipe_lines db' instance = ls) as Hmine.
  { unfold recipe_lines. rewrite Hlines, filter_app.
    rewrite (fresh_recipe_has_no_lines db _ Hfresh Hid). simpl.
    apply filter_all_lines. clear -Hls.
    induction Hls as [|e l es ls (_ & _ & Hr) _ IH]; constructor; assumption. }
  assert (Forall (fun l => is_Some (find_ingredient db' (ingredient l))) ls) as Hfound.
  { clear -Hls Hstored Hingredients.
    induction Hls as [|e l es ls (He & _ & _) _ IH]; constructor.
    - apply Forall_inv in Hstored. unfold find_ingredient. rewrite Hingredients.
      exact (Hstored _ He).
    - apply IH. now apply Forall_inv_tail in Hstored. }
  destruct (many_lines_rendered db' ls Hfound) as (ds & Hmany & Hds).
  exists ls, ds.
  split; [exact Hst|]. split; [exact Hid|]. split; [exact Hls|]. split; [exact Hmine|].
  split; [|exact Hds].
  unfold RecipeSerializer.get_ingredients. rewrite Hmine, Hmany. reflexivity.
Qed.



Lemma find_user_stored (db db' : DB) (rs : list Recipe) (ls : list RecipeIngredient)
    (k : Z) :
  stored db db' rs ls -> find_user db' k = find_user db k.
Proof. intros (Hu & _). unfold find_user. now rewrite Hu. Qed.




(** C10. The response of a successful create. The re-rendering of the
    recipe [create] returned goes through the read transformer with an
    empty context, and it never returns the nested read shape: the recipe
    has an author, and the nested user transformer cannot run without a
    request. With the stored data in order (every line under a stored
    recipe, the entries naming stored ingredients, the author a stored
    user) the lines are rendered, the user transformer reads
    [query_params] of the missing request, and what is raised is
    [AttributeError]. *)
Theorem create_response_raises_attribute_error
    (context validated_data : gmap string pyval) (db db' : DB) (instance : Recipe)
    (entries : list pyval) :
  RecipeCreateSerializer.create context validated_data db = (Ok instance, db') ->
  RecipeCreateSerializer.to_representation instance db' =
    RecipeSerializer.to_representation ∅ instance db' /\
  (forall ret, RecipeCreateSerializer.to_representation instance db' <> Ok ret) /\
  (lines_of_stored_recipes db = true ->
   validated_data !! "ingredients" = Some (PyList entries) ->
   Forall (fun e => forall k,
             RecipeCreateSerializer.subscript e "ingredient" = Ok (PyModel "Ingredient" k) ->
             is_Some (find_ingredient db k)) entries ->
   (forall k, validated_data !! "author" = Some (PyModel "CustomUser" k) ->
              is_Some (find_user db k)) ->
   RecipeCreateSerializer.to_representation instance db' = Raise AttributeError).
Proof.
  intros Hcreate. split; [reflexivity|].
  pose proof (create_author _ _ _ _ _ Hcreate) as (who & Hdata & Hwho).
  assert (forall a, RecipeSerializer.author_field ∅ instance db' <> Ok a) as Hauthor.
  { intros a. unfold RecipeSerializer.author_field. rewrite Hwho.
    destruct (find_user db' who); [|discriminate].
    now rewrite user_representation_needs_request. }
  split.
  - intros ret.
    unfold RecipeCreateSerializer.to_representation, RecipeSerializer.data,
      RecipeSerializer.to_representation.
    destruct (RecipeSerializer.get_ingredients instance db'); [|discriminate].
    cbn [rbind].
    destruct (RecipeSerializer.author_field ∅ instance db') as [shown|] eqn:Ha;
      [now destruct (Hauthor shown) | discriminate].
  - intros Hfresh Hentries Hstored Huser.
    destruct (create_lines_rendered _ _ _ _ _ _ Hfresh Hentries Hstored Hcreate)
      as (ls & ds & Hst & _ & _ & _ & Hget & _).
    destruct (Huser who Hdata) as [u Hu].
    unfold RecipeCreateSerializer.to_representation, RecipeSerializer.data,
      RecipeSerializer.to_representation.
    rewrite Hget. cbn [rbind]. unfold RecipeSerializer.author_field.
    rewrite Hwho, (find_user_stored db db' _ _ who Hst), Hu.
    now rewrite user_representation_needs_request.
Qed.

(** Alice's bread again: it is stored, and the response raises. *)
Lemma create_response_raises_attribute_error_witness :
  exists instance db',
    RecipeCreateSerializer.create CreateFixture.context CreateFixture.validated_data
      Fixture.db = (Ok instance, db') /\
    author instance = Some 1 /\
    RecipeCreateSerializer.to_representation instance db' = Raise AttributeError.
Proof.
  destruct (RecipeCreateSerializer.create CreateFixture.context
              CreateFixture.validated_data Fixture.db) as [[instance|e] db'] eqn:Hrun;
    [|vm_compute in Hrun; discriminate].
  destruct (create_response_raises_attribute_error CreateFixture.context
              CreateFixture.validated_data Fixture.db db' instance CreateFixture.entries
              Hrun) as (_ & _ & Hraises).
  exists instance, db'. split; [reflexivity|]. split.
  - vm_compute in Hrun. now injection Hrun as <- _.
  - apply Hraises; [reflexivity | reflexivity | |].
    + repeat constructor; intros k Hk; vm_compute in Hk; injection Hk as <-;
        eexists; reflexivity.
    + intros k Hk. vm_compute in Hk. injection Hk as <-. eexists. reflexivity.
Defined.
